(** * lite_observability: the telemetry store and its configuration

    A shallow embedding of [lite_observability/data_store.py] (class
    [DataStore]) and [lite_observability/config.py] (class [ConfigManager]),
    with the properties of the specification stated over it.

    Conventions of the embedding.
    - Python numbers ([int], [float]) that enter arithmetic are rationals
      ([Q]): [time.time()] readings, durations, rates.  Floating-point
      rounding is not modelled.
    - A [dict] with open keys (the configuration, a trace, an error, the
      attributes of a custom metric) is a [gmap string _] of [Val]s.  A
      payload that the code reads key by key (a request, a resource
      snapshot) is a record: a key that may be absent is an [option], and a
      key that is present holds a value of the type the code uses it at.
    - Strings are ASCII.
    - A [collections.deque] is its [maxlen] and its items, oldest first.
    - Code that can raise returns a [result]; the state reached by a call
      that raises is not observed.
    - Every call of [time.time()] is an explicit argument of the function
      that makes it, named after the variable the source binds it to.
    - [emit] hands an event to callbacks registered from outside; a call
      returns the events it emitted, in order.  The callbacks themselves,
      the lock and the persistence thread are outside the embedding. *)

From Stdlib Require Import Ascii QArith Qround.
From stdpp Require Import gmap strings list fin_maps sorting.

Local Open Scope Z_scope.
Local Open Scope Q_scope.
Local Open Scope string_scope.
Local Open Scope list_scope.
Local Open Scope stdpp_scope.

(** ** Exceptions and results *)

Inductive exn :=
  | KeyError (key : string)
  | ValueError (msg : string)
  | TypeError
  | IndexError.

Inductive result (A : Type) :=
  | Ok (a : A)
  | Raise (e : exn).
Arguments Ok {A} a.
Arguments Raise {A} e.

Definition bind {A B} (m : result A) (k : A -> result B) : result B :=
  match m with
  | Ok a => k a
  | Raise e => Raise e
  end.

Notation "'let*' x ':=' m 'in' k" := (bind m (fun x => k))
  (at level 10, x name, m at level 100, k at level 200,
   format "'let*'  x  ':='  m  'in' '//' k").

Definition raises {A} (m : result A) : Prop :=
  match m with Ok _ => False | Raise _ => True end.

Definition is_ok {A} (m : result A) : bool :=
  match m with Ok _ => true | Raise _ => false end.

(** ** Numbers *)

Definition Qnat (n : nat) : Q := inject_Z (Z.of_nat n).

(** [a < b] on numbers. *)
Definition Qltb (a b : Q) : bool := negb (Qle_bool b a).

(** [int(x)] of a float: truncation towards zero. *)
Definition int_of_float (x : Q) : Z := Z.quot (Qnum x) (Zpos (Qden x)).

(** ** Python values held under open keys *)

Inductive Val :=
  | VNone
  | VBool (b : bool)
  | VInt (z : Z)
  | VFloat (q : Q)
  | VStr (s : string)
  | VDict (d : gmap string string).

(** Truth value of an object, as [if x:] takes it. *)
Definition truthy (v : Val) : bool :=
  match v with
  | VNone => false
  | VBool b => b
  | VInt z => negb (Z.eqb z 0)
  | VFloat q => negb (Qeq_bool q 0)
  | VStr s => negb (String.eqb s "")
  | VDict d => negb (bool_decide (d = ∅))
  end.

(** The number an object is in a comparison with a number; [bool] is a
    subclass of [int]; anything else raises [TypeError]. *)
Definition num_of (v : Val) : result Q :=
  match v with
  | VInt z => Ok (inject_Z z)
  | VFloat q => Ok q
  | VBool b => Ok (if b then 1 else 0)
  | _ => Raise TypeError
  end.

(** ** ConfigManager *)

(** [s.lower()], on ASCII letters. *)
Definition lower_ascii (c : ascii) : ascii :=
  let n := nat_of_ascii c in
  if ((65 <=? n) && (n <=? 90))%nat then ascii_of_nat (n + 32) else c.

Fixpoint lower (s : string) : string :=
  match s with
  | EmptyString => EmptyString
  | String c s' => String (lower_ascii c) (lower s')
  end.

(** [c.isspace()], on ASCII characters. *)
Definition is_space (c : ascii) : bool :=
  let n := nat_of_ascii c in
  (((9 <=? n) && (n <=? 13)) || ((28 <=? n) && (n <=? 32)))%nat.

Fixpoint lstrip (s : string) : string :=
  match s with
  | EmptyString => EmptyString
  | String c s' => if is_space c then lstrip s' else s
  end.

Fixpoint rstrip (s : string) : string :=
  match s with
  | EmptyString => EmptyString
  | String c s' =>
      match rstrip s' with
      | EmptyString => if is_space c then EmptyString else String c EmptyString
      | r => String c r
      end
  end.

(** [s.strip()]. *)
Definition strip (s : string) : string := rstrip (lstrip s).

(** [s.split(sep)] for a one-character separator. *)
Fixpoint split (sep : ascii) (s : string) : list string :=
  match s with
  | EmptyString => [EmptyString]
  | String c s' =>
      if Ascii.eqb c sep then EmptyString :: split sep s'
      else match split sep s' with
           | h :: t => String c h :: t
           | [] => [String c EmptyString]
           end
  end.

(** [s.split(sep, 1)] when [sep in s]: what is before and after the first
    separator; [None] when [sep] does not occur. *)
Fixpoint split_once (sep : ascii) (s : string) : option (string * string) :=
  match s with
  | EmptyString => None
  | String c s' =>
      if Ascii.eqb c sep then Some (EmptyString, s')
      else match split_once sep s' with
           | Some (k, v) => Some (String c k, v)
           | None => None
           end
  end.

Definition _parse_bool (value : option string) (default : bool) : bool :=
  match value with
  | None => default
  | Some value => bool_decide (lower value ∈ ["true"; "1"; "yes"; "on"])
  end.

Definition _parse_headers (headers_string : option string) : gmap string string :=
  match headers_string with
  | None | Some EmptyString => ∅
  | Some headers_string =>
      fold_left
        (fun headers header =>
           match split_once "=" header with
           | Some (key, value) => <[strip key := strip value]> headers
           | None => headers
           end)
        (split "," headers_string) ∅
  end.

Section Builtins.

(** The builtins [int] and [float] on a string of the environment. *)
Variable py_int : string -> result Z.
Variable py_float : string -> result Q.

(** [int(os.getenv(name, lit))], where [default] is the integer that
    the literal [lit] of the source denotes. *)
Definition getenv_int (env : gmap string string) (name : string) (default : Z)
    : result Z :=
  match env !! name with
  | Some s => py_int s
  | None => Ok default
  end.

(** [float(os.getenv(name, lit))]. *)
Definition getenv_float (env : gmap string string) (name : string) (default : Q)
    : result Q :=
  match env !! name with
  | Some s => py_float s
  | None => Ok default
  end.

(** The dict literal [default_config] of [_build_config]; its entries
    are evaluated in order, so the first value that does not parse
    raises. *)
Definition default_config (env : gmap string string) : result (gmap string Val) :=
  let* dashboard_port := getenv_int env "LITEOBS_DASHBOARD_PORT" 8001 in
  let* sample_rate := getenv_float env "LITEOBS_SAMPLE_RATE" 1.0 in
  let* metrics_interval := getenv_int env "LITEOBS_METRICS_INTERVAL" 5000 in
  let* resource_interval := getenv_int env "LITEOBS_RESOURCE_INTERVAL" 5000 in
  let* max_traces := getenv_int env "LITEOBS_MAX_TRACES" 1000 in
  let* max_errors := getenv_int env "LITEOBS_MAX_ERRORS" 500 in
  let* max_metric_points := getenv_int env "LITEOBS_MAX_METRIC_POINTS" 1440 in
  let* prometheus_port := getenv_int env "LITEOBS_PROMETHEUS_PORT" 9090 in
  let* max_concurrent_requests :=
    getenv_int env "LITEOBS_MAX_CONCURRENT_REQUESTS" 1000 in
  let* memory_threshold :=
    getenv_int env "LITEOBS_MEMORY_THRESHOLD" (512 * 1024 * 1024) in
  let* cpu_threshold := getenv_float env "LITEOBS_CPU_THRESHOLD" 80.0 in
  Ok (list_to_map [
    ("service_name", VStr (default "unknown-service" (env !! "LITEOBS_SERVICE_NAME")));
    ("service_version", VStr (default "1.0.0" (env !! "LITEOBS_SERVICE_VERSION")));
    ("environment", VStr (default "development" (env !! "ENVIRONMENT")));
    ("dashboard", VBool (_parse_bool (env !! "LITEOBS_DASHBOARD") true));
    ("dashboard_port", VInt dashboard_port);
    ("auto_open", VBool (_parse_bool (env !! "LITEOBS_AUTO_OPEN") true));
    ("enable_tracing", VBool (_parse_bool (env !! "LITEOBS_ENABLE_TRACING") true));
    ("sample_rate", VFloat sample_rate);
    ("enable_metrics", VBool (_parse_bool (env !! "LITEOBS_ENABLE_METRICS") true));
    ("metrics_interval", VInt metrics_interval);
    ("enable_resource_monitoring",
      VBool (_parse_bool (env !! "LITEOBS_ENABLE_RESOURCE_MONITORING") true));
    ("resource_interval", VInt resource_interval);
    ("enable_error_tracking",
      VBool (_parse_bool (env !! "LITEOBS_ENABLE_ERROR_TRACKING") true));
    ("max_traces", VInt max_traces);
    ("max_errors", VInt max_errors);
    ("max_metric_points", VInt max_metric_points);
    ("persistence", VBool (_parse_bool (env !! "LITEOBS_PERSISTENCE") false));
    ("persistence_path", VStr (default ".observability" (env !! "LITEOBS_PERSISTENCE_PATH")));
    ("enable_prometheus", VBool (_parse_bool (env !! "LITEOBS_ENABLE_PROMETHEUS") false));
    ("prometheus_port", VInt prometheus_port);
    ("otlp_endpoint",
      match env !! "OTEL_EXPORTER_OTLP_ENDPOINT" with Some s => VStr s | None => VNone end);
    ("otlp_headers", VDict (_parse_headers (env !! "OTEL_EXPORTER_OTLP_HEADERS")));
    ("max_concurrent_requests", VInt max_concurrent_requests);
    ("memory_threshold", VInt memory_threshold);
    ("cpu_threshold", VFloat cpu_threshold);
    ("auto_instrument_fastapi",
      VBool (_parse_bool (env !! "LITEOBS_AUTO_INSTRUMENT_FASTAPI") true));
    ("capture_request_bodies",
      VBool (_parse_bool (env !! "LITEOBS_CAPTURE_REQUEST_BODIES") false));
    ("capture_response_bodies",
      VBool (_parse_bool (env !! "LITEOBS_CAPTURE_RESPONSE_BODIES") false))
  ]).

(** [config[key]] as a number in a comparison. *)
Definition config_num (config : gmap string Val) (key : string) : result Q :=
  match config !! key with
  | Some v => num_of v
  | None => Raise (KeyError key)
  end.

Definition _validate_config (config : gmap string Val) : result unit :=
  let* port := config_num config "dashboard_port" in
  if negb (Qle_bool 1 port && Qle_bool port 65535)
  then Raise (ValueError "Invalid dashboard port") else
  let* port := config_num config "prometheus_port" in
  if negb (Qle_bool 1 port && Qle_bool port 65535)
  then Raise (ValueError "Invalid Prometheus port") else
  let* rate := config_num config "sample_rate" in
  if negb (Qle_bool 0 rate && Qle_bool rate 1)
  then Raise (ValueError "Invalid sample rate") else
  let* interval := config_num config "metrics_interval" in
  if Qltb interval 1000
  then Raise (ValueError "Metrics interval too low") else
  let* interval := config_num config "resource_interval" in
  if Qltb interval 1000
  then Raise (ValueError "Resource interval too low") else
  let* limit := config_num config "max_traces" in
  if Qltb limit 1
  then Raise (ValueError "Invalid max_traces") else
  let* limit := config_num config "max_errors" in
  if Qltb limit 1
  then Raise (ValueError "Invalid max_errors") else
  let* threshold := config_num config "cpu_threshold" in
  if negb (Qle_bool 0 threshold && Qle_bool threshold 100)
  then Raise (ValueError "Invalid CPU threshold") else
  Ok tt.

(** [{**default_config, **options}]: the keys of [options] win. *)
Definition _build_config (env : gmap string string) (options : gmap string Val)
    : result (gmap string Val) :=
  let* default_config := default_config env in
  let merged_config := options ∪ default_config in
  let* _ := _validate_config merged_config in
  Ok merged_config.

(** [ConfigManager(options)] in the environment [env]. *)
Definition ConfigManager_init (env : gmap string string) (options : gmap string Val)
    : result (gmap string Val) :=
  _build_config env options.

End Builtins.

(** ** collections.deque *)

Record deque (A : Type) := Deque { maxlen : option nat; items : list A }.
Arguments Deque {A} maxlen items.
Arguments maxlen {A} d.
Arguments items {A} d.

(** [deque(maxlen=v)]: [None] is unbounded, a negative integer raises
    [ValueError], a non-integer raises [TypeError]. *)
Definition deque_new {A} (v : Val) : result (deque A) :=
  match v with
  | VNone => Ok (Deque None [])
  | VInt z =>
      if (z <? 0)%Z then Raise (ValueError "maxlen must be non-negative")
      else Ok (Deque (Some (Z.to_nat z)) [])
  | VBool b => Ok (Deque (Some (if b then 1%nat else 0%nat)) [])
  | _ => Raise TypeError
  end.

(** [d.append(x)]: the item goes to the right end, and when the deque is
    then longer than [maxlen] one item is removed from the left end. *)
Definition deque_append {A} (x : A) (d : deque A) : deque A :=
  let l := items d ++ [x] in
  match maxlen d with
  | Some c => if (c <? length l)%nat then Deque (Some c) (tail l) else Deque (Some c) l
  | None => Deque None l
  end.

(** [d.extend(xs)]: [append] of every item, left to right. *)
Definition deque_extend {A} (xs : list A) (d : deque A) : deque A :=
  fold_left (fun d x => deque_append x d) xs d.

(** [deque(xs, maxlen=v)]. *)
Definition deque_of_list {A} (xs : list A) (v : Val) : result (deque A) :=
  let* d := deque_new v in Ok (deque_extend xs d).

(** [d.clear()]. *)
Definition deque_clear {A} (d : deque A) : deque A := Deque (maxlen d) [].

(** The length invariant of a deque. *)
Definition bounded {A} (d : deque A) : Prop :=
  match maxlen d with
  | Some c => (length (items d) <= c)%nat
  | None => True
  end.

(** ** Python list operations the store uses *)

(** [l[start:]]: a negative [start] counts from the right end, and a start
    beyond either end is clipped to it. *)
Definition slice_from {A} (start : Z) (l : list A) : list A :=
  let n := Z.of_nat (length l) in
  let i := if (start <? 0)%Z then Z.max 0 (start + n) else Z.min start n in
  drop (Z.to_nat i) l.

(** [l[i]]: a negative [i] counts from the right end; out of range raises
    [IndexError]. *)
Definition list_item {A} (l : list A) (i : Z) : result A :=
  let n := Z.of_nat (length l) in
  let j := if (i <? 0)%Z then (i + n)%Z else i in
  if (j <? 0)%Z then Raise IndexError
  else match l !! Z.to_nat j with
       | Some x => Ok x
       | None => Raise IndexError
       end.

(** [sorted(l)] on numbers: ascending and stable. *)
Fixpoint insert_sorted (x : Q) (l : list Q) : list Q :=
  match l with
  | [] => [x]
  | y :: l' => if Qle_bool x y then x :: y :: l' else y :: insert_sorted x l'
  end.

Fixpoint sorted (l : list Q) : list Q :=
  match l with
  | [] => []
  | x :: l' => insert_sorted x (sorted l')
  end.

(** ** The data of the store *)

(** [{'value': v, 'timestamp': t}], a point of a time series. *)
Record Point := { p_value : Q; p_timestamp : Q }.

(** What a metric holds under ['values']: the [list] that
    [_initialize_metrics] puts there, or the [deque] that
    [_add_time_series] creates when the key is absent. *)
Inductive Series :=
  | SList (l : list Point)
  | SDeque (d : deque Point).

Definition series_items (vs : Series) : list Point :=
  match vs with
  | SList l => l
  | SDeque d => items d
  end.

(** [values.append(p)] on either. *)
Definition series_append (p : Point) (vs : Series) : Series :=
  match vs with
  | SList l => SList (l ++ [p])
  | SDeque d => SDeque (deque_append p d)
  end.

(** An entry of [self.metrics]: a dict with ['timestamp'] and one of
    ['value'] and ['values']. *)
Record Metric := {
  m_value : option Q;
  m_values : option Series;
  m_timestamp : Q;
}.

(** The payload of [record_request]; every key is read with [.get]. *)
Record RequestData := {
  rd_duration : option Q;
  rd_status_code : option Z;
  rd_method : option string;
  rd_path : option string;
  rd_user_agent : option string;
  rd_ip : option string;
}.

(** An entry of [self.request_metrics]. *)
Record RequestRecord := {
  rq_timestamp : Q;
  rq_method : string;
  rq_path : string;
  rq_status_code : Z;
  rq_duration : Q;
  rq_user_agent : option string;
  rq_ip : option string;
}.

(** The payload of [record_resource_metrics], and, with ['timestamp']
    set, an entry of [self.resource_metrics]. *)
Record MemoryData := { mem_rss : option Q; mem_percent : option Q }.
Record SystemMemory := { smem_percent : option Q }.
Record SystemData := {
  sys_load_average : option (list Q);
  sys_memory : option SystemMemory;
}.
Record ResourceData := {
  res_timestamp : option Q;
  res_cpu : option Q;
  res_memory : option MemoryData;
  res_system : option SystemData;
}.

(** An entry of [self.custom_metrics]. *)
Record CustomMetric := {
  cm_values : deque Point;
  cm_attributes : gmap string Val;
}.

(** The fields of a [DataStore] that hold data. *)
Record DataStore := {
  config : gmap string Val;
  metrics : gmap string Metric;
  traces : deque (gmap string Val);
  errors : deque (gmap string Val);
  custom_metrics : gmap string CustomMetric;
  resource_metrics : deque ResourceData;
  request_metrics : deque RequestRecord;
}.

Definition with_metrics (m : gmap string Metric) (s : DataStore) : DataStore :=
  {| config := config s; metrics := m; traces := traces s; errors := errors s;
     custom_metrics := custom_metrics s; resource_metrics := resource_metrics s;
     request_metrics := request_metrics s |}.

Definition with_traces (d : deque (gmap string Val)) (s : DataStore) : DataStore :=
  {| config := config s; metrics := metrics s; traces := d; errors := errors s;
     custom_metrics := custom_metrics s; resource_metrics := resource_metrics s;
     request_metrics := request_metrics s |}.

Definition with_errors (d : deque (gmap string Val)) (s : DataStore) : DataStore :=
  {| config := config s; metrics := metrics s; traces := traces s; errors := d;
     custom_metrics := custom_metrics s; resource_metrics := resource_metrics s;
     request_metrics := request_metrics s |}.

Definition with_custom_metrics (m : gmap string CustomMetric) (s : DataStore) : DataStore :=
  {| config := config s; metrics := metrics s; traces := traces s; errors := errors s;
     custom_metrics := m; resource_metrics := resource_metrics s;
     request_metrics := request_metrics s |}.

Definition with_resource_metrics (d : deque ResourceData) (s : DataStore) : DataStore :=
  {| config := config s; metrics := metrics s; traces := traces s; errors := errors s;
     custom_metrics := custom_metrics s; resource_metrics := d;
     request_metrics := request_metrics s |}.

Definition with_request_metrics (d : deque RequestRecord) (s : DataStore) : DataStore :=
  {| config := config s; metrics := metrics s; traces := traces s; errors := errors s;
     custom_metrics := custom_metrics s; resource_metrics := resource_metrics s;
     request_metrics := d |}.

(** What [emit] passes to the callbacks of an event. *)
Inductive EventData :=
  | EvRequest (request_data : RequestData)
  | EvRecord (record : gmap string Val)
  | EvResource (resource_record : ResourceData)
  | EvCustomMetric (name : string) (value : Q) (attributes : gmap string Val)
  | EvEmpty.

Definition Event : Type := string * EventData.

(** [config.get(key)]: [None] for an absent key. *)
Definition config_get (c : gmap string Val) (key : string) : Val :=
  default VNone (c !! key).

(** [self.metrics[name]]. *)
Definition metric_item (name : string) (s : DataStore) : result Metric :=
  match metrics s !! name with
  | Some m => Ok m
  | None => Raise (KeyError name)
  end.

(** [metric['value']]. *)
Definition value_item (m : Metric) : result Q :=
  match m_value m with
  | Some v => Ok v
  | None => Raise (KeyError "value")
  end.

(** The store after the dict [self.metrics[name]] was changed to [m]. *)
Definition with_metric (name : string) (m : Metric) (s : DataStore) : DataStore :=
  with_metrics (<[name := m]> (metrics s)) s.

Definition set_value (v : Q) (m : Metric) : Metric :=
  {| m_value := Some v; m_values := m_values m; m_timestamp := m_timestamp m |}.

Definition set_values (vs : Series) (m : Metric) : Metric :=
  {| m_value := m_value m; m_values := Some vs; m_timestamp := m_timestamp m |}.

Definition set_timestamp (t : Q) (m : Metric) : Metric :=
  {| m_value := m_value m; m_values := m_values m; m_timestamp := t |}.

(** ** DataStore: construction and recording *)

Definition counter (v now : Q) : Metric :=
  {| m_value := Some v; m_values := None; m_timestamp := now |}.

Definition empty_series (now : Q) : Metric :=
  {| m_value := None; m_values := Some (SList []); m_timestamp := now |}.

(** The dict literal of [_initialize_metrics]. *)
Definition initial_metrics (now : Q) : gmap string Metric :=
  list_to_map [
    ("http_requests_total", counter 0 now);
    ("http_request_duration_seconds", empty_series now);
    ("http_requests_per_minute", empty_series now);
    ("http_error_rate", counter 0 now);
    ("active_requests", counter 0 now);
    ("process_cpu_percent", empty_series now);
    ("process_memory_bytes", empty_series now);
    ("process_memory_percent", empty_series now);
    ("system_load_average", empty_series now);
    ("system_memory_usage", empty_series now)
  ].

(** [self.metrics.update({...})]: the keys of the literal win. *)
Definition _initialize_metrics (now : Q) (s : DataStore) : DataStore :=
  with_metrics (initial_metrics now ∪ metrics s) s.

Definition _add_time_series (metric_name : string) (value timestamp : Q)
    (s : DataStore) : result DataStore :=
  let* metric := metric_item metric_name s in
  let* vs :=
    match m_values metric with
    | None =>
        let* d := deque_new (config_get (config s) "max_metric_points") in
        Ok (SDeque d)
    | Some vs => Ok vs
    end in
  let vs := series_append {| p_value := value; p_timestamp := timestamp |} vs in
  Ok (with_metric metric_name (set_timestamp timestamp (set_values vs metric)) s).

Definition _calculate_requests_per_minute (now : Q) (s : DataStore)
    : result DataStore :=
  let one_minute_ago := now - 60 in
  let recent_requests :=
    List.filter (fun req => Qltb one_minute_ago (rq_timestamp req))
      (items (request_metrics s)) in
  _add_time_series "http_requests_per_minute" (Qnat (length recent_requests)) now s.

(** [len(errs) / len(reqs) * 100 if reqs else 0.0]. *)
Definition error_rate_of (error_requests recent_requests : list RequestRecord) : Q :=
  match recent_requests with
  | [] => 0
  | _ => Qnat (length error_requests) / Qnat (length recent_requests) * 100
  end.

Definition is_error (req : RequestRecord) : bool := (400 <=? rq_status_code req)%Z.

Definition _update_error_rate (now : Q) (s : DataStore) : result DataStore :=
  let five_minutes_ago := now - 300 in
  let recent_requests :=
    List.filter (fun req => Qltb five_minutes_ago (rq_timestamp req))
      (items (request_metrics s)) in
  let error_requests := List.filter is_error recent_requests in
  let error_rate := error_rate_of error_requests recent_requests in
  let* m := metric_item "http_error_rate" s in
  let s := with_metric "http_error_rate" (set_value error_rate m) s in
  let* m := metric_item "http_error_rate" s in
  Ok (with_metric "http_error_rate" (set_timestamp now m) s).

(** [now] is the reading taken by [record_request] itself, [now_rate] the
    one taken inside [_update_error_rate] (only when it is called), and
    [now_rpm] the one taken inside [_calculate_requests_per_minute]. *)
Definition record_request (now now_rate now_rpm : Q) (request_data : RequestData)
    (s : DataStore) : result (DataStore * list Event) :=
  let* m := metric_item "http_requests_total" s in
  let* v := value_item m in
  let s := with_metric "http_requests_total" (set_value (v + 1) m) s in
  let* m := metric_item "http_requests_total" s in
  let s := with_metric "http_requests_total" (set_timestamp now m) s in
  let duration := default 0 (rd_duration request_data) in
  let* s := _add_time_series "http_request_duration_seconds" (duration / 1000) now s in
  let status_code := default 200%Z (rd_status_code request_data) in
  let* s := if (400 <=? status_code)%Z then _update_error_rate now_rate s else Ok s in
  let s :=
    with_request_metrics
      (deque_append
         {| rq_timestamp := now;
            rq_method := default "GET" (rd_method request_data);
            rq_path := default "/" (rd_path request_data);
            rq_status_code := status_code;
            rq_duration := duration;
            rq_user_agent := rd_user_agent request_data;
            rq_ip := rd_ip request_data |}
         (request_metrics s)) s in
  let* s := _calculate_requests_per_minute now_rpm s in
  Ok (s, [("request", EvRequest request_data)]).

(** [{**data, 'timestamp': time.time()}]. *)
Definition stamp (now : Q) (data : gmap string Val) : gmap string Val :=
  <["timestamp" := VFloat now]> data.

Definition record_trace (now : Q) (trace_data : gmap string Val) (s : DataStore)
    : result (DataStore * list Event) :=
  let trace_record := stamp now trace_data in
  Ok (with_traces (deque_append trace_record (traces s)) s,
      [("trace", EvRecord trace_record)]).

Definition record_error (now : Q) (error_data : gmap string Val) (s : DataStore)
    : result (DataStore * list Event) :=
  let error_record := stamp now error_data in
  Ok (with_errors (deque_append error_record (errors s)) s,
      [("error", EvRecord error_record)]).

Definition record_resource_metrics (now : Q) (resource_data : ResourceData)
    (s : DataStore) : result (DataStore * list Event) :=
  let* s :=
    match res_cpu resource_data with
    | Some cpu => _add_time_series "process_cpu_percent" cpu now s
    | None => Ok s
    end in
  let* s :=
    match res_memory resource_data with
    | Some memory =>
        let* s :=
          match mem_rss memory with
          | Some rss => _add_time_series "process_memory_bytes" rss now s
          | None => Ok s
          end in
        match mem_percent memory with
        | Some percent => _add_time_series "process_memory_percent" percent now s
        | None => Ok s
        end
    | None => Ok s
    end in
  let* s :=
    match res_system resource_data with
    | Some system =>
        let* s :=
          match sys_load_average system with
          | Some (load0 :: _) => _add_time_series "system_load_average" load0 now s
          | _ => Ok s
          end in
        match sys_memory system with
        | Some memory =>
            let memory_usage := default 0 (smem_percent memory) in
            _add_time_series "system_memory_usage" memory_usage now s
        | None => Ok s
        end
    | None => Ok s
    end in
  let resource_record :=
    {| res_timestamp := Some (default now (res_timestamp resource_data));
       res_cpu := res_cpu resource_data;
       res_memory := res_memory resource_data;
       res_system := res_system resource_data |} in
  Ok (with_resource_metrics (deque_append resource_record (resource_metrics s)) s,
      [("resource", EvResource resource_record)]).

Definition record_custom_metric (now : Q) (name : string) (value : Q)
    (attributes : gmap string Val) (s : DataStore) : result (DataStore * list Event) :=
  let* s :=
    match custom_metrics s !! name with
    | None =>
        let* d := deque_new (config_get (config s) "max_metric_points") in
        Ok (with_custom_metrics
              (<[name := {| cm_values := d; cm_attributes := ∅ |}]> (custom_metrics s)) s)
    | Some _ => Ok s
    end in
  let* metric :=
    match custom_metrics s !! name with
    | Some metric => Ok metric
    | None => Raise (KeyError name)
    end in
  let metric :=
    {| cm_values := deque_append {| p_value := value; p_timestamp := now |} (cm_values metric);
       cm_attributes := attributes ∪ cm_attributes metric |} in
  Ok (with_custom_metrics (<[name := metric]> (custom_metrics s)) s,
      [("customMetric", EvCustomMetric name value attributes)]).

Definition clear (now : Q) (s : DataStore) : result (DataStore * list Event) :=
  let s :=
    {| config := config s;
       metrics := ∅;
       traces := deque_clear (traces s);
       errors := deque_clear (errors s);
       custom_metrics := ∅;
       resource_metrics := deque_clear (resource_metrics s);
       request_metrics := deque_clear (request_metrics s) |} in
  Ok (_initialize_metrics now s, [("clear", EvEmpty)]).

(** ** DataStore: queries *)

Definition _percentile (values : list Q) (percentile : Q) : result (option Q) :=
  match values with
  | [] => Ok None
  | _ =>
      let n := Z.of_nat (length values) in
      let index := int_of_float (Qnat (length values) * percentile) in
      let index := if (n <=? index)%Z then (n - 1)%Z else index in
      let* v := list_item values index in
      Ok (Some v)
  end.

(** [p or 0]. *)
Definition or_zero (p : option Q) : Q :=
  match p with
  | Some v => if Qeq_bool v 0 then 0 else v
  | None => 0
  end.

(** The non-empty result of [_get_latest_resource_metrics]. *)
Record LatestResource := {
  lr_cpu : Q;
  lr_memory : MemoryData;
  lr_system : SystemData;
  lr_timestamp : Q;
}.

(** [None] is the empty dict returned when no snapshot is stored; [now] is
    the reading taken for the default of [latest.get('timestamp', ...)]. *)
Definition _get_latest_resource_metrics (now : Q) (s : DataStore)
    : option LatestResource :=
  match last (items (resource_metrics s)) with
  | None => None
  | Some latest =>
      Some {| lr_cpu := default 0 (res_cpu latest);
              lr_memory := default {| mem_rss := None; mem_percent := None |}
                             (res_memory latest);
              lr_system := default {| sys_load_average := None; sys_memory := None |}
                             (res_system latest);
              lr_timestamp := default now (res_timestamp latest) |}
  end.

Record Summary := {
  sm_total : Q;
  sm_per_minute : nat;
  sm_error_rate : Q;
  sm_p50 : Q;
  sm_p95 : Q;
  sm_p99 : Q;
  sm_resources : option LatestResource;
  sm_errors : nat;
  sm_traces : nat;
}.

(** The requests of the log inside the window that ends at [now]. *)
Definition in_window (window now : Q) (s : DataStore) : list RequestRecord :=
  List.filter (fun req => Qltb (now - window) (rq_timestamp req))
    (items (request_metrics s)).

(** [now] is the reading at the top of the function, [now_res] the one
    inside [_get_latest_resource_metrics]. *)
Definition _get_metrics_summary (now now_res : Q) (s : DataStore) : result Summary :=
  let five_minutes_ago := now - 300 in
  let recent_requests :=
    List.filter (fun req => Qltb five_minutes_ago (rq_timestamp req))
      (items (request_metrics s)) in
  let error_requests := List.filter is_error recent_requests in
  let durations := sorted (map rq_duration recent_requests) in
  let* p50 := _percentile durations 0.5 in
  let* p95 := _percentile durations 0.95 in
  let* p99 := _percentile durations 0.99 in
  let* m := metric_item "http_requests_total" s in
  let* total := value_item m in
  Ok {| sm_total := total;
        sm_per_minute := length recent_requests;
        sm_error_rate := error_rate_of error_requests recent_requests;
        sm_p50 := or_zero p50;
        sm_p95 := or_zero p95;
        sm_p99 := or_zero p99;
        sm_resources := _get_latest_resource_metrics now_res s;
        sm_errors := length (items (errors s));
        sm_traces := length (items (traces s)) |}.

Record MetricsView := {
  mv_system : gmap string Metric;
  mv_custom : gmap string (list Point * gmap string Val);
  mv_summary : Summary;
}.

Definition get_metrics (now now_res : Q) (s : DataStore) : result MetricsView :=
  let custom := (fun v => (items (cm_values v), cm_attributes v)) <$> custom_metrics s in
  let* summary := _get_metrics_summary now now_res s in
  Ok {| mv_system := metrics s; mv_custom := custom; mv_summary := summary |}.

(** [xs[-limit:][::-1]]. *)
Definition most_recent {A} (limit : Z) (xs : list A) : list A :=
  reverse (slice_from (- limit) xs).

Definition get_traces (limit : Z) (s : DataStore) : list (gmap string Val) :=
  most_recent limit (items (traces s)).

Definition get_errors (limit : Z) (s : DataStore) : list (gmap string Val) :=
  most_recent limit (items (errors s)).

Definition get_requests (limit : Z) (s : DataStore) : list RequestRecord :=
  most_recent limit (items (request_metrics s)).

(** ** DataStore: persistence *)

(** The document [_persist_data] writes and [_load_persisted_data] reads;
    the top-level keys are read with [.get] and a default. *)
Record PersistedCustom := {
  pc_values : list Point;
  pc_attributes : gmap string Val;
}.

Record Persisted := {
  ps_metrics : option (gmap string Metric);
  ps_custom_metrics : option (gmap string PersistedCustom);
  ps_traces : option (list (gmap string Val));
  ps_errors : option (list (gmap string Val));
  ps_request_metrics : option (list RequestRecord);
  ps_resource_metrics : option (list ResourceData);
  ps_timestamp : option Q;
}.

(** [json.dump] raises on a [deque]; every other value of the store is a
    number, a string, a list or a dict of those. *)
Definition serializable (m : Metric) : bool :=
  match m_values m with
  | Some (SDeque _) => false
  | _ => true
  end.

(** The document written to [data.json]; [None] when nothing is written:
    persistence is off, or [json.dump] raised and the exception was caught.
    Failures of the file system are not modelled. *)
Definition _persist_data (now : Q) (s : DataStore) : option Persisted :=
  if negb (truthy (config_get (config s) "persistence")) then None
  else if bool_decide (map_Forall (fun _ m => serializable m = true) (metrics s)) then
    Some {| ps_metrics := Some (metrics s);
            ps_custom_metrics :=
              Some ((fun v => {| pc_values := items (cm_values v);
                                 pc_attributes := cm_attributes v |})
                    <$> custom_metrics s);
            ps_traces := Some (items (traces s));
            ps_errors := Some (items (errors s));
            ps_request_metrics := Some (items (request_metrics s));
            ps_resource_metrics := Some (items (resource_metrics s));
            ps_timestamp := Some now |}
  else None.

(** The body of the [try] of [_load_persisted_data]; [file] is the parsed
    content of [data.json], [None] when the file does not exist. *)
Definition load_persisted (file : option Persisted) (s : DataStore) : result DataStore :=
  match file with
  | None => Ok s
  | Some data =>
      let s := with_metrics (default ∅ (ps_metrics data) ∪ metrics s) s in
      let* d := deque_new (config_get (config s) "max_metric_points") in
      let restored :=
        (fun metric_data =>
           {| cm_values := deque_extend (pc_values metric_data) d;
              cm_attributes := pc_attributes metric_data |})
        <$> default ∅ (ps_custom_metrics data) in
      let s := with_custom_metrics (restored ∪ custom_metrics s) s in
      let s := with_traces (deque_extend (default [] (ps_traces data)) (traces s)) s in
      let s := with_errors (deque_extend (default [] (ps_errors data)) (errors s)) s in
      let s := with_request_metrics
                 (deque_extend (default [] (ps_request_metrics data)) (request_metrics s)) s in
      let s := with_resource_metrics
                 (deque_extend (default [] (ps_resource_metrics data)) (resource_metrics s)) s in
      Ok s
  end.

(** [_load_persisted_data]: an exception of the body is caught and
    printed.  The body raises only where [deque(..., maxlen=...)] does,
    which [__init__] has by then called with the same [maxlen] (see
    [load_persisted_ok]), so the state kept in that case is never used. *)
Definition _load_persisted_data (file : option Persisted) (s : DataStore) : DataStore :=
  match load_persisted file s with
  | Ok s' => s'
  | Raise _ => s
  end.

(** The store after [__init__] has run [_initialize_metrics], before
    persistence is set up. *)
Definition new_store (config : gmap string Val) (now : Q) : result DataStore :=
  let* traces := deque_new (config_get config "max_traces") in
  let* errors := deque_new (config_get config "max_errors") in
  let* resource_metrics := deque_new (config_get config "max_metric_points") in
  let* request_metrics := deque_new (config_get config "max_metric_points") in
  Ok (_initialize_metrics now
        {| config := config; metrics := ∅; traces := traces; errors := errors;
           custom_metrics := ∅; resource_metrics := resource_metrics;
           request_metrics := request_metrics |}).

(** [DataStore(config)]; [file] is the content of [data.json] found by
    [_setup_persistence], [None] when there is no such file or the
    directory cannot be set up. *)
Definition DataStore_init (config : gmap string Val) (now : Q)
    (file : option Persisted) : result DataStore :=
  let* s := new_store config now in
  if truthy (config_get config "persistence") then Ok (_load_persisted_data file s)
  else Ok s.

(** ** Histories of a store *)

(** One call on the store, with the clock readings it takes. *)
Inductive Op :=
  | OpRequest (now now_rate now_rpm : Q) (request_data : RequestData)
  | OpTrace (now : Q) (trace_data : gmap string Val)
  | OpError (now : Q) (error_data : gmap string Val)
  | OpResource (now : Q) (resource_data : ResourceData)
  | OpCustomMetric (now : Q) (name : string) (value : Q) (attributes : gmap string Val)
  | OpClear (now : Q).

Definition step (op : Op) (s : DataStore) : result (DataStore * list Event) :=
  match op with
  | OpRequest now now_rate now_rpm d => record_request now now_rate now_rpm d s
  | OpTrace now d => record_trace now d s
  | OpError now d => record_error now d s
  | OpResource now d => record_resource_metrics now d s
  | OpCustomMetric now name value attributes =>
      record_custom_metric now name value attributes s
  | OpClear now => clear now s
  end.

Fixpoint run (ops : list Op) (s : DataStore) : result DataStore :=
  match ops with
  | [] => Ok s
  | op :: ops' => let* r := step op s in run ops' (fst r)
  end.

(** The newest [c] entries of a log. *)
Definition keep_last {A} (c : nat) (l : list A) : list A :=
  drop (length l - c) l.

(** ** Invariants of a store *)

(** The metrics that hold a ['value'] and those that hold ['values']. *)
Definition counter_names : list string :=
  ["http_requests_total"; "http_error_rate"; "active_requests"].

Definition series_names : list string :=
  ["http_request_duration_seconds"; "http_requests_per_minute";
   "process_cpu_percent"; "process_memory_bytes"; "process_memory_percent";
   "system_load_average"; "system_memory_usage"].

Definition is_counter (m : Metric) : Prop := is_Some (m_value m).

Definition is_list_series (m : Metric) : Prop := exists l, m_values m = Some (SList l).

(** Every named metric is there, with the key the code reads from it. *)
Definition metrics_inv (ms : gmap string Metric) : Prop :=
  Forall (fun name => exists m, ms !! name = Some m /\ is_counter m) counter_names /\
  Forall (fun name => exists m, ms !! name = Some m /\ is_list_series m) series_names /\
  map_Forall (fun _ m => serializable m = true) ms.

(** A change of one metric that keeps the key the code reads from it. *)
Definition keeps_shape (m m' : Metric) : Prop :=
  (is_counter m -> is_counter m') /\
  (is_list_series m -> is_list_series m') /\
  (serializable m = true -> serializable m' = true).

(** [d] has the [maxlen] that [deque(maxlen=v)] gives, and respects it. *)
Definition has_capacity {A} (v : Val) (d : deque A) : Prop :=
  @deque_new A v = Ok (Deque (maxlen d) []) /\ bounded d.

Record store_inv (s : DataStore) : Prop := {
  inv_metrics : metrics_inv (metrics s);
  inv_traces : has_capacity (config_get (config s) "max_traces") (traces s);
  inv_errors : has_capacity (config_get (config s) "max_errors") (errors s);
  inv_resource :
    has_capacity (config_get (config s) "max_metric_points") (resource_metrics s);
  inv_request :
    has_capacity (config_get (config s) "max_metric_points") (request_metrics s);
  inv_custom :
    map_Forall
      (fun _ cm => has_capacity (config_get (config s) "max_metric_points") (cm_values cm))
      (custom_metrics s);
}.

(** [s'] differs from [s] in [self.metrics] at most. *)
Definition same_logs (s s' : DataStore) : Prop :=
  config s' = config s /\ traces s' = traces s /\ errors s' = errors s /\
  custom_metrics s' = custom_metrics s /\
  resource_metrics s' = resource_metrics s /\
  request_metrics s' = request_metrics s.

(** A call that returns, keeps the invariants and changes [self.metrics]
    at most. *)
Definition ok_inv (s : DataStore) (r : result DataStore) : Prop :=
  exists s', r = Ok s' /\ store_inv s' /\ same_logs s s'.

(** A recording call that returns and keeps the invariants and the
    configuration. *)
Definition op_ok (s : DataStore) (r : result (DataStore * list Event)) : Prop :=
  exists s' ev, r = Ok (s', ev) /\ store_inv s' /\ config s' = config s.

(** The store that a configuration and a list of calls lead to, from
    construction at [t0] without persisted data. *)
Definition history (c : gmap string Val) (t0 : Q) (ops : list Op) : result DataStore :=
  let* s0 := new_store c t0 in run ops s0.

(** The points held under ['values'] by the metric [name]. *)
Definition series_points (s : DataStore) (name : string) : list Point :=
  match metrics s !! name with
  | Some m =>
      match m_values m with
      | Some vs => series_items vs
      | None => []
      end
  | None => []
  end.

(** The entry that [record_request] appends to the request log. *)
Definition request_record (now : Q) (request_data : RequestData) : RequestRecord :=
  {| rq_timestamp := now;
     rq_method := default "GET" (rd_method request_data);
     rq_path := default "/" (rd_path request_data);
     rq_status_code := default 200%Z (rd_status_code request_data);
     rq_duration := default 0 (rd_duration request_data);
     rq_user_agent := rd_user_agent request_data;
     rq_ip := rd_ip request_data |}.

(** The entry that [record_resource_metrics] appends to the resource log. *)
Definition resource_record (now : Q) (resource_data : ResourceData) : ResourceData :=
  {| res_timestamp := Some (default now (res_timestamp resource_data));
     res_cpu := res_cpu resource_data;
     res_memory := res_memory resource_data;
     res_system := res_system resource_data |}.

(** The point that the series [name] gets for the field [o] of a payload:
    none when the field is absent. *)
Definition point_if (name : string) (o : option Q) (t : Q) (k : string) : list Point :=
  match o with
  | Some v => if decide (k = name) then [{| p_value := v; p_timestamp := t |}] else []
  | None => []
  end.

(** The fields of a resource payload that feed a series. *)
Definition memory_rss (d : ResourceData) : option Q :=
  match res_memory d with Some memory => mem_rss memory | None => None end.

Definition memory_percent (d : ResourceData) : option Q :=
  match res_memory d with Some memory => mem_percent memory | None => None end.

Definition load_average0 (d : ResourceData) : option Q :=
  match res_system d with
  | Some system =>
      match sys_load_average system with
      | Some (load0 :: _) => Some load0
      | _ => None
      end
  | None => None
  end.

Definition system_memory_usage (d : ResourceData) : option Q :=
  match res_system d with
  | Some system =>
      match sys_memory system with
      | Some memory => Some (default 0 (smem_percent memory))
      | None => None
      end
  | None => None
  end.

(** The points that one resource payload contributes to the series [k]. *)
Definition resource_points (now : Q) (d : ResourceData) (k : string) : list Point :=
  point_if "process_cpu_percent" (res_cpu d) now k ++
  (point_if "process_memory_bytes" (memory_rss d) now k ++
   point_if "process_memory_percent" (memory_percent d) now k) ++
  (point_if "system_load_average" (load_average0 d) now k ++
   point_if "system_memory_usage" (system_memory_usage d) now k).

(** A call that returns, keeps the invariants, and appends the points
    [delta k] to each series [k] and changes nothing else but timestamps
    of metrics. *)
Definition ok_adds (s : DataStore) (r : result DataStore)
    (delta : string -> list Point) : Prop :=
  exists s', r = Ok s' /\ store_inv s' /\ same_logs s s' /\
    forall k, series_points s' k = series_points s k ++ delta k.

(** ** Inputs of the examples *)

(** Builtins for an empty environment, where they are never called. *)
Definition no_int (_ : string) : result Z := Raise (ValueError "int").
Definition no_float (_ : string) : result Q := Raise (ValueError "float").

(** [int(s)] on a string of ASCII decimal digits; any other string raises
    [ValueError], as [int] does on a string that holds a letter.  The
    signs, white space and underscores that [int] also reads occur in no
    example. *)
Definition digit (c : ascii) : option Z :=
  let n := nat_of_ascii c in
  if ((48 <=? n) && (n <=? 57))%nat then Some (Z.of_nat (n - 48)) else None.

Fixpoint decimal (acc : Z) (s : string) : option Z :=
  match s with
  | EmptyString => Some acc
  | String c s' =>
      match digit c with
      | Some d => decimal (10 * acc + d) s'
      | None => None
      end
  end.

Definition int_of_decimal (s : string) : result Z :=
  match s with
  | EmptyString => Raise (ValueError "invalid literal for int()")
  | _ =>
      match decimal 0 s with
      | Some z => Ok z
      | None => Raise (ValueError "invalid literal for int()")
      end
  end.

(** [ConfigManager(options).config] in an empty environment; the empty
    dict when construction raises. *)
Definition config_of (options : gmap string Val) : gmap string Val :=
  match ConfigManager_init no_int no_float ∅ options with
  | Ok c => c
  | Raise _ => ∅
  end.

(** All capacities set to 2. *)
Definition small_config : gmap string Val :=
  config_of (list_to_map [("max_traces", VInt 2); ("max_errors", VInt 2);
                          ("max_metric_points", VInt 2)]).

(** A request payload with the keys ['duration'] and ['status_code'] at
    most. *)
Definition request (duration : option Q) (status_code : option Z) : RequestData :=
  {| rd_duration := duration; rd_status_code := status_code; rd_method := None;
     rd_path := None; rd_user_agent := None; rd_ip := None |}.

(** The store that a history leads to; an empty store when it raises. *)
Definition store_of (r : result DataStore) : DataStore :=
  match r with
  | Ok s => s
  | Raise _ =>
      {| config := ∅; metrics := ∅; traces := Deque None []; errors := Deque None [];
         custom_metrics := ∅; resource_metrics := Deque None [];
         request_metrics := Deque None [] |}
  end.

(** The rank of the specification for the percentile [p] of [n] sorted
    values: [floor(n * p)], clamped to [n - 1]. *)
Definition rank (n : nat) (p : Q) : nat :=
  Z.to_nat (Z.min (Qfloor (Qnat n * p)) (Z.of_nat n - 1)).

(** The ['value'] stored under the metric [name]. *)
Definition stored_value (s : DataStore) (name : string) : option Q :=
  match metrics s !! name with
  | Some m => m_value m
  | None => None
  end.

(** The configuration of an empty environment and no options. *)
Definition default_options_config : gmap string Val := config_of ∅.

(** Ten requests at times 1 to 10: three with status 500, then seven with
    status 200. *)
Definition ten_requests : list Op :=
  [OpRequest 1 1 1 (request (Some 10) (Some 500%Z));
   OpRequest 2 2 2 (request (Some 10) (Some 500%Z));
   OpRequest 3 3 3 (request (Some 10) (Some 500%Z));
   OpRequest 4 4 4 (request (Some 10) (Some 200%Z));
   OpRequest 5 5 5 (request (Some 10) (Some 200%Z));
   OpRequest 6 6 6 (request (Some 10) (Some 200%Z));
   OpRequest 7 7 7 (request (Some 10) (Some 200%Z));
   OpRequest 8 8 8 (request (Some 10) (Some 200%Z));
   OpRequest 9 9 9 (request (Some 10) (Some 200%Z));
   OpRequest 10 10 10 (request (Some 10) (Some 200%Z))].

(** A resource payload whose [system.memory] map has no ['percent']. *)
Definition resource_without_percent : ResourceData :=
  {| res_timestamp := None; res_cpu := None; res_memory := None;
     res_system := Some {| sys_load_average := None;
                           sys_memory := Some {| smem_percent := None |} |} |}.

(** The entries of [l] that a deque with this [maxlen] retains: the
    newest [maxlen]. *)
Definition newest {A} (ml : option nat) (l : list A) : list A :=
  match ml with
  | Some n => keep_last n l
  | None => l
  end.

(** A configuration with persistence on and all capacities 2, and one with
    all capacities 1. *)
Definition persistent_config (capacity : Z) : gmap string Val :=
  config_of (list_to_map [("max_traces", VInt capacity); ("max_errors", VInt capacity);
                          ("max_metric_points", VInt capacity);
                          ("persistence", VBool true)]).

(** ** Validity of a configuration, as the specification words it *)

(** The keys that [_validate_config] reads. *)
Definition validated_keys : list string :=
  ["dashboard_port"; "prometheus_port"; "sample_rate"; "metrics_interval";
   "resource_interval"; "max_traces"; "max_errors"; "cpu_threshold"].

Definition is_number (v : Val) : bool :=
  match v with
  | VInt _ | VFloat _ | VBool _ => true
  | _ => false
  end.

(** The caller's options give numbers for the validated keys they set. *)
Definition numeric_options (options : gmap string Val) : bool :=
  forallb (fun key => match options !! key with
                      | Some v => is_number v
                      | None => true
                      end) validated_keys.

(** The number under [key]; 0 when there is none. *)
Definition num_at (config : gmap string Val) (key : string) : Q :=
  match config !! key with
  | Some (VInt z) => inject_Z z
  | Some (VFloat q) => q
  | Some (VBool b) => if b then 1 else 0
  | _ => 0
  end.

(** A port outside [1, 65535], a sample rate outside [0, 1], an interval
    below 1000 ms, [max_traces] or [max_errors] below 1, or a CPU threshold
    outside [0, 100]. *)
Definition invalid (config : gmap string Val) : Prop :=
  ~ (1 <= num_at config "dashboard_port" /\ num_at config "dashboard_port" <= 65535) \/
  ~ (1 <= num_at config "prometheus_port" /\ num_at config "prometheus_port" <= 65535) \/
  ~ (0 <= num_at config "sample_rate" /\ num_at config "sample_rate" <= 1) \/
  num_at config "metrics_interval" < 1000 \/
  num_at config "resource_interval" < 1000 \/
  num_at config "max_traces" < 1 \/
  num_at config "max_errors" < 1 \/
  ~ (0 <= num_at config "cpu_threshold" /\ num_at config "cpu_threshold" <= 100).

(** The integer and float settings of [default_config]: key, environment
    variable, default. *)
Definition int_settings : list (string * string * Z) :=
  [("dashboard_port", "LITEOBS_DASHBOARD_PORT", 8001%Z);
   ("metrics_interval", "LITEOBS_METRICS_INTERVAL", 5000%Z);
   ("resource_interval", "LITEOBS_RESOURCE_INTERVAL", 5000%Z);
   ("max_traces", "LITEOBS_MAX_TRACES", 1000%Z);
   ("max_errors", "LITEOBS_MAX_ERRORS", 500%Z);
   ("max_metric_points", "LITEOBS_MAX_METRIC_POINTS", 1440%Z);
   ("prometheus_port", "LITEOBS_PROMETHEUS_PORT", 9090%Z);
   ("max_concurrent_requests", "LITEOBS_MAX_CONCURRENT_REQUESTS", 1000%Z);
   ("memory_threshold", "LITEOBS_MEMORY_THRESHOLD", (512 * 1024 * 1024)%Z)].

Definition float_settings : list (string * string * Q) :=
  [("sample_rate", "LITEOBS_SAMPLE_RATE", 1.0);
   ("cpu_threshold", "LITEOBS_CPU_THRESHOLD", 80.0)].

(** An integer or float setting has its environment variable set to a
    string that [int] or [float] rejects: [int(os.getenv(...))] and
    [float(os.getenv(...))] are evaluated in the dict literal of
    [_build_config], before the options are merged. *)
Definition unparsed (py_int : string -> result Z) (py_float : string -> result Q)
    (env : gmap string string) : Prop :=
  Exists (fun '(_, var, _) => exists s, env !! var = Some s /\ raises (py_int s))
    int_settings \/
  Exists (fun '(_, var, _) => exists s, env !! var = Some s /\ raises (py_float s))
    float_settings.

(** The defaults of an empty environment; the empty dict if they raise. *)
Definition empty_env_defaults : gmap string Val :=
  match default_config no_int no_float ∅ with
  | Ok d => d
  | Raise _ => ∅
  end.

(** ** DataStore: statistics and shutdown *)

(** The dict that [get_stats] returns. *)
Record Stats := {
  st_metrics : nat;
  st_custom_metrics : nat;
  st_traces : nat;
  st_errors : nat;
  st_requests : nat;
  st_resource_metrics : nat;
}.

Definition get_stats (s : DataStore) : Stats :=
  {| st_metrics := size (metrics s);
     st_custom_metrics := size (custom_metrics s);
     st_traces := length (items (traces s));
     st_errors := length (items (errors s));
     st_requests := length (items (request_metrics s));
     st_resource_metrics := length (items (resource_metrics s)) |}.

(** [shutdown]: the document written, if any; [now] is the reading that
    [_persist_data] takes. *)
Definition shutdown (now : Q) (s : DataStore) : option Persisted :=
  if truthy (config_get (config s) "persistence") then _persist_data now s
  else None.

(** ** ConfigManager: access to a constructed configuration *)

(** [self.config[key]]. *)
Definition config_item (config : gmap string Val) (key : string) : result Val :=
  match config !! key with
  | Some v => Ok v
  | None => Raise (KeyError key)
  end.

(** [v == s] for a string literal [s]. *)
Definition eq_str (v : Val) (s : string) : bool :=
  match v with
  | VStr s' => String.eqb s' s
  | _ => false
  end.

Definition is_development (config : gmap string Val) : result bool :=
  let* environment := config_item config "environment" in
  Ok (eq_str environment "development").

Definition is_production (config : gmap string Val) : result bool :=
  let* environment := config_item config "environment" in
  Ok (eq_str environment "production").

Definition get_summary (config : gmap string Val) : result (gmap string Val) :=
  let* service_name := config_item config "service_name" in
  let* environment := config_item config "environment" in
  let* dashboard := config_item config "dashboard" in
  let* dashboard_port := config_item config "dashboard_port" in
  let* enable_tracing := config_item config "enable_tracing" in
  let* enable_metrics := config_item config "enable_metrics" in
  let* sample_rate := config_item config "sample_rate" in
  let* persistence := config_item config "persistence" in
  Ok (list_to_map [
    ("service_name", service_name);
    ("environment", environment);
    ("dashboard", dashboard);
    ("dashboard_port", dashboard_port);
    ("enable_tracing", enable_tracing);
    ("enable_metrics", enable_metrics);
    ("sample_rate", sample_rate);
    ("persistence", persistence)
  ]).

(** ** Observations used in the further properties *)

(** What a history leaves in the total counter: the number of requests
    recorded since the last [clear]. *)
Fixpoint requests_since_clear (n : nat) (ops : list Op) : nat :=
  match ops with
  | [] => n
  | OpRequest _ _ _ _ :: ops' => requests_since_clear (S n) ops'
  | OpClear _ :: ops' => requests_since_clear 0 ops'
  | _ :: ops' => requests_since_clear n ops'
  end.

(** The names under which a history leaves a custom metric: those
    recorded since the last [clear]. *)
Fixpoint custom_names (names : gset string) (ops : list Op) : gset string :=
  match ops with
  | [] => names
  | OpCustomMetric _ name _ _ :: ops' => custom_names ({[name]} ∪ names) ops'
  | OpClear _ :: ops' => custom_names ∅ ops'
  | _ :: ops' => custom_names names ops'
  end.

(** The readings [now] of the calls of [record_request] since the last
    [clear], in order, after the readings [times]. *)
Fixpoint request_times (times : list Q) (ops : list Op) : list Q :=
  match ops with
  | [] => times
  | OpRequest now _ _ _ :: ops' => request_times (times ++ [now]) ops'
  | OpClear _ :: ops' => request_times [] ops'
  | _ :: ops' => request_times times ops'
  end.

(** [s'] has the metrics of [s] with the same keys and the same
    ['value']s: only series and timestamps differ. *)
Definition same_values (s s' : DataStore) : Prop :=
  dom (metrics s') = dom (metrics s) /\
  forall key, stored_value s' key = stored_value s key.

(** A string with no leading and no trailing whitespace. *)
Definition trimmed (s : string) : Prop := strip s = s.

(** * Properties *)

(** ** Deques *)

Section Deques.
Context {A : Type}.
Implicit Types (d : deque A) (x : A) (xs l : list A) (c : nat).

Lemma deque_append_maxlen x d : maxlen (deque_append x d) = maxlen d.
Proof.
  unfold deque_append. destruct (maxlen d) as [c|]; [|done].
  by destruct (c <? _)%nat.
Qed.

Lemma deque_extend_maxlen xs d : maxlen (deque_extend xs d) = maxlen d.
Proof.
  revert d. induction xs as [|x xs IH]; intros d; [done|].
  cbn. unfold deque_extend in IH. by rewrite IH, deque_append_maxlen.
Qed.

Lemma deque_append_items x d c :
  maxlen d = Some c -> bounded d ->
  items (deque_append x d) = keep_last c (items d ++ [x]).
Proof.
  unfold bounded, deque_append, keep_last. intros -> Hb.
  rewrite length_app. cbn [length].
  destruct (c <? _)%nat eqn:E; cbn [items].
  - apply Nat.ltb_lt in E.
    replace (length (items d) + 1 - c)%nat with 1%nat by lia.
    by destruct (items d ++ [x]).
  - apply Nat.ltb_ge in E.
    by replace (length (items d) + 1 - c)%nat with 0%nat by lia.
Qed.

Lemma deque_append_unbounded x d :
  maxlen d = None -> items (deque_append x d) = items d ++ [x].
Proof. unfold deque_append. by intros ->. Qed.

Lemma keep_last_length c l : length (keep_last c l) = (length l `min` c)%nat.
Proof. unfold keep_last. rewrite length_drop. lia. Qed.

Lemma keep_last_all c l : (length l <= c)%nat -> keep_last c l = l.
Proof. unfold keep_last. intros H. by replace (length l - c)%nat with 0%nat by lia. Qed.

Lemma keep_last_app c l xs :
  keep_last c (keep_last c l ++ xs) = keep_last c (l ++ xs).
Proof.
  unfold keep_last. rewrite !length_app, length_drop.
  rewrite <- (drop_app_le l xs (length l - c)) by lia.
  rewrite drop_drop. f_equal. lia.
Qed.

Lemma deque_append_bounded x d : bounded d -> bounded (deque_append x d).
Proof.
  intros Hb. unfold bounded. rewrite deque_append_maxlen.
  destruct (maxlen d) as [c|] eqn:E; [|done].
  rewrite (deque_append_items x d c E Hb), keep_last_length. lia.
Qed.

Lemma deque_extend_bounded xs d : bounded d -> bounded (deque_extend xs d).
Proof.
  revert d. induction xs as [|x xs IH]; intros d Hb; [done|].
  cbn. apply IH. by apply deque_append_bounded.
Qed.

Lemma deque_extend_items xs d c :
  maxlen d = Some c -> bounded d ->
  items (deque_extend xs d) = keep_last c (items d ++ xs).
Proof.
  revert d. induction xs as [|x xs IH]; intros d Hm Hb.
  - cbn. rewrite app_nil_r. symmetry. apply keep_last_all.
    unfold bounded in Hb. by rewrite Hm in Hb.
  - cbn. unfold deque_extend in IH. rewrite IH.
    + rewrite (deque_append_items x d c Hm Hb), keep_last_app.
      by rewrite <- app_assoc.
    + by rewrite deque_append_maxlen.
    + by apply deque_append_bounded.
Qed.

Lemma deque_extend_unbounded xs d :
  maxlen d = None -> items (deque_extend xs d) = items d ++ xs.
Proof.
  revert d. induction xs as [|x xs IH]; intros d Hm.
  - cbn. by rewrite app_nil_r.
  - cbn. unfold deque_extend in IH. rewrite IH.
    + by rewrite (deque_append_unbounded x d Hm), <- app_assoc.
    + by rewrite deque_append_maxlen.
Qed.

(** Whatever is inserted, a bounded deque holds at most [c] entries, and
    [c + k] insertions into an empty one leave the newest [c]. *)
Lemma deque_capacity xs c :
  let d := deque_extend xs (Deque (Some c) []) in
  (length (items d) <= c)%nat /\ items d = drop (length xs - c) xs.
Proof.
  intros d. unfold d.
  rewrite (deque_extend_items xs (Deque (Some c) []) c); [|done|cbn; lia].
  cbn [items app]. split; [rewrite keep_last_length; lia|done].
Qed.

End Deques.

(** ** The invariants hold in every history *)

Lemma has_capacity_append {A} v (x : A) d :
  has_capacity v d -> has_capacity v (deque_append x d).
Proof.
  intros [Hm Hb]. split.
  - by rewrite deque_append_maxlen.
  - by apply deque_append_bounded.
Qed.

Lemma has_capacity_extend {A} v (xs : list A) d :
  has_capacity v d -> has_capacity v (deque_extend xs d).
Proof.
  intros [Hm Hb]. split.
  - by rewrite deque_extend_maxlen.
  - by apply deque_extend_bounded.
Qed.

Lemma has_capacity_clear {A} v (d : deque A) :
  has_capacity v d -> has_capacity v (deque_clear d).
Proof.
  intros [Hm Hb]. split; [done|].
  unfold bounded. cbn. destruct (maxlen d); [lia|done].
Qed.

Lemma has_capacity_new {A} v (d : deque A) :
  deque_new v = Ok d -> has_capacity v d /\ items d = [].
Proof.
  unfold has_capacity, bounded.
  destruct v as [|b|z|q|s|m]; cbn; try discriminate.
  - intros [= <-]. cbn. done.
  - intros [= <-]. cbn. split; [split; [done|lia]|done].
  - destruct (z <? 0)%Z; [discriminate|]. intros [= <-]. cbn.
    split; [split; [done|lia]|done].
Qed.

Lemma has_capacity_maxlen {A} v (d d' : deque A) :
  has_capacity v d -> has_capacity v d' -> maxlen d = maxlen d'.
Proof. intros [H _] [H' _]. rewrite H in H'. by injection H'. Qed.

Lemma metrics_inv_insert ms name m m' :
  metrics_inv ms -> ms !! name = Some m -> keeps_shape m m' ->
  metrics_inv (<[name := m']> ms).
Proof.
  intros (Hc & Hs & Hj) Hm (Kc & Ks & Kj). repeat split.
  - eapply Forall_impl; [exact Hc|]. intros k (mk & Hk & Hv).
    destruct (decide (name = k)) as [->|Hne].
    + exists m'. rewrite lookup_insert_eq. split; [done|]. apply Kc. congruence.
    + exists mk. by rewrite lookup_insert_ne.
  - eapply Forall_impl; [exact Hs|]. intros k (mk & Hk & Hv).
    destruct (decide (name = k)) as [->|Hne].
    + exists m'. rewrite lookup_insert_eq. split; [done|]. apply Ks. congruence.
    + exists mk. by rewrite lookup_insert_ne.
  - apply map_Forall_insert_2; [|done]. apply Kj. exact (Hj name m Hm).
Qed.

Lemma store_inv_with_metric s name m m' :
  store_inv s -> metrics s !! name = Some m -> keeps_shape m m' ->
  store_inv (with_metric name m' s).
Proof.
  intros [] Hm Hk. split; cbn; try done.
  by eapply metrics_inv_insert.
Qed.

Lemma same_logs_refl s : same_logs s s.
Proof. by repeat split. Qed.

Lemma same_logs_trans s1 s2 s3 : same_logs s1 s2 -> same_logs s2 s3 -> same_logs s1 s3.
Proof.
  intros (?&?&?&?&?&?) (?&?&?&?&?&?). repeat split; congruence.
Qed.

Lemma same_logs_with_metric s name m : same_logs s (with_metric name m s).
Proof. by repeat split. Qed.

Lemma counter_lookup s name :
  store_inv s -> name ∈ counter_names ->
  exists m v, metrics s !! name = Some m /\ m_value m = Some v.
Proof.
  intros [[Hc _] _ _ _ _ _] Hin.
  rewrite Forall_forall in Hc. destruct (Hc name Hin) as (m & Hm & [v Hv]).
  by exists m, v.
Qed.

Lemma series_lookup s name :
  store_inv s -> name ∈ series_names ->
  exists m l, metrics s !! name = Some m /\ m_values m = Some (SList l).
Proof.
  intros [(_ & Hs & _) _ _ _ _ _] Hin.
  rewrite Forall_forall in Hs. destruct (Hs name Hin) as (m & Hm & [l Hl]).
  by exists m, l.
Qed.

(** On a series that [_initialize_metrics] has set up, [_add_time_series]
    appends to the plain list. *)
Lemma add_time_series_list s name m l v t :
  metrics s !! name = Some m -> m_values m = Some (SList l) ->
  _add_time_series name v t s =
    Ok (with_metric name
          {| m_value := m_value m;
             m_values := Some (SList (l ++ [{| p_value := v; p_timestamp := t |}]));
             m_timestamp := t |} s).
Proof.
  intros Hm Hl. unfold _add_time_series, metric_item.
  rewrite Hm. cbn [bind]. by rewrite Hl.
Qed.

Lemma add_time_series_inv s name v t :
  store_inv s -> name ∈ series_names ->
  exists s', _add_time_series name v t s = Ok s' /\ store_inv s' /\ same_logs s s'.
Proof.
  intros Hinv Hin.
  destruct (series_lookup s name Hinv Hin) as (m & l & Hm & Hl).
  eexists. split; [by apply add_time_series_list|]. split.
  - apply (store_inv_with_metric s name m); [exact Hinv|exact Hm|].
    repeat split; cbn; [|by eexists].
    intros [v' Hv']. by exists v'.
  - apply same_logs_with_metric.
Qed.


Lemma keeps_shape_set_value m v : keeps_shape m (set_value v m).
Proof. repeat split; cbn; [by exists v|done..]. Qed.

Lemma keeps_shape_set_timestamp m t : keeps_shape m (set_timestamp t m).
Proof. by repeat split. Qed.

Lemma update_error_rate_inv s now :
  store_inv s ->
  exists s', _update_error_rate now s = Ok s' /\ store_inv s' /\ same_logs s s'.
Proof.
  intros Hinv.
  destruct (counter_lookup s "http_error_rate" Hinv) as (m & v & Hm & Hv);
    [unfold counter_names; set_solver|].
  unfold _update_error_rate, metric_item. rewrite Hm. cbn [bind with_metric with_metrics metrics].
  rewrite lookup_insert_eq. cbn [bind]. eexists. split; [done|]. split.
  - eapply (store_inv_with_metric _ "http_error_rate");
      [|apply lookup_insert_eq|apply keeps_shape_set_timestamp].
    eapply (store_inv_with_metric s "http_error_rate");
      [done|exact Hm|apply keeps_shape_set_value].
  - by repeat split.
Qed.

Lemma calculate_requests_per_minute_inv s now :
  store_inv s ->
  exists s', _calculate_requests_per_minute now s = Ok s' /\ store_inv s' /\ same_logs s s'.
Proof.
  intros Hinv. apply add_time_series_inv; [done|].
  unfold series_names. set_solver.
Qed.

Lemma store_inv_with_request_metrics s d :
  store_inv s -> has_capacity (config_get (config s) "max_metric_points") d ->
  store_inv (with_request_metrics d s).
Proof. intros [] Hd. by split. Qed.

Lemma store_inv_with_resource_metrics s d :
  store_inv s -> has_capacity (config_get (config s) "max_metric_points") d ->
  store_inv (with_resource_metrics d s).
Proof. intros [] Hd. by split. Qed.

Lemma store_inv_with_traces s d :
  store_inv s -> has_capacity (config_get (config s) "max_traces") d ->
  store_inv (with_traces d s).
Proof. intros [] Hd. by split. Qed.

Lemma store_inv_with_errors s d :
  store_inv s -> has_capacity (config_get (config s) "max_errors") d ->
  store_inv (with_errors d s).
Proof. intros [] Hd. by split. Qed.

(** Runs the next call of the body with the lemma [H] that it returns. *)
Ltac next_call H :=
  let s' := fresh "s" in
  let E := fresh "E" in
  let I := fresh "I" in
  let L := fresh "L" in
  destruct H as (s' & E & I & L); rewrite E; cbn [bind].

Lemma record_request_inv s now now_rate now_rpm d :
  store_inv s -> op_ok s (record_request now now_rate now_rpm d s).
Proof.
  intros Hinv.
  destruct (counter_lookup s "http_requests_total" Hinv) as (m & v & Hm & Hv);
    [unfold counter_names; set_solver|].
  unfold record_request, metric_item, value_item.
  rewrite Hm. cbn [bind]. rewrite Hv. cbn [bind with_metric with_metrics metrics].
  rewrite lookup_insert_eq. cbn [bind].
  match goal with |- context [_add_time_series _ _ _ ?S] => set (s1 := S) end.
  assert (store_inv s1 /\ same_logs s s1) as [I1 L1].
  { split; [|by repeat split].
    eapply (store_inv_with_metric _ "http_requests_total");
      [|apply lookup_insert_eq|apply keeps_shape_set_timestamp].
    eapply (store_inv_with_metric s "http_requests_total");
      [done|exact Hm|apply keeps_shape_set_value]. }
  next_call (add_time_series_inv s1 "http_request_duration_seconds"
               (default 0 (rd_duration d) / 1000) now I1
               ltac:(unfold series_names; set_solver)).
  match goal with |- context [bind ?X _] =>
    assert (exists s', X = Ok s' /\ store_inv s' /\ same_logs s0 s') as H
  end.
  { destruct (400 <=? _)%Z.
    - by apply update_error_rate_inv.
    - exists s0. split; [done|]. split; [done|apply same_logs_refl]. }
  next_call H.
  match goal with |- context [_calculate_requests_per_minute _ ?S] => set (s3 := S) end.
  assert (store_inv s3) as I3.
  { apply store_inv_with_request_metrics; [done|].
    apply has_capacity_append. by destruct I0. }
  next_call (calculate_requests_per_minute_inv s3 now_rpm I3).
  do 2 eexists. split; [done|]. split; [done|].
  destruct L as (? & _), L0 as (? & _), L2 as (? & _).
  subst s1 s3. cbn in *. congruence.
Qed.

Lemma ok_inv_ret s : store_inv s -> ok_inv s (Ok s).
Proof. intros H. exists s. split; [done|]. split; [done|apply same_logs_refl]. Qed.

Lemma ok_inv_bind s r k :
  ok_inv s r ->
  (forall s1, store_inv s1 -> same_logs s s1 -> ok_inv s1 (k s1)) ->
  ok_inv s (bind r k).
Proof.
  intros (s1 & -> & I1 & L1) Hk. cbn.
  destruct (Hk s1 I1 L1) as (s2 & E2 & I2 & L2).
  exists s2. split; [done|]. split; [done|]. by eapply same_logs_trans.
Qed.

Lemma ok_inv_add s name v t :
  store_inv s -> name ∈ series_names -> ok_inv s (_add_time_series name v t s).
Proof. apply add_time_series_inv. Qed.

Lemma op_ok_bind s r k :
  ok_inv s r ->
  (forall s1, store_inv s1 -> same_logs s s1 -> op_ok s1 (k s1)) ->
  op_ok s (bind r k).
Proof.
  intros (s1 & -> & I1 & L1) Hk. cbn.
  destruct (Hk s1 I1 L1) as (s2 & ev & E2 & I2 & C2).
  exists s2, ev. split; [done|]. split; [done|].
  destruct L1 as (<- & _). done.
Qed.

Lemma record_resource_metrics_inv s now d :
  store_inv s -> op_ok s (record_resource_metrics now d s).
Proof.
  intros Hinv. unfold record_resource_metrics.
  apply op_ok_bind; [|intros s1 I1 _; apply op_ok_bind; [|intros s2 I2 _;
    apply op_ok_bind; [|intros s3 I3 _]]].
  - destruct (res_cpu d); [|by apply ok_inv_ret].
    apply ok_inv_add; [done|unfold series_names; set_solver].
  - destruct (res_memory d) as [memory|]; [|by apply ok_inv_ret].
    apply ok_inv_bind; [|intros s2 I2 _].
    + destruct (mem_rss memory); [|by apply ok_inv_ret].
      apply ok_inv_add; [done|unfold series_names; set_solver].
    + destruct (mem_percent memory); [|by apply ok_inv_ret].
      apply ok_inv_add; [done|unfold series_names; set_solver].
  - destruct (res_system d) as [system|]; [|by apply ok_inv_ret].
    apply ok_inv_bind; [|intros s3 I3 _].
    + destruct (sys_load_average system) as [[|load0 ?]|]; try by apply ok_inv_ret.
      apply ok_inv_add; [done|unfold series_names; set_solver].
    + destruct (sys_memory system); [|by apply ok_inv_ret].
      apply ok_inv_add; [done|unfold series_names; set_solver].
  - do 2 eexists. split; [done|]. split; [|done].
    apply store_inv_with_resource_metrics; [done|].
    apply has_capacity_append. by destruct I3.
Qed.

Lemma deque_new_any {A B} v ml :
  @deque_new A v = Ok (Deque ml []) -> @deque_new B v = Ok (Deque ml []).
Proof.
  destruct v as [|b|z|q|s|m]; cbn; try discriminate.
  - by intros [= <-].
  - by intros [= <-].
  - destruct (z <? 0)%Z; [discriminate|]. by intros [= <-].
Qed.

Lemma record_custom_metric_inv s now name value attributes :
  store_inv s -> op_ok s (record_custom_metric now name value attributes s).
Proof.
  intros Hinv. unfold record_custom_metric.
  pose proof (inv_request s Hinv) as [Hnew _].
  apply (deque_new_any (B := Point)) in Hnew.
  assert (exists cm s1,
    match custom_metrics s !! name with
    | None =>
        let* d := deque_new (config_get (config s) "max_metric_points") in
        Ok (with_custom_metrics
              (<[name := {| cm_values := d; cm_attributes := ∅ |}]> (custom_metrics s)) s)
    | Some _ => Ok s
    end = Ok s1 /\ store_inv s1 /\ config s1 = config s /\
    custom_metrics s1 !! name = Some cm) as (cm & s1 & -> & I1 & C1 & Hcm).
  { destruct (custom_metrics s !! name) as [cm|] eqn:E.
    - by exists cm, s.
    - rewrite Hnew. cbn [bind]. do 2 eexists. split; [done|].
      split; [|split; [done|apply lookup_insert_eq]].
      destruct Hinv. split; cbn; try done.
      apply map_Forall_insert_2; [|done].
      split; [exact Hnew|]. unfold bounded. cbn. destruct (maxlen _); [lia|done]. }
  cbn [bind]. rewrite Hcm. cbn [bind].
  do 2 eexists. split; [done|]. split; [|done].
  destruct I1 as [Im It Ie Ir Iq Ic]. split; cbn; try done.
  apply map_Forall_insert_2; [|done]. cbn.
  apply has_capacity_append. by apply (Ic name cm).
Qed.

Lemma record_trace_inv s now d : store_inv s -> op_ok s (record_trace now d s).
Proof.
  intros Hinv. do 2 eexists. split; [done|]. split; [|done].
  apply store_inv_with_traces; [done|]. apply has_capacity_append. by destruct Hinv.
Qed.

Lemma record_error_inv s now d : store_inv s -> op_ok s (record_error now d s).
Proof.
  intros Hinv. do 2 eexists. split; [done|]. split; [|done].
  apply store_inv_with_errors; [done|]. apply has_capacity_append. by destruct Hinv.
Qed.

Lemma initial_metrics_inv now : metrics_inv (initial_metrics now ∪ ∅).
Proof.
  rewrite (right_id_L ∅ (∪)). repeat split.
  - repeat constructor; eexists; (split; [reflexivity|by eexists]).
  - repeat constructor; eexists; (split; [reflexivity|by eexists]).
  - unfold initial_metrics. cbn [list_to_map foldr].
    repeat (apply map_Forall_insert_2; [done|]). apply map_Forall_empty.
Qed.

Lemma clear_inv s now : store_inv s -> op_ok s (clear now s).
Proof.
  intros []. do 2 eexists. split; [done|]. split; [|done].
  split; cbn; try (by apply has_capacity_clear).
  - apply initial_metrics_inv.
  - apply map_Forall_empty.
Qed.

Lemma new_store_inv c now s :
  new_store c now = Ok s -> store_inv s /\ config s = c.
Proof.
  unfold new_store.
  destruct (deque_new (config_get c "max_traces")) as [tr|] eqn:Et; [|discriminate].
  destruct (deque_new (config_get c "max_errors")) as [er|] eqn:Ee; [|discriminate].
  destruct (deque_new (config_get c "max_metric_points")) as [rs|] eqn:Er;
    [|discriminate].
  destruct (@deque_new RequestRecord (config_get c "max_metric_points")) as [rq|] eqn:Eq;
    [|discriminate].
  cbn. intros [= <-]. split; [|done].
  split; cbn; try (by eapply has_capacity_new).
  - apply initial_metrics_inv.
  - apply map_Forall_empty.
Qed.

Lemma step_inv op s : store_inv s -> op_ok s (step op s).
Proof.
  destruct op; cbn.
  - apply record_request_inv.
  - apply record_trace_inv.
  - apply record_error_inv.
  - apply record_resource_metrics_inv.
  - apply record_custom_metric_inv.
  - apply clear_inv.
Qed.

(** No call of a history raises, and the invariants hold after it. *)
Lemma run_inv ops s :
  store_inv s -> exists s', run ops s = Ok s' /\ store_inv s' /\ config s' = config s.
Proof.
  revert s. induction ops as [|op ops IH]; intros s Hinv.
  - by exists s.
  - cbn. destruct (step_inv op s Hinv) as (s1 & ev & -> & I1 & C1). cbn.
    destruct (IH s1 I1) as (s2 & E2 & I2 & C2).
    exists s2. split; [done|]. split; [done|congruence].
Qed.

Lemma history_inv c t0 ops s :
  history c t0 ops = Ok s -> store_inv s /\ config s = c.
Proof.
  unfold history. destruct (new_store c t0) as [s0|] eqn:E0; [|discriminate].
  cbn. intros Hrun. destruct (new_store_inv c t0 s0 E0) as [I0 C0].
  destruct (run_inv ops s0 I0) as (s' & E & I & C).
  rewrite E in Hrun. injection Hrun as <-. split; [done|congruence].
Qed.

Lemma history_store_of c t0 ops :
  is_ok (history c t0 ops) = true -> history c t0 ops = Ok (store_of (history c t0 ops)).
Proof. by destruct (history c t0 ops). Qed.

(** ** What one [record_request] changes *)

Lemma record_request_spec s now now_rate now_rpm d :
  store_inv s ->
  exists s',
    record_request now now_rate now_rpm d s = Ok (s', [("request", EvRequest d)]) /\
    store_inv s' /\
    config s' = config s /\ traces s' = traces s /\ errors s' = errors s /\
    custom_metrics s' = custom_metrics s /\ resource_metrics s' = resource_metrics s /\
    request_metrics s' = deque_append (request_record now d) (request_metrics s) /\
    (exists mt v,
       metrics s !! "http_requests_total" = Some mt /\ m_value mt = Some v /\
       metrics s' !! "http_requests_total" =
         Some {| m_value := Some (v + 1); m_values := m_values mt; m_timestamp := now |}) /\
    (exists md ld,
       metrics s !! "http_request_duration_seconds" = Some md /\
       m_values md = Some (SList ld) /\
       metrics s' !! "http_request_duration_seconds" =
         Some {| m_value := m_value md;
                 m_values := Some (SList (ld ++
                   [{| p_value := default 0 (rd_duration d) / 1000; p_timestamp := now |}]));
                 m_timestamp := now |}) /\
    (exists me,
       metrics s !! "http_error_rate" = Some me /\
       metrics s' !! "http_error_rate" =
         Some (if (400 <=? default 200 (rd_status_code d))%Z
               then {| m_value :=
                         Some (error_rate_of (List.filter is_error (in_window 300 now_rate s))
                                 (in_window 300 now_rate s));
                       m_values := m_values me; m_timestamp := now_rate |}
               else me)) /\
    (exists mr lr,
       metrics s !! "http_requests_per_minute" = Some mr /\
       m_values mr = Some (SList lr) /\
       metrics s' !! "http_requests_per_minute" =
         Some {| m_value := m_value mr;
                 m_values := Some (SList (lr ++
                   [{| p_value := Qnat (length (in_window 60 now_rpm s'));
                       p_timestamp := now_rpm |}]));
                 m_timestamp := now_rpm |}) /\
    (forall k, k ∉ ["http_requests_total"; "http_request_duration_seconds";
                    "http_error_rate"; "http_requests_per_minute"] ->
       metrics s' !! k = metrics s !! k).
Proof.
  intros Hinv.
  destruct (record_request_inv s now now_rate now_rpm d Hinv) as (s' & ev & E & I' & _).
  destruct (counter_lookup s "http_requests_total" Hinv) as (mt & v & Hmt & Hv);
    [unfold counter_names; set_solver|].
  destruct (counter_lookup s "http_error_rate" Hinv) as (me & ve & Hme & Hve);
    [unfold counter_names; set_solver|].
  destruct (series_lookup s "http_request_duration_seconds" Hinv) as (md & ld & Hmd & Hld);
    [unfold series_names; set_solver|].
  destruct (series_lookup s "http_requests_per_minute" Hinv) as (mr & lr & Hmr & Hlr);
    [unfold series_names; set_solver|].
  pose proof E as E0.
  unfold record_request, metric_item, value_item in E.
  rewrite Hmt in E. cbn [bind] in E. rewrite Hv in E.
  cbn [bind with_metric with_metrics metrics] in E.
  rewrite lookup_insert_eq in E. cbn [bind] in E.
  erewrite (add_time_series_list _ "http_request_duration_seconds" md ld) in E;
    [|by cbn; simplify_map_eq|done].
  cbn [bind] in E. unfold in_window.
  destruct (400 <=? default 200 (rd_status_code d))%Z eqn:Est.
  - unfold _update_error_rate, metric_item in E.
    cbn [with_metric with_metrics metrics] in E.
    rewrite !lookup_insert_ne, Hme in E by done.
    cbn [bind with_metric with_metrics metrics] in E.
    rewrite lookup_insert_eq in E. cbn [bind] in E.
    unfold _calculate_requests_per_minute in E.
    erewrite (add_time_series_list _ "http_requests_per_minute" mr lr) in E;
      [|by cbn; simplify_map_eq|done].
    injection E as Hs Hev. subst ev. exists s'. split; [exact E0|]. split; [exact I'|].
    subst s'. cbn. repeat split; try done.
    + exists mt, v. by simplify_map_eq.
    + exists md, ld. by simplify_map_eq.
    + exists me. by simplify_map_eq.
    + exists mr, lr. by simplify_map_eq.
    + intros k Hk. rewrite !lookup_insert_ne; set_solver.
  - cbn [bind] in E. unfold _calculate_requests_per_minute in E.
    erewrite (add_time_series_list _ "http_requests_per_minute" mr lr) in E;
      [|by cbn; simplify_map_eq|done].
    injection E as Hs Hev. subst ev. exists s'. split; [exact E0|]. split; [exact I'|].
    subst s'. cbn. repeat split; try done.
    + exists mt, v. by simplify_map_eq.
    + exists md, ld. by simplify_map_eq.
    + exists me. by simplify_map_eq.
    + exists mr, lr. by simplify_map_eq.
    + intros k Hk. rewrite !lookup_insert_ne; set_solver.
Qed.


(** ** What one [record_resource_metrics] changes *)

Lemma ok_adds_ret s : store_inv s -> ok_adds s (Ok s) (fun _ => []).
Proof.
  intros H. exists s. split; [done|]. split; [done|].
  split; [apply same_logs_refl|]. intros k. by rewrite app_nil_r.
Qed.

Lemma ok_adds_bind s r k d1 d2 :
  ok_adds s r d1 ->
  (forall s1, store_inv s1 -> ok_adds s1 (k s1) d2) ->
  ok_adds s (bind r k) (fun key => d1 key ++ d2 key).
Proof.
  intros (s1 & -> & I1 & L1 & P1) Hk. cbn.
  destruct (Hk s1 I1) as (s2 & E2 & I2 & L2 & P2).
  exists s2. split; [done|]. split; [done|].
  split; [by eapply same_logs_trans|].
  intros key. by rewrite P2, P1, app_assoc.
Qed.

Lemma ok_adds_add s name o t :
  store_inv s -> name ∈ series_names ->
  ok_adds s
    (match o with Some v => _add_time_series name v t s | None => Ok s end)
    (point_if name o t).
Proof.
  intros Hinv Hin. destruct o as [v|]; [|by apply ok_adds_ret].
  destruct (series_lookup s name Hinv Hin) as (m & l & Hm & Hl).
  rewrite (add_time_series_list s name m l v t Hm Hl).
  eexists. split; [done|]. split; [|split; [apply same_logs_with_metric|]].
  - apply (store_inv_with_metric s name m); [exact Hinv|exact Hm|].
    repeat split; cbn; [|by eexists]. intros [v' Hv']. by exists v'.
  - intros k. unfold series_points, point_if. cbn.
    destruct (decide (k = name)) as [->|Hne].
    + rewrite lookup_insert_eq, Hm, Hl. done.
    + rewrite lookup_insert_ne by done. by rewrite app_nil_r.
Qed.

Lemma record_resource_metrics_spec s now d :
  store_inv s ->
  exists s',
    record_resource_metrics now d s =
      Ok (s', [("resource", EvResource (resource_record now d))]) /\
    store_inv s' /\
    config s' = config s /\ traces s' = traces s /\ errors s' = errors s /\
    custom_metrics s' = custom_metrics s /\ request_metrics s' = request_metrics s /\
    resource_metrics s' = deque_append (resource_record now d) (resource_metrics s) /\
    forall k, series_points s' k = series_points s k ++ resource_points now d k.
Proof.
  intros Hinv. unfold record_resource_metrics.
  match goal with |- context [bind ?X ?K] =>
    match K with context [with_resource_metrics] =>
      assert (ok_adds s X (point_if "process_cpu_percent" (res_cpu d) now))
        as (s1 & -> & I1 & L1 & P1)
    end
  end.
  { apply ok_adds_add; [done|unfold series_names; set_solver]. }
  cbn [bind].
  match goal with |- context [bind ?X ?K] =>
    match K with context [with_resource_metrics] =>
      assert (ok_adds s1 X (fun k =>
                point_if "process_memory_bytes" (memory_rss d) now k ++
                point_if "process_memory_percent" (memory_percent d) now k))
        as (s2 & -> & I2 & L2 & P2)
    end
  end.
  { unfold memory_rss, memory_percent.
    destruct (res_memory d) as [memory|]; [|by apply ok_adds_ret].
    apply ok_adds_bind; [|intros s2 I2];
      (apply ok_adds_add; [done|unfold series_names; set_solver]). }
  cbn [bind].
  match goal with |- context [bind ?X ?K] =>
    match K with context [with_resource_metrics] =>
      assert (ok_adds s2 X (fun k =>
                point_if "system_load_average" (load_average0 d) now k ++
                point_if "system_memory_usage" (system_memory_usage d) now k))
        as (s3 & -> & I3 & L3 & P3)
    end
  end.
  { unfold load_average0, system_memory_usage.
    destruct (res_system d) as [system|]; [|by apply ok_adds_ret].
    apply ok_adds_bind; [|intros s3 I3].
    - cbn. destruct (sys_load_average system) as [[|load0 rest]|];
        try by apply ok_adds_ret.
      apply (ok_adds_add s2 "system_load_average" (Some load0));
        [done|unfold series_names; set_solver].
    - cbn. destruct (sys_memory system) as [memory|]; [|by apply ok_adds_ret].
      apply (ok_adds_add s3 "system_memory_usage" (Some (default 0 (smem_percent memory))));
        [done|unfold series_names; set_solver]. }
  cbn [bind]. eexists. split; [done|].
  destruct L1 as (C1 & T1 & E1 & M1 & R1 & Q1), L2 as (C2 & T2 & E2 & M2 & R2 & Q2),
    L3 as (C3 & T3 & E3 & M3 & R3 & Q3).
  split.
  { apply store_inv_with_resource_metrics; [done|].
    apply has_capacity_append. by destruct I3. }
  cbn [config traces errors custom_metrics request_metrics resource_metrics
       with_resource_metrics].
  unfold resource_record. repeat (split; [congruence|]).
  intros k. unfold series_points in *. cbn [metrics with_resource_metrics].
  specialize (P1 k). specialize (P2 k). specialize (P3 k).
  unfold resource_points. rewrite P3, P2, P1. by rewrite <- !app_assoc.
Qed.

(** ** Bounded series (C1) *)

(** The logs of a store stay within the capacities of its configuration
    in every history. *)
Lemma logs_bounded c t0 ops s :
  history c t0 ops = Ok s ->
  bounded (traces s) /\ bounded (errors s) /\ bounded (request_metrics s) /\
  bounded (resource_metrics s) /\
  map_Forall (fun _ cm => bounded (cm_values cm)) (custom_metrics s).
Proof.
  intros H. destruct (history_inv c t0 ops s H) as [[] _].
  repeat split; try (by match goal with H : has_capacity _ _ |- _ => apply H end).
  eapply map_Forall_impl; [eassumption|]. by intros k cm [_ Hb].
Qed.

(** C1, at the failing input: with [max_metric_points = 2], three calls of
    [record_request] leave three points in the series
    [http_request_duration_seconds] and three in [http_requests_per_minute],
    more than the capacity, while the request log, a deque, keeps the
    newest two entries. *)
Theorem C1_system_series_exceed_capacity :
  let s := store_of (history small_config 0
             [OpRequest 1 1 1 (request (Some 10) None);
              OpRequest 2 2 2 (request (Some 20) None);
              OpRequest 3 3 3 (request (Some 30) None)]) in
  config_get (config s) "max_metric_points" = VInt 2 /\
  map p_timestamp (series_points s "http_request_duration_seconds") = [1; 2; 3] /\
  length (series_points s "http_requests_per_minute") = 3%nat /\
  map rq_timestamp (items (request_metrics s)) = [2; 3].
Proof. vm_compute. done. Qed.

(** ** Requests per minute (C2) *)

(** The point that [record_request] appends to [http_requests_per_minute]
    counts the entries of the request log, the new one included, whose
    timestamp is greater than [now_rpm - 60]. *)
Lemma requests_per_minute_point c t0 ops s now now_rate now_rpm d :
  history c t0 ops = Ok s ->
  exists s' ev,
    record_request now now_rate now_rpm d s = Ok (s', ev) /\
    series_points s' "http_requests_per_minute" =
      series_points s "http_requests_per_minute" ++
      [{| p_value :=
            Qnat (length (List.filter
                            (fun req => Qltb (now_rpm - 60) (rq_timestamp req))
                            (items (request_metrics s'))));
          p_timestamp := now_rpm |}].
Proof.
  intros H. destruct (history_inv c t0 ops s H) as [Hinv _].
  destruct (record_request_spec s now now_rate now_rpm d Hinv)
    as (s' & E & _ & _ & _ & _ & _ & _ & _ & _ & _ & _ & (mr & lr & Hmr & Hlr & Hmr') & _).
  exists s', [("request", EvRequest d)]. split; [done|].
  unfold series_points. by rewrite Hmr, Hmr', Hlr.
Qed.

(** C2, at the failing input: one request is recorded at time 1 and the
    summary is queried at time 100.  No entry of the request log has a
    timestamp greater than [100 - 60], yet [per_minute] is 1: the summary
    counts the 300-second window. *)
Theorem C2_summary_per_minute_counts_five_minutes :
  let s := store_of (history small_config 0 [OpRequest 1 1 1 (request (Some 10) None)]) in
  List.filter (fun req => Qltb (100 - 60) (rq_timestamp req)) (items (request_metrics s)) = [] /\
  exists summary,
    _get_metrics_summary 100 100 s = Ok summary /\
    sm_per_minute summary = 1%nat /\
    sm_per_minute summary = length (in_window 300 100 s).
Proof. vm_compute. split; [done|]. eexists. done. Qed.

(** ** Most recent entries (C6) *)

Lemma most_recent_positive {A} (limit : Z) (xs : list A) :
  (0 < limit)%Z ->
  most_recent limit xs = reverse (keep_last (Z.to_nat limit) xs) /\
  most_recent limit xs = take (Z.to_nat limit) (reverse xs) /\
  length (most_recent limit xs) = (Z.to_nat limit `min` length xs)%nat.
Proof.
  intros Hpos. unfold most_recent, slice_from, keep_last.
  destruct (- limit <? 0)%Z eqn:E; [|apply Z.ltb_ge in E; lia].
  replace (Z.to_nat (Z.max 0 (- limit + Z.of_nat (length xs))))
    with (length xs - Z.to_nat limit)%nat by lia.
  split; [done|]. split.
  - rewrite take_reverse. done.
  - rewrite length_reverse, length_drop. lia.
Qed.

(** C6, at the failing input: with one trace, one error and one request
    stored, [get_traces(0)], [get_errors(0)] and [get_requests(0)] return
    that entry, one more than the limit; [xs[-0:]] is the whole list. *)
Theorem C6_limit_zero_returns_everything :
  let s := store_of (history small_config 0
             [OpTrace 1 ∅; OpError 2 ∅; OpRequest 3 3 3 (request None None)]) in
  length (get_traces 0 s) = 1%nat /\
  length (get_errors 0 s) = 1%nat /\
  length (get_requests 0 s) = 1%nat /\
  forall A (xs : list A), most_recent 0 xs = reverse xs.
Proof.
  split; [by vm_compute|]. split; [by vm_compute|]. split; [by vm_compute|].
  intros A xs. unfold most_recent, slice_from. cbn.
  by destruct (length xs).
Qed.

(** ** The frame of [record_trace] and [record_error] (C10) *)

(** One [append] adds the new item at the right end and removes at most
    one item, the oldest. *)
Lemma deque_append_one {A} (x : A) (d : deque A) :
  items (deque_append x d) = items d ++ [x] \/
  items (deque_append x d) = tail (items d ++ [x]).
Proof.
  unfold deque_append. destruct (maxlen d) as [c|]; [|by left].
  destruct (c <? _)%nat; [by right|by left].
Qed.

(** C10: for every payload and every store, [record_trace] returns; the
    entry is the payload with ['timestamp'] set to the clock reading; it
    is appended to the traces log by one [append]; the configuration, the
    system metrics, the errors log, the custom metrics, the resource log
    and the request log are unchanged; and one [trace] event is emitted.
    Symmetrically for [record_error] and the errors log. *)
Theorem C10_record_trace_and_error_frame (now : Q) (data : gmap string Val)
    (s : DataStore) :
  let record := stamp now data in
  (record !! "timestamp" = Some (VFloat now) /\
   forall k, k ≠ "timestamp" -> record !! k = data !! k) /\
  (exists s',
     record_trace now data s = Ok (s', [("trace", EvRecord record)]) /\
     traces s' = deque_append record (traces s) /\
     (items (traces s') = items (traces s) ++ [record] \/
      items (traces s') = tail (items (traces s) ++ [record])) /\
     config s' = config s /\ metrics s' = metrics s /\ errors s' = errors s /\
     custom_metrics s' = custom_metrics s /\
     resource_metrics s' = resource_metrics s /\
     request_metrics s' = request_metrics s) /\
  (exists s',
     record_error now data s = Ok (s', [("error", EvRecord record)]) /\
     errors s' = deque_append record (errors s) /\
     (items (errors s') = items (errors s) ++ [record] \/
      items (errors s') = tail (items (errors s) ++ [record])) /\
     config s' = config s /\ metrics s' = metrics s /\ traces s' = traces s /\
     custom_metrics s' = custom_metrics s /\
     resource_metrics s' = resource_metrics s /\
     request_metrics s' = request_metrics s).
Proof.
  intros record. split; [|split].
  - unfold record, stamp. split; [apply lookup_insert_eq|].
    intros k Hk. by rewrite lookup_insert_ne.
  - eexists. split; [reflexivity|]. cbn. split; [done|].
    split; [apply deque_append_one|done].
  - eexists. split; [reflexivity|]. cbn. split; [done|].
    split; [apply deque_append_one|done].
Qed.

(** ** Percentiles (C3) *)

Lemma insert_sorted_perm x l : Permutation (insert_sorted x l) (x :: l).
Proof.
  induction l as [|y l IH]; cbn; [done|].
  destruct (Qle_bool x y); [done|].
  rewrite IH. apply perm_swap.
Qed.

Lemma sorted_perm l : Permutation (sorted l) l.
Proof.
  induction l as [|x l IH]; cbn; [done|].
  by rewrite insert_sorted_perm, IH.
Qed.

Lemma sorted_length l : length (sorted l) = length l.
Proof. by rewrite (Permutation_length (sorted_perm l)). Qed.

Lemma insert_sorted_Sorted x l : Sorted Qle l -> Sorted Qle (insert_sorted x l).
Proof.
  induction 1 as [|y l Hl IH Hy]; cbn.
  - by repeat constructor.
  - destruct (Qle_bool x y) eqn:E.
    + apply Qle_bool_iff in E. by repeat constructor.
    + assert (y <= x) as Hyx.
      { apply Qlt_le_weak, Qnot_le_lt. intros Hle.
        apply Qle_bool_iff in Hle. congruence. }
      constructor; [done|].
      destruct Hy as [|z l Hz]; cbn; [by constructor|].
      destruct (Qle_bool x z); by constructor.
Qed.

Lemma sorted_Sorted l : Sorted Qle (sorted l).
Proof.
  induction l as [|x l IH]; cbn; [constructor|]. by apply insert_sorted_Sorted.
Qed.

Lemma int_of_float_floor x : 0 <= x -> int_of_float x = Qfloor x.
Proof.
  destruct x as [n d]. unfold Qle, int_of_float. cbn. intros H.
  apply Z.quot_div_nonneg; lia.
Qed.

Lemma Qfloor_nonneg x : 0 <= x -> (0 <= Qfloor x)%Z.
Proof.
  intros H. change 0%Z with (Qfloor 0). by apply Qfloor_resp_le.
Qed.

(** On a non-empty list and a non-negative [p], [_percentile] returns
    the element at the rank of the specification. *)
Lemma percentile_rank values p :
  values <> [] -> 0 <= p ->
  exists x, _percentile values p = Ok (Some x) /\
            values !! rank (length values) p = Some x.
Proof.
  intros Hne Hp. unfold _percentile, rank.
  destruct values as [|v0 vs] eqn:Ev; [done|]. rewrite <- Ev in *.
  assert (0 < length values)%nat as Hlen by (rewrite Ev; cbn; lia).
  assert (0 <= Qnat (length values) * p) as Hprod.
  { apply Qmult_le_0_compat; [|done]. unfold Qnat, Qle. cbn. lia. }
  rewrite (int_of_float_floor _ Hprod).
  pose proof (Qfloor_nonneg _ Hprod) as Hfl.
  set (f := Qfloor (Qnat (length values) * p)) in *.
  set (n := Z.of_nat (length values)) in *.
  assert ((if (n <=? f)%Z then (n - 1)%Z else f) = Z.min f (n - 1)) as ->.
  { destruct (n <=? f)%Z eqn:E; [apply Z.leb_le in E|apply Z.leb_gt in E]; lia. }
  unfold list_item. fold n.
  destruct (Z.min f (n - 1) <? 0)%Z eqn:E1; [apply Z.ltb_lt in E1; lia|].
  destruct (values !! Z.to_nat (Z.min f (n - 1))) as [x|] eqn:E2.
  - exists x. by rewrite E1.
  - apply lookup_ge_None in E2. lia.
Qed.

Lemma or_zero_Some v : or_zero (Some v) == v.
Proof.
  cbn. destruct (Qeq_bool v 0) eqn:E; [|reflexivity].
  apply Qeq_bool_iff in E. by symmetry.
Qed.

(** C3: in every history, when the 300-second window of the request log
    is not empty, the summary returns, and its p50, p95 and p99 are the
    elements at rank [floor(n * p)], clamped to [n - 1], of the durations
    of the window sorted in ascending order; the result is an element of
    that list.  When the sorted durations are [10, 20, 30, 40, 50], the
    p50 is 30 and the p99 is 50. *)
Theorem C3_percentile_is_floor_rank c t0 ops s now now_res :
  history c t0 ops = Ok s ->
  in_window 300 now s <> [] ->
  let durations := sorted (map rq_duration (in_window 300 now s)) in
  let n := length durations in
  Sorted Qle durations /\
  Permutation durations (map rq_duration (in_window 300 now s)) /\
  exists summary x50 x95 x99,
    _get_metrics_summary now now_res s = Ok summary /\
    durations !! rank n 0.5 = Some x50 /\ sm_p50 summary == x50 /\
    durations !! rank n 0.95 = Some x95 /\ sm_p95 summary == x95 /\
    durations !! rank n 0.99 = Some x99 /\ sm_p99 summary == x99 /\
    (durations = [10; 20; 30; 40; 50] ->
     sm_p50 summary == 30 /\ sm_p99 summary == 50).
Proof.
  intros H Hne durations n.
  split; [apply sorted_Sorted|]. split; [apply sorted_perm|].
  destruct (history_inv c t0 ops s H) as [Hinv _].
  destruct (counter_lookup s "http_requests_total" Hinv) as (mt & v & Hmt & Hv);
    [unfold counter_names; set_solver|].
  assert (durations <> []) as Hd.
  { intros E. apply (f_equal length) in E. unfold durations in E.
    rewrite sorted_length, length_map in E. by destruct (in_window 300 now s). }
  destruct (percentile_rank durations 0.5 Hd) as (x50 & E50 & L50); [done|].
  destruct (percentile_rank durations 0.95 Hd) as (x95 & E95 & L95); [done|].
  destruct (percentile_rank durations 0.99 Hd) as (x99 & E99 & L99); [done|].
  eexists _, x50, x95, x99. split.
  { unfold _get_metrics_summary, metric_item, value_item.
    fold (in_window 300 now s). fold durations.
    rewrite E50, E95, E99, Hmt. cbn [bind]. rewrite Hv. cbn [bind]. reflexivity. }
  cbn [sm_p50 sm_p95 sm_p99].
  split; [done|]. split; [apply or_zero_Some|].
  split; [done|]. split; [apply or_zero_Some|].
  split; [done|]. split; [apply or_zero_Some|].
  intros E. fold n in L50, L99. subst n. rewrite E in L50, L99.
  vm_compute in L50, L99. injection L50 as <-. injection L99 as <-.
  split; apply or_zero_Some.
Qed.

(** C3 at two requests with durations 50 and 10, queried at time 10. *)
Lemma C3_percentile_is_floor_rank_witness :
  let ops := [OpRequest 1 1 1 (request (Some 50) None);
              OpRequest 2 2 2 (request (Some 10) None)] in
  let s := store_of (history small_config 0 ops) in
  exists summary,
    _get_metrics_summary 10 10 s = Ok summary /\
    sm_p50 summary == 50 /\ sm_p95 summary == 50 /\ sm_p99 summary == 50.
Proof.
  intros ops s.
  assert (history small_config 0 ops = Ok s) as H1
    by (apply history_store_of; vm_compute; reflexivity).
  assert (in_window 300 10 s <> []) as H2 by (vm_compute; discriminate).
  destruct (C3_percentile_is_floor_rank small_config 0 ops s 10 10 H1 H2)
    as (_ & _ & summary & x50 & x95 & x99 & E & L50 & P50 & L95 & P95 & L99 & P99 & _).
  exists summary. split; [exact E|].
  vm_compute in L50, L95, L99.
  injection L50 as <-. injection L95 as <-. injection L99 as <-.
  exact (conj P50 (conj P95 P99)).
Defined.

(** ** The summary *)

Lemma percentile_ok values p :
  0 <= p -> exists o, _percentile values p = Ok o.
Proof.
  intros Hp. destruct values as [|v vs] eqn:E; [by exists None|].
  destruct (percentile_rank (v :: vs) p) as (x & Hx & _); [done|done|].
  by exists (Some x).
Qed.

(** In every history the summary returns, with these figures. *)
Lemma summary_spec s now now_res :
  store_inv s ->
  exists summary,
    _get_metrics_summary now now_res s = Ok summary /\
    stored_value s "http_requests_total" = Some (sm_total summary) /\
    sm_per_minute summary = length (in_window 300 now s) /\
    sm_error_rate summary =
      error_rate_of (List.filter is_error (in_window 300 now s)) (in_window 300 now s) /\
    sm_resources summary = _get_latest_resource_metrics now_res s /\
    sm_errors summary = length (items (errors s)) /\
    sm_traces summary = length (items (traces s)).
Proof.
  intros Hinv.
  destruct (counter_lookup s "http_requests_total" Hinv) as (mt & v & Hmt & Hv);
    [unfold counter_names; set_solver|].
  unfold _get_metrics_summary, metric_item, value_item, stored_value.
  fold (in_window 300 now s).
  set (durations := sorted (map rq_duration (in_window 300 now s))).
  destruct (percentile_ok durations 0.5) as (o50 & ->); [done|].
  destruct (percentile_ok durations 0.95) as (o95 & ->); [done|].
  destruct (percentile_ok durations 0.99) as (o99 & ->); [done|].
  rewrite Hmt. cbn [bind]. rewrite Hv. cbn [bind].
  eexists. split; [reflexivity|]. cbn. done.
Qed.




Lemma Qnat_pos n : (0 < n)%nat -> ~ Qnat n == 0.
Proof. unfold Qnat, Qeq. cbn. lia. Qed.

Lemma error_rate_of_spec (errored window : list RequestRecord) :
  (window = [] -> error_rate_of errored window = 0) /\
  (window <> [] ->
   error_rate_of errored window == 100 * Qnat (length errored) / Qnat (length window)).
Proof.
  split; [by intros ->|]. intros Hne.
  destruct window as [|r w] eqn:E; [done|]. rewrite <- E in *.
  assert (error_rate_of errored window
          = Qnat (length errored) / Qnat (length window) * 100) as -> by by rewrite E.
  field. apply Qnat_pos. rewrite E. cbn. lia.
Qed.

(** ** Missing fields of a payload (C4) *)





(** ** Error rate (C5) *)




(** ** Clearing (C9) *)

Lemma initial_metrics_timestamp t :
  initial_metrics t = set_timestamp t <$> initial_metrics 0.
Proof.
  unfold initial_metrics. cbn [list_to_map foldr fst snd].
  rewrite !fmap_insert, fmap_empty. reflexivity.
Qed.


Lemma stored_value_initial t s name v :
  initial_metrics 0 !! name = Some (counter v 0) ->
  stored_value (with_metrics (initial_metrics t ∪ ∅) s) name = Some v.
Proof.
  intros H. unfold stored_value. cbn [metrics with_metrics].
  rewrite (right_id_L ∅ (∪)), initial_metrics_timestamp, lookup_fmap, H.
  reflexivity.
Qed.

(** Whether a store can be constructed depends on the configuration
    only, and so do its empty logs. *)
Lemma new_store_any_time c t t' s :
  new_store c t = Ok s ->
  new_store c t' =
    Ok (with_metrics (initial_metrics t' ∪ ∅) s).
Proof.
  unfold new_store.
  destruct (deque_new (config_get c "max_traces")) as [tr|]; [|discriminate].
  destruct (deque_new (config_get c "max_errors")) as [er|]; [|discriminate].
  destruct (deque_new (config_get c "max_metric_points")) as [rs|]; [|discriminate].
  destruct (@deque_new RequestRecord (config_get c "max_metric_points")) as [rq|];
    [|discriminate].
  cbn. by intros [= <-].
Qed.

Lemma history_new_store c t0 ops s :
  history c t0 ops = Ok s -> exists s0, new_store c t0 = Ok s0.
Proof.
  unfold history. destruct (new_store c t0) as [s0|]; [|discriminate]. by exists s0.
Qed.





(** ** Persistence (C7) *)

Lemma deque_extend_new {A} (xs : list A) ml :
  items (deque_extend xs (Deque ml [])) = newest ml xs.
Proof.
  destruct ml as [n|]; cbn [newest].
  - rewrite (deque_extend_items xs (Deque (Some n) []) n); [done|done|].
    unfold bounded. cbn. lia.
  - by rewrite (deque_extend_unbounded xs (Deque None [])).
Qed.

Lemma newest_bounded {A} (d : deque A) :
  bounded d -> newest (maxlen d) (items d) = items d.
Proof.
  unfold bounded, newest. destruct (maxlen d) as [n|]; [|done].
  apply keep_last_all.
Qed.

Lemma deque_new_shape {A} v (d : deque A) :
  deque_new v = Ok d ->
  d = Deque (maxlen d) [] /\ forall B, @deque_new B v = Ok (Deque (maxlen d) []).
Proof.
  intros H. destruct (has_capacity_new v d H) as [[Hd _] Hi].
  split; [destruct d as [ml l]; cbn in *; by subst|].
  intros B. by apply (deque_new_any (A := A)).
Qed.

(** The store that [__init__] leaves when persistence is on and
    [data.json] holds [data]. *)
Lemma init_with_data c t data s' :
  truthy (config_get c "persistence") = true ->
  DataStore_init c t (Some data) = Ok s' ->
  exists s0,
    new_store c t = Ok s0 /\
    config s' = c /\
    metrics s' = default ∅ (ps_metrics data) ∪ metrics s0 /\
    traces s' = deque_extend (default [] (ps_traces data)) (traces s0) /\
    errors s' = deque_extend (default [] (ps_errors data)) (errors s0) /\
    request_metrics s' =
      deque_extend (default [] (ps_request_metrics data)) (request_metrics s0) /\
    resource_metrics s' =
      deque_extend (default [] (ps_resource_metrics data)) (resource_metrics s0) /\
    custom_metrics s' =
      ((fun metric_data =>
          {| cm_values :=
               deque_extend (pc_values metric_data)
                 (Deque (maxlen (request_metrics s0)) []);
             cm_attributes := pc_attributes metric_data |})
       <$> default ∅ (ps_custom_metrics data)) ∪ ∅.
Proof.
  intros Hp. unfold DataStore_init.
  destruct (new_store c t) as [s0|] eqn:E0; [|discriminate].
  cbn [bind]. rewrite Hp. intros [= <-]. exists s0. split; [done|].
  destruct (new_store_inv c t s0 E0) as [[_ _ _ _ [Hq _] _] Hc].
  pose proof (deque_new_any (B := Point) _ _ Hq) as Hd.
  assert (custom_metrics s0 = ∅) as Hcm.
  { revert E0. unfold new_store.
    destruct (deque_new (config_get c "max_traces")); [|discriminate].
    destruct (deque_new (config_get c "max_errors")); [|discriminate].
    destruct (deque_new (config_get c "max_metric_points")); [|discriminate].
    destruct (@deque_new RequestRecord (config_get c "max_metric_points"));
      [|discriminate].
    cbn [bind]. by intros [= <-]. }
  unfold _load_persisted_data, load_persisted.
  cbn [config with_metrics]. rewrite Hd. cbn [bind].
  cbn [config metrics traces errors request_metrics resource_metrics custom_metrics
       with_metrics with_custom_metrics with_traces with_errors
       with_request_metrics with_resource_metrics].
  rewrite Hcm. by repeat split.
Qed.

Lemma persist_data_ok s t :
  store_inv s -> truthy (config_get (config s) "persistence") = true ->
  _persist_data t s =
    Some {| ps_metrics := Some (metrics s);
            ps_custom_metrics :=
              Some ((fun v => {| pc_values := items (cm_values v);
                                 pc_attributes := cm_attributes v |})
                    <$> custom_metrics s);
            ps_traces := Some (items (traces s));
            ps_errors := Some (items (errors s));
            ps_request_metrics := Some (items (request_metrics s));
            ps_resource_metrics := Some (items (resource_metrics s));
            ps_timestamp := Some t |}.
Proof.
  intros [(_ & _ & Hj) _ _ _ _ _] Hp. unfold _persist_data.
  rewrite Hp. cbn [negb]. by rewrite bool_decide_eq_true_2.
Qed.

(** A log restored into a deque made by [deque(maxlen=v)]. *)
Lemma restored_log {A} v (d0 : deque A) (saved : list A) :
  deque_new v = Ok d0 ->
  items (deque_extend saved d0) = newest (maxlen d0) saved.
Proof.
  intros H. destruct (deque_new_shape v d0 H) as [-> _]. apply deque_extend_new.
Qed.

Lemma restored_log_same {A} v (d d0 : deque A) :
  has_capacity v d -> deque_new v = Ok d0 ->
  items (deque_extend (items d) d0) = items d.
Proof.
  intros [Hd Hb] H0. rewrite (restored_log v d0 _ H0).
  rewrite Hd in H0. injection H0 as <-. cbn [maxlen]. by apply newest_bounded.
Qed.

Lemma deque_new_int {A} (n : nat) (d : deque A) :
  deque_new (VInt (Z.of_nat n)) = Ok d -> maxlen d = Some n.
Proof.
  cbn. destruct (Z.of_nat n <? 0)%Z eqn:E; [discriminate|].
  intros [= <-]. cbn. by rewrite Nat2Z.id.
Qed.

Lemma new_store_deques c t s0 :
  new_store c t = Ok s0 ->
  deque_new (config_get c "max_traces") = Ok (traces s0) /\
  deque_new (config_get c "max_errors") = Ok (errors s0) /\
  deque_new (config_get c "max_metric_points") = Ok (resource_metrics s0) /\
  deque_new (config_get c "max_metric_points") = Ok (request_metrics s0).
Proof.
  unfold new_store.
  destruct (deque_new (config_get c "max_traces")); [|discriminate].
  destruct (deque_new (config_get c "max_errors")); [|discriminate].
  destruct (deque_new (config_get c "max_metric_points")); [|discriminate].
  destruct (@deque_new RequestRecord (config_get c "max_metric_points"));
    [|discriminate].
  cbn [bind]. by intros [= <-].
Qed.



(** ** Validation of the configuration (C8) *)

Lemma Qltb_lt a b : Qltb a b = true <-> a < b.
Proof.
  unfold Qltb. rewrite negb_true_iff. split.
  - intros E. apply Qnot_le_lt. intros H. apply Qle_bool_iff in H. congruence.
  - intros H. destruct (Qle_bool b a) eqn:E; [|done].
    apply Qle_bool_iff in E. exfalso. by apply (Qlt_not_le _ _ H).
Qed.

Lemma out_of_range lo x hi :
  negb (Qle_bool lo x && Qle_bool x hi) = true <-> ~ (lo <= x /\ x <= hi).
Proof.
  rewrite negb_true_iff, andb_false_iff. split.
  - intros [E|E] [H1 H2]; [apply Qle_bool_iff in H1|apply Qle_bool_iff in H2];
      congruence.
  - intros H. destruct (Qle_bool lo x) eqn:E1; [|by left].
    destruct (Qle_bool x hi) eqn:E2; [|by right].
    exfalso. apply H. split; by apply Qle_bool_iff.
Qed.

Lemma config_num_at config key :
  match config !! key with Some v => is_number v | None => false end = true ->
  config_num config key = Ok (num_at config key).
Proof.
  unfold config_num, num_at.
  destruct (config !! key) as [[| | | | |]|]; cbn; done.
Qed.

(** [_validate_config] raises exactly on an invalid configuration, when
    the validated keys hold numbers. *)
Lemma validate_config_spec config :
  Forall (fun key => match config !! key with
                     | Some v => is_number v
                     | None => false
                     end = true) validated_keys ->
  (_validate_config config = Ok tt /\ ~ invalid config) \/
  (raises (_validate_config config) /\ invalid config).
Proof.
  intros Hnum. unfold validated_keys in Hnum.
  repeat match goal with
         | H : Forall _ (_ :: _) |- _ => apply Forall_cons in H; destruct H as [? H]
         end.
  unfold _validate_config.
  rewrite !config_num_at by assumption. cbn [bind].
  unfold invalid.
  set (dp := num_at config "dashboard_port").
  set (pp := num_at config "prometheus_port").
  set (sr := num_at config "sample_rate").
  set (mi := num_at config "metrics_interval").
  set (ri := num_at config "resource_interval").
  set (mt := num_at config "max_traces").
  set (me := num_at config "max_errors").
  set (ct := num_at config "cpu_threshold").
  destruct (negb (Qle_bool 1 dp && Qle_bool dp 65535)) eqn:E1;
    [right; split; [exact I|]; apply out_of_range in E1; tauto|].
  destruct (negb (Qle_bool 1 pp && Qle_bool pp 65535)) eqn:E2;
    [right; split; [exact I|]; apply out_of_range in E2; tauto|].
  destruct (negb (Qle_bool 0 sr && Qle_bool sr 1)) eqn:E3;
    [right; split; [exact I|]; apply out_of_range in E3; tauto|].
  destruct (Qltb mi 1000) eqn:E4;
    [right; split; [exact I|]; apply Qltb_lt in E4; tauto|].
  destruct (Qltb ri 1000) eqn:E5;
    [right; split; [exact I|]; apply Qltb_lt in E5; tauto|].
  destruct (Qltb mt 1) eqn:E6;
    [right; split; [exact I|]; apply Qltb_lt in E6; tauto|].
  destruct (Qltb me 1) eqn:E7;
    [right; split; [exact I|]; apply Qltb_lt in E7; tauto|].
  destruct (negb (Qle_bool 0 ct && Qle_bool ct 100)) eqn:E8;
    [right; split; [exact I|]; apply out_of_range in E8; tauto|].
  left. split; [reflexivity|].
  intros [V|[V|[V|[V|[V|[V|[V|V]]]]]]].
  - apply out_of_range in V. congruence.
  - apply out_of_range in V. congruence.
  - apply out_of_range in V. congruence.
  - apply Qltb_lt in V. congruence.
  - apply Qltb_lt in V. congruence.
  - apply Qltb_lt in V. congruence.
  - apply Qltb_lt in V. congruence.
  - apply out_of_range in V. congruence.
Qed.

Lemma Ok_inj {A} (a b : A) : Ok a = Ok b -> a = b.
Proof. by intros [= ->]. Qed.

Section ConfigManager.

Variable py_int : string -> result Z.
Variable py_float : string -> result Q.

(** Steps through the parses of [default_config] in a hypothesis. *)
Ltac parse_step H :=
  match type of H with
  | bind ?X _ = Ok _ =>
      let E := fresh "E" in
      destruct X eqn:E; [cbn [bind] in H|discriminate H]
  end.

Ltac lookup_key :=
  cbn [list_to_map foldr fst snd];
  repeat (rewrite lookup_insert_ne by done);
  apply lookup_insert_eq.

Lemma getenv_int_spec env var dflt z :
  getenv_int py_int env var dflt = Ok z ->
  match env !! var with Some s => py_int s = Ok z | None => z = dflt end.
Proof.
  unfold getenv_int. destruct (env !! var); [done|]. by intros [= <-].
Qed.

Lemma getenv_float_spec env var dflt q :
  getenv_float py_float env var dflt = Ok q ->
  match env !! var with Some s => py_float s = Ok q | None => q = dflt end.
Proof.
  unfold getenv_float. destruct (env !! var); [done|]. by intros [= <-].
Qed.

(** Every integer and float setting of the defaults is the parsed value
    of its environment variable when that is set, and the built-in
    default otherwise. *)
Lemma default_config_settings env d :
  default_config py_int py_float env = Ok d ->
  Forall (fun '(key, var, dflt) =>
            exists z, d !! key = Some (VInt z) /\
                      match env !! var with
                      | Some s => py_int s = Ok z
                      | None => z = dflt
                      end) int_settings /\
  Forall (fun '(key, var, dflt) =>
            exists q, d !! key = Some (VFloat q) /\
                      match env !! var with
                      | Some s => py_float s = Ok q
                      | None => q = dflt
                      end) float_settings.
Proof.
  intros H. unfold default_config in H.
  do 11 parse_step H. apply Ok_inj in H. subst d.
  split; repeat apply Forall_cons_2; try apply Forall_nil_2;
    cbv beta iota; (eexists; split; [lookup_key|]);
    first [by apply getenv_int_spec | by apply getenv_float_spec].
Qed.

Lemma merged_lookup (options d : gmap string Val) key :
  (options ∪ d) !! key =
    match options !! key with Some v => Some v | None => d !! key end.
Proof.
  rewrite lookup_union. destruct (options !! key), (d !! key); reflexivity.
Qed.

Lemma merged_numeric (options d : gmap string Val) key :
  In key validated_keys ->
  numeric_options options = true ->
  (exists v, d !! key = Some v /\ is_number v = true) ->
  match (options ∪ d) !! key with Some v => is_number v | None => false end = true.
Proof.
  intros Hin Hopt (v & Hv & Hn). rewrite merged_lookup.
  unfold numeric_options in Hopt. rewrite forallb_forall in Hopt.
  specialize (Hopt key Hin). destruct (options !! key); [exact Hopt|].
  by rewrite Hv.
Qed.

(** When the environment parses and the options give numbers for the
    validated keys they set, [ConfigManager(options)] raises if and only
    if the merged configuration is invalid, and otherwise returns the
    merged configuration; the settings of the defaults are the parsed
    values of their environment variables, or the built-in defaults. *)
Lemma construction_with_parsed_environment env options d :
  default_config py_int py_float env = Ok d ->
  numeric_options options = true ->
  let merged := options ∪ d in
  (raises (ConfigManager_init py_int py_float env options) <-> invalid merged) /\
  (~ invalid merged ->
   ConfigManager_init py_int py_float env options = Ok merged) /\
  (forall key,
     merged !! key = match options !! key with Some v => Some v | None => d !! key end) /\
  Forall (fun '(key, var, dflt) =>
            exists z, d !! key = Some (VInt z) /\
                      match env !! var with
                      | Some s => py_int s = Ok z
                      | None => z = dflt
                      end) int_settings /\
  Forall (fun '(key, var, dflt) =>
            exists q, d !! key = Some (VFloat q) /\
                      match env !! var with
                      | Some s => py_float s = Ok q
                      | None => q = dflt
                      end) float_settings.
Proof.
  intros Hd Hopt merged.
  destruct (default_config_settings env d Hd) as [Hint Hfloat].
  assert (Forall (fun key => match merged !! key with
                             | Some v => is_number v
                             | None => false
                             end = true) validated_keys) as Hnum.
  { pose proof Hint as Hi. pose proof Hfloat as Hf.
    unfold int_settings in Hi. unfold float_settings in Hf.
    repeat match goal with
           | H : Forall _ (_ :: _) |- _ =>
               apply Forall_cons in H; cbv beta iota in H;
               let z := fresh "z" in let L := fresh "L" in
               destruct H as [(z & L & _) H]
           end.
    unfold validated_keys.
    repeat apply Forall_cons_2; try apply Forall_nil_2;
      (apply merged_numeric;
       [unfold validated_keys; cbn [In]; tauto | exact Hopt
       | eexists; split; [eassumption|reflexivity]]). }
  unfold ConfigManager_init, _build_config. rewrite Hd. cbn [bind]. fold merged.
  destruct (validate_config_spec merged Hnum) as [[Hok Hvalid]|[Hraise Hinvalid]].
  - rewrite Hok. cbn [bind raises]. repeat split; try tauto.
    intros key. apply merged_lookup.
  - destruct (_validate_config merged) as [u|e]; [destruct Hraise|].
    cbn [bind raises]. repeat split; try tauto.
    intros key. apply merged_lookup.
Qed.

Lemma getenv_int_cases env var dflt :
  (exists z, getenv_int py_int env var dflt = Ok z /\
             ~ (exists s, env !! var = Some s /\ raises (py_int s))) \/
  (exists e, getenv_int py_int env var dflt = Raise e /\
             exists s, env !! var = Some s /\ raises (py_int s)).
Proof.
  unfold getenv_int. destruct (env !! var) as [s|].
  - destruct (py_int s) as [z|e] eqn:E.
    + left. exists z. split; [reflexivity|].
      intros (s' & Hs & Hr). injection Hs as <-. rewrite E in Hr. exact Hr.
    + right. exists e. split; [reflexivity|]. exists s. split; [reflexivity|].
      rewrite E. exact I.
  - left. exists dflt. split; [reflexivity|]. intros (s' & Hs & _). discriminate Hs.
Qed.

Lemma getenv_float_cases env var dflt :
  (exists q, getenv_float py_float env var dflt = Ok q /\
             ~ (exists s, env !! var = Some s /\ raises (py_float s))) \/
  (exists e, getenv_float py_float env var dflt = Raise e /\
             exists s, env !! var = Some s /\ raises (py_float s)).
Proof.
  unfold getenv_float. destruct (env !! var) as [s|].
  - destruct (py_float s) as [q|e] eqn:E.
    + left. exists q. split; [reflexivity|].
      intros (s' & Hs & Hr). injection Hs as <-. rewrite E in Hr. exact Hr.
    + right. exists e. split; [reflexivity|]. exists s. split; [reflexivity|].
      rewrite E. exact I.
  - left. exists dflt. split; [reflexivity|]. intros (s' & Hs & _). discriminate Hs.
Qed.

(** One parse of [default_config]: either it raises, and the goal is
    settled, or it returns and the next one is looked at. *)
Ltac parse_or_raise env :=
  let N := fresh "N" in
  let Y := fresh "Y" in
  match goal with
  | |- raises (bind (getenv_int _ _ ?var ?dflt) _) <-> _ =>
      destruct (getenv_int_cases env var dflt) as [(? & -> & N)|(? & -> & Y)]
  | |- raises (bind (getenv_float _ _ ?var ?dflt) _) <-> _ =>
      destruct (getenv_float_cases env var dflt) as [(? & -> & N)|(? & -> & Y)]
  end;
  cbn [bind];
  [|split; [intros _; unfold unparsed, int_settings, float_settings;
            rewrite !Exists_cons; cbv beta iota; tauto
           |intros _; exact I]].

(** [default_config] raises exactly when an integer or float setting has
    its environment variable set to a string that [int] or [float]
    rejects. *)
Lemma default_config_raises env :
  raises (default_config py_int py_float env) <-> unparsed py_int py_float env.
Proof.
  unfold default_config.
  do 11 parse_or_raise env.
  split; [intros H; exact (False_ind _ H)|].
  unfold unparsed, int_settings, float_settings.
  rewrite !Exists_cons, !Exists_nil. cbv beta iota. tauto.
Qed.

(** C8, amended: construction raises when an integer or float setting
    has its environment variable set to a string that [int] or [float]
    rejects, whatever the options are.  Otherwise, when the options give
    numbers for the validated keys they set, it raises if and only if the
    merged configuration has a port outside [1, 65535], a sample rate
    outside [0, 1], a metrics or resource interval below 1000,
    [max_traces] or [max_errors] below 1, or a CPU threshold outside
    [0, 100], and else returns the merged configuration.  In the merged
    configuration a key has the value of the options when they set it and
    the default otherwise, and the default of a setting is the parsed
    value of its environment variable when that is set and the built-in
    default otherwise. *)
Theorem C8_construction_fails_iff_unparsed_or_invalid env options :
  numeric_options options = true ->
  (unparsed py_int py_float env ->
   forall any_options, raises (ConfigManager_init py_int py_float env any_options)) /\
  (raises (ConfigManager_init py_int py_float env options) <->
   unparsed py_int py_float env \/
   exists d, default_config py_int py_float env = Ok d /\ invalid (options ∪ d)) /\
  (forall d,
     default_config py_int py_float env = Ok d ->
     let merged := options ∪ d in
     ~ unparsed py_int py_float env /\
     (~ invalid merged ->
      ConfigManager_init py_int py_float env options = Ok merged) /\
     (forall key,
        merged !! key =
          match options !! key with Some v => Some v | None => d !! key end) /\
     Forall (fun '(key, var, dflt) =>
               exists z, d !! key = Some (VInt z) /\
                         match env !! var with
                         | Some s => py_int s = Ok z
                         | None => z = dflt
                         end) int_settings /\
     Forall (fun '(key, var, dflt) =>
               exists q, d !! key = Some (VFloat q) /\
                         match env !! var with
                         | Some s => py_float s = Ok q
                         | None => q = dflt
                         end) float_settings).
Proof.
  intros Hopt. pose proof (default_config_raises env) as Hparse.
  assert (forall any_options,
            raises (default_config py_int py_float env) ->
            raises (ConfigManager_init py_int py_float env any_options)) as Hfirst.
  { intros any_options. unfold ConfigManager_init, _build_config.
    destruct (default_config py_int py_float env) as [d|e]; [intros []|].
    intros _. exact I. }
  split; [intros Hu any_options; apply Hfirst, Hparse, Hu|].
  destruct (default_config py_int py_float env) as [d|e] eqn:Hd.
  - destruct (construction_with_parsed_environment env options d Hd Hopt)
      as (Hiff & Hok & Hlook & Hint & Hfloat).
    split.
    + split.
      * intros Hr. right. exists d. split; [reflexivity|]. by apply Hiff.
      * intros [Hu|(d' & Hd' & Hinv)]; [by apply Hparse in Hu|].
        apply Ok_inj in Hd'. subst d'. by apply Hiff.
    + intros d' Hd'. apply Ok_inj in Hd'. subst d'. intros merged.
      split; [intros Hu; by apply Hparse in Hu|].
      split; [exact Hok|]. split; [exact Hlook|]. split; [exact Hint|exact Hfloat].
  - split.
    + split; [intros _; left; by apply Hparse|].
      intros _. by apply Hfirst.
    + intros d' Hd'. discriminate Hd'.
Qed.

End ConfigManager.

(** The amended C8 at an empty environment and the option
    [dashboard_port = 0]. *)
Lemma C8_construction_fails_iff_unparsed_or_invalid_witness :
  let options : gmap string Val := {["dashboard_port" := VInt 0]} in
  numeric_options options = true /\
  raises (ConfigManager_init no_int no_float ∅ options).
Proof.
  intros options.
  assert (default_config no_int no_float ∅ = Ok empty_env_defaults) as Hd.
  { unfold empty_env_defaults.
    assert (is_ok (default_config no_int no_float ∅) = true) as Hok
      by (vm_compute; reflexivity).
    by destruct (default_config no_int no_float ∅). }
  assert (numeric_options options = true) as Hopt by (vm_compute; reflexivity).
  split; [exact Hopt|].
  destruct (C8_construction_fails_iff_unparsed_or_invalid no_int no_float ∅ options Hopt)
    as (_ & [_ Hraise] & _).
  apply Hraise. right. exists empty_env_defaults. split; [exact Hd|].
  left. intros [Hle _]. vm_compute in Hle. by apply Hle.
Defined.

(** C8, counterexample: with [LITEOBS_DASHBOARD_PORT=abc] in the
    environment and the option [dashboard_port = 8080], construction
    raises [ValueError], although the options give a valid port and every
    other setting has its built-in default, so that no value of the merged
    configuration is out of range; with the variable unset, or set to
    [8001], the same options construct. *)
Lemma C8_unparsed_variable_fails_despite_option :
  let env : gmap string string := {["LITEOBS_DASHBOARD_PORT" := "abc"]} in
  let options : gmap string Val := {["dashboard_port" := VInt 8080]} in
  (exists msg, ConfigManager_init int_of_decimal no_float env options
               = Raise (ValueError msg)) /\
  ~ invalid (options ∪ empty_env_defaults) /\
  (options ∪ empty_env_defaults) !! "dashboard_port" = Some (VInt 8080) /\
  is_ok (ConfigManager_init int_of_decimal no_float ∅ options) = true /\
  is_ok (ConfigManager_init int_of_decimal no_float
           {["LITEOBS_DASHBOARD_PORT" := "8001"]} options) = true.
Proof.
  intros env options.
  split; [eexists; vm_compute; reflexivity|].
  split.
  { unfold invalid.
    intros [V|[V|[V|[V|[V|[V|[V|V]]]]]]];
      first [apply V; split; vm_compute; discriminate
            |vm_compute in V; discriminate V]. }
  split; [vm_compute; reflexivity|].
  split; vm_compute; reflexivity.
Qed.


(** * Further properties *)

(** ** Metrics keep their keys and counters *)

Lemma same_values_refl s : same_values s s.
Proof. by split. Qed.

Lemma same_values_trans s1 s2 s3 :
  same_values s1 s2 -> same_values s2 s3 -> same_values s1 s3.
Proof.
  intros [D1 V1] [D2 V2]. split; [congruence|].
  intros key. by rewrite V2, V1.
Qed.

(** [_add_time_series] replaces one existing metric, and leaves its
    ['value'] alone. *)
Lemma add_time_series_same_values name v t s s' :
  _add_time_series name v t s = Ok s' -> same_values s s' /\ same_logs s s'.
Proof.
  unfold _add_time_series, metric_item.
  destruct (metrics s !! name) as [m|] eqn:Em; [|discriminate]. cbn [bind].
  assert (forall vs,
            same_values s
              (with_metric name
                 (set_timestamp t
                    (set_values (series_append {| p_value := v; p_timestamp := t |} vs) m))
                 s)) as Hsame.
  { intros vs. split.
    - cbn [metrics with_metric with_metrics]. apply dom_insert_lookup_L. by eexists.
    - intros key. unfold stored_value. cbn [metrics with_metric with_metrics].
      destruct (decide (name = key)) as [<-|Hne].
      + by rewrite lookup_insert_eq, Em.
      + by rewrite lookup_insert_ne. }
  destruct (m_values m) as [vs|].
  - cbn [bind]. intros E. apply Ok_inj in E. subst s'.
    split; [apply Hsame|apply same_logs_with_metric].
  - destruct (deque_new (config_get (config s) "max_metric_points")) as [d|];
      [|discriminate].
    cbn [bind]. intros E. apply Ok_inj in E. subst s'.
    split; [apply Hsame|apply same_logs_with_metric].
Qed.

Lemma maybe_add_same_values name (o : option Q) t s s' :
  match o with Some v => _add_time_series name v t s | None => Ok s end = Ok s' ->
  same_values s s' /\ same_logs s s'.
Proof.
  destruct o as [v|]; [apply add_time_series_same_values|].
  intros E. apply Ok_inj in E. subst s'.
  split; [apply same_values_refl|apply same_logs_refl].
Qed.

(** Splits a hypothesis on a bind that returned. *)
Ltac bind_inv H s E :=
  match type of H with
  | bind ?X _ = Ok _ => destruct X as [s|] eqn:E; [cbn [bind] in H|discriminate H]
  end.

Lemma record_resource_metrics_same_values now d s s' ev :
  record_resource_metrics now d s = Ok (s', ev) -> same_values s s'.
Proof.
  unfold record_resource_metrics. intros H.
  bind_inv H s1 E1. bind_inv H s2 E2. bind_inv H s3 E3.
  apply Ok_inj in H. injection H as <- _.
  apply maybe_add_same_values in E1. destruct E1 as [V1 _].
  assert (same_values s1 s2) as V2.
  { destruct (res_memory d) as [memory|];
      [|apply Ok_inj in E2; subst; apply same_values_refl].
    bind_inv E2 s12 E12.
    apply maybe_add_same_values in E12, E2.
    destruct E12 as [? _], E2 as [? _]. by eapply same_values_trans. }
  assert (same_values s2 s3) as V3.
  { destruct (res_system d) as [system|];
      [|apply Ok_inj in E3; subst; apply same_values_refl].
    bind_inv E3 s23 E23.
    assert (same_values s2 s23) as Va.
    { destruct (sys_load_average system) as [[|load0 rest]|];
        try (apply Ok_inj in E23; subst; apply same_values_refl).
      by apply add_time_series_same_values in E23 as [? _]. }
    assert (same_values s23 s3) as Vb.
    { destruct (sys_memory system) as [memory|];
        [|apply Ok_inj in E3; subst; apply same_values_refl].
      by apply add_time_series_same_values in E3 as [? _]. }
    by eapply same_values_trans. }
  split.
  - cbn [metrics with_resource_metrics].
    destruct V1 as [D1 _], V2 as [D2 _], V3 as [D3 _]. congruence.
  - intros key. unfold stored_value. cbn [metrics with_resource_metrics].
    destruct V1 as [_ W1], V2 as [_ W2], V3 as [_ W3].
    specialize (W1 key). specialize (W2 key). specialize (W3 key).
    unfold stored_value in *. congruence.
Qed.


Lemma dom_eq_lookup (m1 m2 : gmap string Metric) :
  (forall k, is_Some (m1 !! k) <-> is_Some (m2 !! k)) -> dom m1 = dom m2.
Proof.
  intros H. apply set_eq. intros k. by rewrite !elem_of_dom.
Qed.

Lemma initial_metrics_dom t : dom (initial_metrics t ∪ ∅) = dom (initial_metrics 0).
Proof.
  rewrite (right_id_L ∅ (∪)), (initial_metrics_timestamp t). apply dom_fmap_L.
Qed.

(** What one call does to the keys of [self.metrics] and to the total
    counter. *)
Lemma step_metrics op s s' ev v :
  store_inv s -> step op s = Ok (s', ev) ->
  dom (metrics s) = dom (initial_metrics 0) ->
  stored_value s "http_requests_total" = Some v ->
  dom (metrics s') = dom (initial_metrics 0) /\
  stored_value s' "http_requests_total" =
    match op with
    | OpRequest _ _ _ _ => Some (v + 1)
    | OpClear _ => Some 0
    | _ => Some v
    end.
Proof.
  intros Hinv Hstep Hdom Hv. destruct op as [now nr np d|now d|now d|now d|now n x a|now];
    cbn [step] in Hstep.
  - destruct (record_request_spec s now nr np d Hinv)
      as (s1 & E & _ & _ & _ & _ & _ & _ & _ & (mt & v0 & Hmt & Hv0 & Hmt')
          & (md & ld & Hmd & _ & Hmd') & (me & Hme & Hme')
          & (mr & lr & Hmr & _ & Hmr') & Hother).
    rewrite E in Hstep. apply Ok_inj in Hstep. injection Hstep as <- _. split.
    + rewrite <- Hdom. apply dom_eq_lookup. intros k.
      destruct (decide (k = "http_requests_total")) as [->|N1];
        [rewrite Hmt, Hmt'; split; by eexists|].
      destruct (decide (k = "http_request_duration_seconds")) as [->|N2];
        [rewrite Hmd, Hmd'; split; by eexists|].
      destruct (decide (k = "http_error_rate")) as [->|N3];
        [rewrite Hme, Hme'; split; by eexists|].
      destruct (decide (k = "http_requests_per_minute")) as [->|N4];
        [rewrite Hmr, Hmr'; split; by eexists|].
      rewrite Hother; [done|].
      rewrite !not_elem_of_cons. repeat split; try done. apply not_elem_of_nil.
    + unfold stored_value in *. rewrite Hmt'. rewrite Hmt in Hv. cbn.
      rewrite Hv0 in Hv. by injection Hv as <-.
  - apply Ok_inj in Hstep. injection Hstep as <- _. by split.
  - apply Ok_inj in Hstep. injection Hstep as <- _. by split.
  - destruct (record_resource_metrics_same_values now d s s' ev Hstep) as [D V].
    split; [congruence|]. by rewrite V.
  - destruct (record_custom_metric_inv s now n x a Hinv) as (s1 & ev1 & E & _ & _).
    assert (metrics s' = metrics s) as Hm.
    { revert Hstep. unfold record_custom_metric.
      destruct (custom_metrics s !! n) as [cm|] eqn:Ecm.
      - cbn [bind]. rewrite Ecm. cbn [bind]. intros H. apply Ok_inj in H.
        by injection H as <- _.
      - destruct (deque_new (config_get (config s) "max_metric_points")) as [d0|];
          [|discriminate].
        cbn [bind custom_metrics with_custom_metrics].
        rewrite lookup_insert_eq. cbn [bind]. intros H. apply Ok_inj in H.
        by injection H as <- _. }
    unfold stored_value. rewrite Hm. by split.
  - unfold clear in Hstep. apply Ok_inj in Hstep. injection Hstep as <- _.
    cbn [metrics _initialize_metrics with_metrics]. split.
    + apply initial_metrics_dom.
    + change (stored_value (with_metrics (initial_metrics now ∪ ∅) s)
                "http_requests_total" = Some 0).
      apply stored_value_initial. vm_compute. reflexivity.
Qed.

Lemma run_metrics ops s s' v n :
  store_inv s -> run ops s = Ok s' ->
  dom (metrics s) = dom (initial_metrics 0) ->
  stored_value s "http_requests_total" = Some v -> v == Qnat n ->
  dom (metrics s') = dom (initial_metrics 0) /\
  exists v', stored_value s' "http_requests_total" = Some v' /\
             v' == Qnat (requests_since_clear n ops).
Proof.
  revert s v n. induction ops as [|op ops IH]; intros s v n Hinv Hrun Hdom Hv Hn.
  - cbn in Hrun. apply Ok_inj in Hrun. subst s'. split; [done|]. by exists v.
  - cbn [run] in Hrun.
    destruct (step_inv op s Hinv) as (s1 & ev & E & I1 & _).
    rewrite E in Hrun. cbn [bind fst] in Hrun.
    destruct (step_metrics op s s1 ev v Hinv E Hdom Hv) as [D1 V1].
    assert (forall n', requests_since_clear n (op :: ops) = requests_since_clear n' ops ->
              forall v1, stored_value s1 "http_requests_total" = Some v1 ->
                         v1 == Qnat n' ->
              dom (metrics s') = dom (initial_metrics 0) /\
              exists v', stored_value s' "http_requests_total" = Some v' /\
                         v' == Qnat (requests_since_clear n (op :: ops))) as Hnext.
    { intros n' -> v1 Hv1 Hn1. by apply (IH s1 v1 n'). }
    destruct op; cbn [requests_since_clear] in *.
    + apply (Hnext (S n) eq_refl (v + 1) V1).
      rewrite Hn. unfold Qnat. rewrite Nat2Z.inj_succ, <- Z.add_1_r, inject_Z_plus.
      reflexivity.
    + by apply (Hnext n eq_refl v V1).
    + by apply (Hnext n eq_refl v V1).
    + by apply (Hnext n eq_refl v V1).
    + by apply (Hnext n eq_refl v V1).
    + by apply (Hnext 0%nat eq_refl 0 V1).
Qed.

Lemma history_metrics c t0 ops s :
  history c t0 ops = Ok s ->
  dom (metrics s) = dom (initial_metrics 0) /\
  exists v, stored_value s "http_requests_total" = Some v /\
            v == Qnat (requests_since_clear 0 ops).
Proof.
  unfold history. destruct (new_store c t0) as [s0|] eqn:E0; [|discriminate].
  cbn [bind]. intros Hrun.
  destruct (new_store_inv c t0 s0 E0) as [I0 _].
  pose proof (new_store_any_time c t0 t0 s0 E0) as Hs0.
  rewrite E0 in Hs0. apply Ok_inj in Hs0.
  apply (run_metrics ops s0 s 0 0%nat I0 Hrun).
  - rewrite Hs0. cbn [metrics with_metrics]. apply initial_metrics_dom.
  - rewrite Hs0. apply stored_value_initial. vm_compute. reflexivity.
  - reflexivity.
Qed.


(** ** The total counter and the statistics *)

(** X1: in every history the summary's total is the number of requests
    recorded since the last [clear] (since construction when there was
    none): each [record_request] adds one, [clear] resets it, and no other
    call changes it. *)
Theorem total_counts_requests_since_clear c t0 ops s now now_res :
  history c t0 ops = Ok s ->
  exists summary,
    _get_metrics_summary now now_res s = Ok summary /\
    sm_total summary == Qnat (requests_since_clear 0 ops).
Proof.
  intros H. destruct (history_inv c t0 ops s H) as [Hinv _].
  destruct (history_metrics c t0 ops s H) as (_ & v & Hv & Hn).
  destruct (summary_spec s now now_res Hinv) as (summary & E & Ht & _).
  exists summary. split; [exact E|].
  rewrite Hv in Ht. injection Ht as <-. exact Hn.
Qed.

(** X1 at three requests, a [clear], and two more requests. *)
Lemma total_counts_requests_since_clear_witness :
  let ops := [OpRequest 1 1 1 (request None None); OpRequest 2 2 2 (request None None);
              OpRequest 3 3 3 (request None None); OpClear 4;
              OpRequest 5 5 5 (request None None); OpTrace 6 ∅;
              OpRequest 7 7 7 (request None None)] in
  let s := store_of (history small_config 0 ops) in
  exists summary,
    _get_metrics_summary 8 8 s = Ok summary /\ sm_total summary == 2.
Proof.
  intros ops s.
  assert (history small_config 0 ops = Ok s) as H
    by (apply history_store_of; vm_compute; reflexivity).
  exact (total_counts_requests_since_clear small_config 0 ops s 8 8 H).
Defined.

(** X2: in every history [get_stats] counts exactly the ten system
    metrics of [_initialize_metrics], whatever was recorded or cleared, and
    its counts of errors and traces are those of the summary. *)
Theorem get_stats_counts c t0 ops s now now_res :
  history c t0 ops = Ok s ->
  st_metrics (get_stats s) = 10%nat /\
  exists summary,
    _get_metrics_summary now now_res s = Ok summary /\
    sm_errors summary = st_errors (get_stats s) /\
    sm_traces summary = st_traces (get_stats s).
Proof.
  intros H. destruct (history_inv c t0 ops s H) as [Hinv _].
  destruct (history_metrics c t0 ops s H) as (Hdom & _).
  split.
  - unfold get_stats. cbn [st_metrics].
    rewrite <- size_dom, Hdom, size_dom. vm_compute. reflexivity.
  - destruct (summary_spec s now now_res Hinv) as (summary & E & _ & _ & _ & _ & He & Ht).
    exists summary. split; [exact E|]. split; assumption.
Qed.

(** X2 at a store that has recorded requests, a resource snapshot and a
    custom metric. *)
Lemma get_stats_counts_witness :
  let ops := [OpRequest 1 1 1 (request None None); OpResource 2 resource_without_percent;
              OpCustomMetric 3 "x" 1 ∅] in
  let s := store_of (history small_config 0 ops) in
  st_metrics (get_stats s) = 10%nat.
Proof.
  intros ops s.
  assert (history small_config 0 ops = Ok s) as H
    by (apply history_store_of; vm_compute; reflexivity).
  exact (proj1 (get_stats_counts small_config 0 ops s 4 4 H)).
Defined.


(** ** Capacities *)

Lemma capacity_bound {A} (n : nat) (d : deque A) :
  has_capacity (VInt (Z.of_nat n)) d -> (length (items d) <= n)%nat.
Proof.
  intros [Hd Hb]. unfold bounded in Hb.
  pose proof (deque_new_int n _ Hd) as Hm. cbn [maxlen] in Hm.
  by rewrite Hm in Hb.
Qed.

(** X3: in every history, with integer capacities, the traces never
    exceed [max_traces], the errors [max_errors], and the request log, the
    resource log and the values of every custom metric
    [max_metric_points]. *)
Theorem logs_within_capacity c t0 ops s (n_traces n_errors n_points : nat) :
  history c t0 ops = Ok s ->
  config_get c "max_traces" = VInt (Z.of_nat n_traces) ->
  config_get c "max_errors" = VInt (Z.of_nat n_errors) ->
  config_get c "max_metric_points" = VInt (Z.of_nat n_points) ->
  (length (items (traces s)) <= n_traces)%nat /\
  (length (items (errors s)) <= n_errors)%nat /\
  (length (items (request_metrics s)) <= n_points)%nat /\
  (length (items (resource_metrics s)) <= n_points)%nat /\
  forall name cm,
    custom_metrics s !! name = Some cm ->
    (length (items (cm_values cm)) <= n_points)%nat.
Proof.
  intros H Ht He Hp. destruct (history_inv c t0 ops s H) as [[Im It Ie Ir Iq Ic] Hc].
  rewrite Hc in It, Ie, Ir, Iq, Ic. rewrite Ht in It. rewrite He in Ie.
  rewrite Hp in Ir, Iq, Ic.
  split; [by apply capacity_bound|]. split; [by apply capacity_bound|].
  split; [by apply capacity_bound|]. split; [by apply capacity_bound|].
  intros name cm Hcm. apply capacity_bound. exact (Ic name cm Hcm).
Qed.

(** X3 at capacities 2 and three traces, three requests and three values
    of one custom metric. *)
Lemma logs_within_capacity_witness :
  let ops := [OpTrace 1 ∅; OpTrace 2 ∅; OpTrace 3 ∅;
              OpRequest 4 4 4 (request None None); OpRequest 5 5 5 (request None None);
              OpRequest 6 6 6 (request None None);
              OpCustomMetric 7 "x" 1 ∅; OpCustomMetric 8 "x" 2 ∅;
              OpCustomMetric 9 "x" 3 ∅] in
  let s := store_of (history small_config 0 ops) in
  (length (items (traces s)) <= 2)%nat /\
  (length (items (request_metrics s)) <= 2)%nat.
Proof.
  intros ops s.
  assert (history small_config 0 ops = Ok s) as H
    by (apply history_store_of; vm_compute; reflexivity).
  destruct (logs_within_capacity small_config 0 ops s 2 2 2 H)
    as (Ht & _ & Hq & _); try (vm_compute; reflexivity).
  exact (conj Ht Hq).
Defined.

(** ** Custom metrics *)

(** X4: in every history [record_custom_metric] returns and emits one
    [customMetric] event.  The metric then holds the given attributes over
    those it had (none on first use; per key the new value wins) and its
    values are the former ones followed by the new point, cut to the newest
    [max_metric_points]; other custom metrics, the system metrics and all
    logs are unchanged. *)
Theorem custom_metric_accumulates c t0 ops s now name value attributes :
  history c t0 ops = Ok s ->
  let old_attributes :=
    match custom_metrics s !! name with Some cm => cm_attributes cm | None => ∅ end in
  let old_values :=
    match custom_metrics s !! name with Some cm => items (cm_values cm) | None => [] end in
  exists s' cm',
    record_custom_metric now name value attributes s =
      Ok (s', [("customMetric", EvCustomMetric name value attributes)]) /\
    custom_metrics s' !! name = Some cm' /\
    cm_attributes cm' = attributes ∪ old_attributes /\
    (forall k, cm_attributes cm' !! k =
               match attributes !! k with Some v => Some v | None => old_attributes !! k end) /\
    items (cm_values cm') =
      newest (maxlen (cm_values cm'))
        (old_values ++ [{| p_value := value; p_timestamp := now |}]) /\
    has_capacity (config_get c "max_metric_points") (cm_values cm') /\
    (forall other, other <> name -> custom_metrics s' !! other = custom_metrics s !! other) /\
    metrics s' = metrics s /\ traces s' = traces s /\ errors s' = errors s /\
    request_metrics s' = request_metrics s /\ resource_metrics s' = resource_metrics s /\
    config s' = config s.
Proof.
  intros H old_attributes old_values.
  destruct (history_inv c t0 ops s H) as [[Im It Ie Ir Iq Ic] Hc].
  destruct Iq as [Hq _]. pose proof (deque_new_any (B := Point) _ _ Hq) as Hd.
  assert (forall k (a b : gmap string Val),
            (a ∪ b) !! k = match a !! k with Some v => Some v | None => b !! k end)
    as Hunion.
  { intros k a b. rewrite lookup_union. by destruct (a !! k), (b !! k). }
  unfold record_custom_metric, old_attributes, old_values.
  destruct (custom_metrics s !! name) as [cm|] eqn:Ecm.
  - cbn [bind]. rewrite Ecm. cbn [bind].
    destruct (Ic name cm Ecm) as [Hcap Hb]. rewrite Hc in Hcap.
    do 2 eexists. split; [reflexivity|].
    cbn [custom_metrics with_custom_metrics metrics traces errors request_metrics
         resource_metrics config].
    split; [apply lookup_insert_eq|]. cbn [cm_attributes cm_values].
    split; [reflexivity|]. split; [intros k; apply Hunion|].
    split.
    { rewrite deque_append_maxlen. unfold newest.
      destruct (maxlen (cm_values cm)) as [n|] eqn:En.
      - by apply deque_append_items.
      - by apply deque_append_unbounded. }
    split.
    { apply has_capacity_append. by split. }
    split; [intros other Hne; by rewrite lookup_insert_ne|done].
  - rewrite Hd. cbn [bind custom_metrics with_custom_metrics].
    rewrite lookup_insert_eq. cbn [bind].
    do 2 eexists. split; [reflexivity|].
    cbn [custom_metrics with_custom_metrics metrics traces errors request_metrics
         resource_metrics config].
    split; [apply lookup_insert_eq|]. cbn [cm_attributes cm_values].
    split; [reflexivity|]. split; [intros k; apply Hunion|].
    split.
    { rewrite deque_append_maxlen. cbn [maxlen].
      destruct (maxlen (request_metrics s)) as [n|].
      - refine (deque_append_items _ (Deque (Some n) []) n eq_refl _).
        unfold bounded. cbn. lia.
      - reflexivity. }
    split.
    { apply has_capacity_append. rewrite <- Hc. split; [exact Hd|].
      unfold bounded. cbn. destruct (maxlen (request_metrics s)); [lia|done]. }
    split; [intros other Hne; by rewrite insert_insert_eq, lookup_insert_ne|].
    done.
Qed.

(** X4 at the metric [x] recorded with [{a: 1}] and then with [{b: 2}]: the
    stored attributes are [{a: 1, b: 2}]. *)
Lemma custom_metric_accumulates_witness :
  let ops := [OpCustomMetric 1 "x" 5 {["a" := VInt 1]}] in
  let s := store_of (history small_config 0 ops) in
  exists s' cm' ev,
    record_custom_metric 2 "x" 6 {["b" := VInt 2]} s = Ok (s', ev) /\
    custom_metrics s' !! "x" = Some cm' /\
    cm_attributes cm' !! "a" = Some (VInt 1) /\
    cm_attributes cm' !! "b" = Some (VInt 2).
Proof.
  intros ops s.
  assert (history small_config 0 ops = Ok s) as H
    by (apply history_store_of; vm_compute; reflexivity).
  destruct (custom_metric_accumulates small_config 0 ops s 2 "x" 6 {["b" := VInt 2]} H)
    as (s' & cm' & E & Hcm & _ & Hk & _).
  exists s', cm', [("customMetric", EvCustomMetric "x" 6 {["b" := VInt 2]})].
  split; [exact E|]. split; [exact Hcm|].
  split; [rewrite (Hk "a")|rewrite (Hk "b")]; vm_compute; reflexivity.
Defined.


(** ** Recording and reading back *)

Lemma run_traces (records : list (Q * gmap string Val)) s :
  run (map (fun r => OpTrace (fst r) (snd r)) records) s =
    Ok (with_traces
          (deque_extend (map (fun r => stamp (fst r) (snd r)) records) (traces s)) s).
Proof.
  revert s. induction records as [|[t d] records IH]; intros s.
  - by destruct s.
  - cbn [map run step fst snd]. unfold record_trace. cbn [bind fst].
    rewrite IH. reflexivity.
Qed.

(** X5: a store that has only recorded traces holds the newest
    [max_traces] of them, stamped, in the order recorded: one more trace
    than the capacity evicts the oldest. *)
Theorem traces_keep_newest c t0 (records : list (Q * gmap string Val)) s (n : nat) :
  history c t0 (map (fun r => OpTrace (fst r) (snd r)) records) = Ok s ->
  config_get c "max_traces" = VInt (Z.of_nat n) ->
  items (traces s) =
    drop (length records - n) (map (fun r => stamp (fst r) (snd r)) records).
Proof.
  unfold history. destruct (new_store c t0) as [s0|] eqn:E0; [|discriminate].
  cbn [bind]. rewrite run_traces. intros E Hn. apply Ok_inj in E. subst s.
  cbn [traces with_traces].
  destruct (new_store_deques c t0 s0 E0) as (Dt & _).
  rewrite (restored_log _ _ _ Dt). rewrite Hn in Dt.
  rewrite (deque_new_int n _ Dt). unfold newest, keep_last.
  by rewrite length_map.
Qed.

(** X5 at capacity 2 and three traces. *)
Lemma traces_keep_newest_witness :
  let records : list (Q * gmap string Val) :=
    [(1, ∅); (2, {["id" := VInt 7]}); (3, ∅)] in
  let s := store_of (history small_config 0
                       (map (fun r => OpTrace (fst r) (snd r)) records)) in
  items (traces s) = [stamp 2 {["id" := VInt 7]}; stamp 3 ∅].
Proof.
  intros records s.
  apply (traces_keep_newest small_config 0 records s 2).
  - apply history_store_of. vm_compute. reflexivity.
  - vm_compute. reflexivity.
Defined.

(** X6: with a limit of at least 1, [get_traces], [get_errors] and
    [get_requests] return the newest [min(limit, count)] entries, newest
    first; with a negative limit they return, newest first, all entries
    but the oldest [-limit]. *)
Theorem get_recent_entries s (limit : Z) :
  ((0 < limit)%Z ->
   get_traces limit s = take (Z.to_nat limit) (reverse (items (traces s))) /\
   get_errors limit s = take (Z.to_nat limit) (reverse (items (errors s))) /\
   get_requests limit s = take (Z.to_nat limit) (reverse (items (request_metrics s))) /\
   length (get_traces limit s) = (Z.to_nat limit `min` length (items (traces s)))%nat /\
   length (get_errors limit s) = (Z.to_nat limit `min` length (items (errors s)))%nat /\
   length (get_requests limit s) =
     (Z.to_nat limit `min` length (items (request_metrics s)))%nat) /\
  ((limit < 0)%Z ->
   get_traces limit s = reverse (drop (Z.to_nat (- limit)) (items (traces s))) /\
   get_errors limit s = reverse (drop (Z.to_nat (- limit)) (items (errors s))) /\
   get_requests limit s =
     reverse (drop (Z.to_nat (- limit)) (items (request_metrics s)))).
Proof.
  split.
  - intros Hpos. unfold get_traces, get_errors, get_requests.
    destruct (most_recent_positive limit (items (traces s)) Hpos) as (_ & T1 & T2).
    destruct (most_recent_positive limit (items (errors s)) Hpos) as (_ & E1 & E2).
    destruct (most_recent_positive limit (items (request_metrics s)) Hpos)
      as (_ & R1 & R2).
    by repeat split.
  - intros Hneg.
    assert (forall A (xs : list A),
              most_recent limit xs = reverse (drop (Z.to_nat (- limit)) xs)) as Hm.
    { intros A xs. unfold most_recent, slice_from.
      destruct (- limit <? 0)%Z eqn:E; [apply Z.ltb_lt in E; lia|].
      destruct (Z.le_ge_cases (- limit) (Z.of_nat (length xs))) as [Hle|Hge].
      - by rewrite Z.min_l.
      - rewrite Z.min_r by done. rewrite Nat2Z.id.
        rewrite drop_all. by rewrite drop_ge by lia. }
    unfold get_traces, get_errors, get_requests. by rewrite !Hm.
Qed.

(** X7: reading back what was just written.  When the capacity of the
    log is at least 1 and the limit is at least 1, the first entry of
    [get_traces] after [record_trace] is the stamped trace just recorded,
    of [get_errors] after [record_error] the stamped error, and of
    [get_requests] after [record_request] the request just recorded. *)
Theorem newest_entry_comes_first c t0 ops s (limit : Z) (n_traces n_errors n_points : nat) :
  history c t0 ops = Ok s ->
  (0 < limit)%Z ->
  config_get c "max_traces" = VInt (Z.of_nat (S n_traces)) ->
  config_get c "max_errors" = VInt (Z.of_nat (S n_errors)) ->
  config_get c "max_metric_points" = VInt (Z.of_nat (S n_points)) ->
  (forall now data, exists s' ev,
     record_trace now data s = Ok (s', ev) /\
     head (get_traces limit s') = Some (stamp now data)) /\
  (forall now data, exists s' ev,
     record_error now data s = Ok (s', ev) /\
     head (get_errors limit s') = Some (stamp now data)) /\
  (forall now now_rate now_rpm d, exists s' ev,
     record_request now now_rate now_rpm d s = Ok (s', ev) /\
     head (get_requests limit s') = Some (request_record now d)).
Proof.
  intros H Hpos Ht He Hp.
  destruct (history_inv c t0 ops s H) as [Hinv Hc].
  assert (forall A (x : A) (d : deque A) n,
            has_capacity (VInt (Z.of_nat (S n))) d ->
            head (most_recent limit (items (deque_append x d))) = Some x) as Hhead.
  { intros A x d n [Hd Hb].
    pose proof (deque_new_int (S n) _ Hd) as Hm. cbn [maxlen] in Hm.
    rewrite (deque_append_items x d (S n) Hm Hb).
    destruct (most_recent_positive limit (keep_last (S n) (items d ++ [x])) Hpos)
      as (_ & -> & _).
    unfold keep_last. rewrite <- (reverse_involutive (drop _ _)), reverse_involutive.
    rewrite length_app. cbn [length].
    rewrite drop_app_le by lia. rewrite reverse_app. cbn [reverse].
    destruct (Z.to_nat limit) as [|k] eqn:Ek; [lia|]. reflexivity. }
  destruct Hinv as [Im It Ie Ir Iq Ic]. rewrite Hc in It, Ie, Iq.
  rewrite Ht in It. rewrite He in Ie. rewrite Hp in Iq.
  split; [|split].
  - intros now data. do 2 eexists. split; [reflexivity|].
    unfold get_traces. cbn [traces with_traces]. by eapply Hhead.
  - intros now data. do 2 eexists. split; [reflexivity|].
    unfold get_errors. cbn [errors with_errors]. by eapply Hhead.
  - intros now now_rate now_rpm d.
    assert (store_inv s) as Hinv.
    { rewrite <- Ht in It. rewrite <- He in Ie. rewrite <- Hp in Iq.
      rewrite <- Hc in It, Ie, Iq. by split. }
    destruct (record_request_spec s now now_rate now_rpm d Hinv)
      as (s' & E & _ & _ & _ & _ & _ & _ & Hq & _).
    exists s', [("request", EvRequest d)]. split; [exact E|].
    unfold get_requests. rewrite Hq. by eapply Hhead.
Qed.

(** X7 at a store with one trace already recorded. *)
Lemma newest_entry_comes_first_witness :
  let s := store_of (history small_config 0 [OpTrace 1 ∅]) in
  exists s' ev,
    record_trace 2 {["id" := VInt 7]} s = Ok (s', ev) /\
    head (get_traces 50 s') = Some (stamp 2 {["id" := VInt 7]}).
Proof.
  intros s.
  assert (history small_config 0 [OpTrace 1 ∅] = Ok s) as H
    by (apply history_store_of; vm_compute; reflexivity).
  destruct (newest_entry_comes_first small_config 0 [OpTrace 1 ∅] s 50 1 1 1 H)
    as (Ht & _); try (vm_compute; reflexivity).
  exact (Ht 2 {["id" := VInt 7]}).
Defined.

(** ** The figures of the summary *)

Lemma sorted_lookup_le (l : list Q) (i j : nat) x y :
  Sorted Qle l -> (i <= j)%nat -> l !! i = Some x -> l !! j = Some y -> x <= y.
Proof.
  intros Hs. apply Sorted_StronglySorted in Hs; [|intros a b c; apply Qle_trans].
  revert i j. induction Hs as [|a l Hs IH Hall]; intros i j Hij Hi Hj; [done|].
  destruct i as [|i], j as [|j]; cbn in Hi, Hj.
  - injection Hi as <-. injection Hj as <-. apply Qle_refl.
  - injection Hi as <-. rewrite List.Forall_forall in Hall. apply Hall.
    apply list_elem_of_In. by eapply list_elem_of_lookup_2.
  - lia.
  - apply (IH i j); [lia|done|done].
Qed.

Lemma Qnat_nonneg n : 0 <= Qnat n.
Proof. unfold Qnat, Qle. cbn. lia. Qed.

Lemma Qnat_le n m : (n <= m)%nat -> Qnat n <= Qnat m.
Proof. unfold Qnat, Qle. cbn. lia. Qed.

Lemma rank_mono n p q : p <= q -> (rank n p <= rank n q)%nat.
Proof.
  intros Hpq. unfold rank.
  assert (Qfloor (Qnat n * p) <= Qfloor (Qnat n * q))%Z as Hfl.
  { apply Qfloor_resp_le. rewrite !(Qmult_comm (Qnat n)).
    apply Qmult_le_compat_r; [done|apply Qnat_nonneg]. }
  lia.
Qed.

(** On sorted values, a greater percentile gives a greater result. *)
Lemma percentile_mono values p q op oq :
  Sorted Qle values -> 0 <= p -> p <= q ->
  _percentile values p = Ok op -> _percentile values q = Ok oq ->
  or_zero op <= or_zero oq.
Proof.
  intros Hs Hp Hpq Ep Eq.
  destruct values as [|v vs] eqn:Ev.
  { cbn in Ep, Eq. injection Ep as <-. injection Eq as <-. apply Qle_refl. }
  rewrite <- Ev in *.
  assert (values <> []) as Hne by (rewrite Ev; discriminate).
  destruct (percentile_rank values p Hne Hp) as (x & Ex & Lx).
  destruct (percentile_rank values q Hne) as (y & Ey & Ly);
    [by apply (Qle_trans _ p)|].
  rewrite Ex in Ep. injection Ep as <-. rewrite Ey in Eq. injection Eq as <-.
  rewrite !or_zero_Some.
  apply (sorted_lookup_le values _ _ x y Hs (rank_mono _ p q Hpq) Lx Ly).
Qed.

(** X8: in every history the summary returns with [p50 <= p95 <= p99]. *)
Theorem percentiles_are_ordered c t0 ops s now now_res :
  history c t0 ops = Ok s ->
  exists summary,
    _get_metrics_summary now now_res s = Ok summary /\
    sm_p50 summary <= sm_p95 summary /\ sm_p95 summary <= sm_p99 summary.
Proof.
  intros H. destruct (history_inv c t0 ops s H) as [Hinv _].
  destruct (counter_lookup s "http_requests_total" Hinv) as (mt & v & Hmt & Hv);
    [unfold counter_names; set_solver|].
  unfold _get_metrics_summary, metric_item, value_item.
  fold (in_window 300 now s).
  set (durations := sorted (map rq_duration (in_window 300 now s))).
  pose proof (sorted_Sorted (map rq_duration (in_window 300 now s))) as Hs.
  fold durations in Hs.
  destruct (percentile_ok durations 0.5) as (o50 & E50); [done|].
  destruct (percentile_ok durations 0.95) as (o95 & E95); [done|].
  destruct (percentile_ok durations 0.99) as (o99 & E99); [done|].
  rewrite E50, E95, E99, Hmt. cbn [bind]. rewrite Hv. cbn [bind].
  eexists. split; [reflexivity|]. cbn [sm_p50 sm_p95 sm_p99]. split.
  - by apply (percentile_mono durations 0.5 0.95).
  - by apply (percentile_mono durations 0.95 0.99).
Qed.

(** X8 at two requests with durations 50 and 10. *)
Lemma percentiles_are_ordered_witness :
  let ops := [OpRequest 1 1 1 (request (Some 50) None);
              OpRequest 2 2 2 (request (Some 10) None)] in
  let s := store_of (history small_config 0 ops) in
  history small_config 0 ops = Ok s /\
  exists summary,
    _get_metrics_summary 10 10 s = Ok summary /\
    sm_p50 summary <= sm_p95 summary /\ sm_p95 summary <= sm_p99 summary.
Proof.
  intros ops s.
  assert (history small_config 0 ops = Ok s) as H
    by (apply history_store_of; vm_compute; reflexivity).
  exact (conj H (percentiles_are_ordered small_config 0 ops s 10 10 H)).
Defined.

Lemma error_rate_bounds (window : list RequestRecord) :
  0 <= error_rate_of (List.filter is_error window) window /\
  error_rate_of (List.filter is_error window) window <= 100.
Proof.
  destruct (error_rate_of_spec (List.filter is_error window) window) as [H0 H1].
  destruct window as [|r w] eqn:E; [rewrite H0 by done; done|]. rewrite <- E in *.
  assert (window <> []) as Hne by (rewrite E; discriminate).
  rewrite (H1 Hne).
  assert (0 < Qnat (length window)) as Hpos.
  { rewrite E. unfold Qnat, Qlt. cbn. lia. }
  assert (Qnat (length (List.filter is_error window)) <= Qnat (length window)) as Hle.
  { apply Qnat_le. clear. induction window as [|a l IH]; [done|].
    cbn. destruct (is_error a); cbn; lia. }
  split.
  - apply Qle_shift_div_l; [done|]. rewrite Qmult_0_l.
    apply Qmult_le_0_compat; [done|apply Qnat_nonneg].
  - apply Qle_shift_div_r; [done|].
    rewrite !(Qmult_comm 100). by apply Qmult_le_compat_r.
Qed.

(** X9: in every history the error rate of the summary lies between 0
    and 100. *)
Theorem error_rate_is_a_percentage c t0 ops s now now_res :
  history c t0 ops = Ok s ->
  exists summary,
    _get_metrics_summary now now_res s = Ok summary /\
    0 <= sm_error_rate summary /\ sm_error_rate summary <= 100.
Proof.
  intros H. destruct (history_inv c t0 ops s H) as [Hinv _].
  destruct (summary_spec s now now_res Hinv) as (summary & E & _ & _ & Hrate & _).
  exists summary. split; [exact E|]. rewrite Hrate. apply error_rate_bounds.
Qed.

(** X9 at ten requests of which three are errors. *)
Lemma error_rate_is_a_percentage_witness :
  let s := store_of (history default_options_config 0 ten_requests) in
  history default_options_config 0 ten_requests = Ok s /\
  exists summary,
    _get_metrics_summary 10 10 s = Ok summary /\
    0 <= sm_error_rate summary /\ sm_error_rate summary <= 100.
Proof.
  intros s.
  assert (history default_options_config 0 ten_requests = Ok s) as H
    by (apply history_store_of; vm_compute; reflexivity).
  exact (conj H (error_rate_is_a_percentage default_options_config 0 ten_requests s 10 10 H)).
Defined.

(** ** What [record_request] stores beside the log *)

(** X10: in every history, [record_request] with a status of 400 or more
    returns and stores under [http_error_rate] the rate of the request
    log as it was before the call: the request being recorded is not
    counted, so an error recorded into an empty window stores 0. *)
Theorem error_rate_excludes_request_being_recorded c t0 ops s now now_rate now_rpm d :
  history c t0 ops = Ok s ->
  (400 <= default 200 (rd_status_code d))%Z ->
  exists s' ev,
    record_request now now_rate now_rpm d s = Ok (s', ev) /\
    items (request_metrics s') = items (deque_append (request_record now d) (request_metrics s)) /\
    stored_value s' "http_error_rate" =
      Some (error_rate_of (List.filter is_error (in_window 300 now_rate s))
              (in_window 300 now_rate s)) /\
    (in_window 300 now_rate s = [] -> stored_value s' "http_error_rate" = Some 0).
Proof.
  intros H Hst. destruct (history_inv c t0 ops s H) as [Hinv _].
  destruct (record_request_spec s now now_rate now_rpm d Hinv)
    as (s' & E & _ & _ & _ & _ & _ & _ & Hq & _ & _ & (me & Hme & Hme') & _).
  exists s', [("request", EvRequest d)]. split; [exact E|].
  split; [by rewrite Hq|].
  assert ((400 <=? default 200 (rd_status_code d))%Z = true) as E4
    by by apply Z.leb_le.
  rewrite E4 in Hme'. unfold stored_value. rewrite Hme'. cbn [m_value].
  split; [reflexivity|]. by intros ->.
Qed.

(** X10 at a first request with status 500: the stored rate is 0 while
    the summary of the store reports 100. *)
Lemma error_rate_excludes_request_being_recorded_witness :
  let s := store_of (history small_config 0 []) in
  let d := request (Some 10) (Some 500%Z) in
  history small_config 0 [] = Ok s /\
  exists s' ev,
    record_request 1 1 1 d s = Ok (s', ev) /\
    stored_value s' "http_error_rate" = Some 0.
Proof.
  intros s d.
  assert (history small_config 0 [] = Ok s) as H
    by (apply history_store_of; vm_compute; reflexivity).
  assert (400 <= default 200 (rd_status_code d))%Z as Hst by (vm_compute; discriminate).
  split; [exact H|].
  destruct (error_rate_excludes_request_being_recorded small_config 0 [] s 1 1 1 d H Hst)
    as (s' & ev & E & _ & _ & H0).
  exists s', ev. split; [exact E|]. apply H0. vm_compute. reflexivity.
Defined.

Lemma filter_length_le {A} (f : A -> bool) (l : list A) :
  (length (List.filter f l) <= length l)%nat.
Proof. induction l as [|a l IH]; [done|]. cbn. destruct (f a); cbn; lia. Qed.

Lemma filter_snoc {A} (f : A -> bool) (l : list A) x :
  f x = true -> (1 <= length (List.filter f (l ++ [x])))%nat.
Proof.
  intros Hx. rewrite List.filter_app, length_app. cbn. rewrite Hx. cbn. lia.
Qed.

(** X11: in every history whose capacity [max_metric_points] is a
    positive integer, the point that [record_request] appends to
    [http_requests_per_minute] counts the request being recorded, when its
    timestamp lies inside the minute: the count is at least 1, and at most
    the capacity of the request log. *)
Theorem requests_per_minute_counts_request_being_recorded
    c t0 ops s now now_rate now_rpm d (n : nat) :
  history c t0 ops = Ok s ->
  config_get c "max_metric_points" = VInt (Z.of_nat (S n)) ->
  now_rpm - 60 < now ->
  exists s' ev count,
    record_request now now_rate now_rpm d s = Ok (s', ev) /\
    last (series_points s' "http_requests_per_minute") =
      Some {| p_value := Qnat count; p_timestamp := now_rpm |} /\
    count = length (in_window 60 now_rpm s') /\
    (1 <= count <= S n)%nat.
Proof.
  intros H Hcap Hnow. destruct (history_inv c t0 ops s H) as [Hinv Hc].
  destruct (record_request_spec s now now_rate now_rpm d Hinv)
    as (s' & E & _ & _ & _ & _ & _ & _ & Hq & _ & _ & _ &
        (mr & lr & Hmr & Hlr & Hmr') & _).
  exists s', [("request", EvRequest d)], (length (in_window 60 now_rpm s')).
  split; [exact E|]. split.
  { unfold series_points. rewrite Hmr'. cbn [m_values series_items]. apply last_snoc. }
  split; [reflexivity|].
  destruct Hinv as [_ _ _ _ Iq _]. rewrite Hc, Hcap in Iq.
  pose proof Iq as [Hd Hb].
  pose proof (deque_new_int (S n) _ Hd) as Hm. cbn [maxlen] in Hm.
  unfold in_window. rewrite Hq.
  rewrite (deque_append_items _ _ (S n) Hm Hb).
  set (r := request_record now d).
  assert (exists l', keep_last (S n) (items (request_metrics s) ++ [r]) = l' ++ [r])
    as [l' Hl'].
  { unfold keep_last. rewrite length_app. cbn [length].
    rewrite drop_app_le by lia. by eexists. }
  split.
  - rewrite Hl'. apply filter_snoc. apply Qltb_lt. exact Hnow.
  - etransitivity; [apply filter_length_le|].
    rewrite keep_last_length. lia.
Qed.

(** X11 at a third request into a log of capacity 2. *)
Lemma requests_per_minute_counts_request_being_recorded_witness :
  let ops := [OpRequest 1 1 1 (request (Some 50) None);
              OpRequest 2 2 2 (request (Some 10) None)] in
  let s := store_of (history small_config 0 ops) in
  history small_config 0 ops = Ok s /\
  exists s' ev count,
    record_request 3 3 3 (request None None) s = Ok (s', ev) /\
    last (series_points s' "http_requests_per_minute") =
      Some {| p_value := Qnat count; p_timestamp := 3 |} /\
    (1 <= count <= 2)%nat.
Proof.
  intros ops s.
  assert (history small_config 0 ops = Ok s) as H
    by (apply history_store_of; vm_compute; reflexivity).
  assert (config_get small_config "max_metric_points" = VInt (Z.of_nat 2)) as Hcap
    by (vm_compute; reflexivity).
  assert (3 - 60 < 3) as Hnow by (vm_compute; reflexivity).
  split; [exact H|].
  destruct (requests_per_minute_counts_request_being_recorded small_config 0 ops s
              3 3 3 (request None None) 1 H Hcap Hnow)
    as (s' & ev & count & E & Hl & _ & Hc).
  exists s', ev, count. exact (conj E (conj Hl Hc)).
Defined.

(** ** The latest resource snapshot *)

(** X12: in every history whose capacity [max_metric_points] is a
    positive integer, after [record_resource_metrics] the latest snapshot
    is the payload just recorded: its timestamp when it has one and the
    clock reading of the call otherwise, never the reading of the query;
    an absent [cpu] reads 0 and absent [memory] and [system] read as empty
    maps.  While nothing is recorded the snapshot is empty. *)
Theorem latest_snapshot_is_last_recorded c t0 ops s now d (n : nat) :
  history c t0 ops = Ok s ->
  config_get c "max_metric_points" = VInt (Z.of_nat (S n)) ->
  (items (resource_metrics s) = [] ->
   forall now_res, _get_latest_resource_metrics now_res s = None) /\
  exists s' ev,
    record_resource_metrics now d s = Ok (s', ev) /\
    forall now_res,
      _get_latest_resource_metrics now_res s' =
        Some {| lr_cpu := default 0 (res_cpu d);
                lr_memory := default {| mem_rss := None; mem_percent := None |}
                               (res_memory d);
                lr_system := default {| sys_load_average := None; sys_memory := None |}
                               (res_system d);
                lr_timestamp := default now (res_timestamp d) |}.
Proof.
  intros H Hcap. destruct (history_inv c t0 ops s H) as [Hinv Hc]. split.
  { intros He now_res. unfold _get_latest_resource_metrics. by rewrite He. }
  destruct (record_resource_metrics_spec s now d Hinv)
    as (s' & E & _ & _ & _ & _ & _ & _ & Hr & _).
  exists s', [("resource", EvResource (resource_record now d))].
  split; [exact E|]. intros now_res.
  destruct Hinv as [_ _ _ Ir _ _]. rewrite Hc, Hcap in Ir.
  pose proof Ir as [Hd Hb].
  pose proof (deque_new_int (S n) _ Hd) as Hm. cbn [maxlen] in Hm.
  unfold _get_latest_resource_metrics. rewrite Hr.
  rewrite (deque_append_items _ _ (S n) Hm Hb).
  unfold keep_last. rewrite length_app. cbn [length].
  rewrite drop_app_le by lia. rewrite last_snoc.
  reflexivity.
Qed.

(** X12 at a payload without fields, recorded at time 5 and read at
    time 9. *)
Lemma latest_snapshot_is_last_recorded_witness :
  let s := store_of (history small_config 0 []) in
  let d := {| res_timestamp := None; res_cpu := None; res_memory := None;
              res_system := None |} in
  history small_config 0 [] = Ok s /\
  exists s' ev,
    record_resource_metrics 5 d s = Ok (s', ev) /\
    option_map lr_timestamp (_get_latest_resource_metrics 9 s') = Some 5 /\
    option_map lr_cpu (_get_latest_resource_metrics 9 s') = Some 0.
Proof.
  intros s d.
  assert (history small_config 0 [] = Ok s) as H
    by (apply history_store_of; vm_compute; reflexivity).
  assert (config_get small_config "max_metric_points" = VInt (Z.of_nat 2)) as Hcap
    by (vm_compute; reflexivity).
  split; [exact H|].
  destruct (latest_snapshot_is_last_recorded small_config 0 [] s 5 d 1 H Hcap)
    as (_ & s' & ev & E & Hl).
  exists s', ev. split; [exact E|]. rewrite (Hl 9). split; reflexivity.
Defined.

(** ** Shutdown and restart *)

Lemma union_same_dom (m1 m2 : gmap string Metric) :
  dom m2 = dom m1 -> m1 ∪ m2 = m1.
Proof.
  intros Hd. apply map_eq. intros k.
  destruct (m1 !! k) as [x|] eqn:E1.
  - by apply lookup_union_Some_l.
  - rewrite lookup_union_r by exact E1.
    apply not_elem_of_dom. rewrite Hd. by apply not_elem_of_dom.
Qed.

Lemma history_nil c t s0 : new_store c t = Ok s0 -> history c t [] = Ok s0.
Proof. intros H. unfold history. rewrite H. reflexivity. Qed.

(** X13: in every history, [shutdown] writes nothing when persistence is
    off, and a store is then constructed without reading a data file.
    When persistence is on, [shutdown] writes a document stamped with the
    clock reading, and a store constructed with the same configuration on
    that document has the system metrics of the store that was shut down,
    timestamps included, and the same counts in [get_stats]. *)
Theorem shutdown_then_restart c t0 ops s now :
  history c t0 ops = Ok s ->
  (truthy (config_get c "persistence") = false ->
   shutdown now s = None /\
   forall t1 file, DataStore_init c t1 file = new_store c t1) /\
  (truthy (config_get c "persistence") = true ->
   exists data,
     shutdown now s = Some data /\ ps_timestamp data = Some now /\
     forall t1, exists s',
       DataStore_init c t1 (Some data) = Ok s' /\
       metrics s' = metrics s /\ get_stats s' = get_stats s).
Proof.
  intros H. destruct (history_inv c t0 ops s H) as [Hinv Hc].
  destruct (history_new_store c t0 ops s H) as [s00 H00]. split.
  - intros Hp. split.
    + unfold shutdown. by rewrite Hc, Hp.
    + intros t1 file. unfold DataStore_init.
      destruct (new_store c t1) as [s0|]; [|reflexivity].
      cbn [bind]. by rewrite Hp.
  - intros Hp. eexists. split; [|split].
    + unfold shutdown. rewrite Hc, Hp. rewrite <- Hc in Hp.
      by apply persist_data_ok.
    + reflexivity.
    + intros t1.
      assert (exists s0, new_store c t1 = Ok s0) as [s0 H0].
      { eexists. apply (new_store_any_time c t0 t1 s00 H00). }
      assert (exists s', DataStore_init c t1
                (Some {| ps_metrics := Some (metrics s);
                         ps_custom_metrics :=
                           Some ((fun v => {| pc_values := items (cm_values v);
                                              pc_attributes := cm_attributes v |})
                                 <$> custom_metrics s);
                         ps_traces := Some (items (traces s));
                         ps_errors := Some (items (errors s));
                         ps_request_metrics := Some (items (request_metrics s));
                         ps_resource_metrics := Some (items (resource_metrics s));
                         ps_timestamp := Some now |}) = Ok s') as [s' Hs'].
      { unfold DataStore_init. rewrite H0. cbn [bind]. rewrite Hp. by eexists. }
      exists s'. split; [exact Hs'|].
      destruct (init_with_data c t1 _ s' Hp Hs')
        as (s0' & H0' & _ & Hm & Ht & He & Hq & Hr & Hcm).
      rewrite H0 in H0'. apply Ok_inj in H0'. subst s0'.
      cbn [default from_option id ps_metrics ps_traces ps_errors ps_request_metrics
           ps_resource_metrics ps_custom_metrics] in Hm, Ht, He, Hq, Hr, Hcm.
      destruct (new_store_deques c t1 s0 H0) as (Dt & De & Dr & Dq).
      destruct Hinv as [Im It Ie Ir Iq Ic]. rewrite Hc in It, Ie, Ir, Iq.
      assert (metrics s' = metrics s) as Em.
      { rewrite Hm. apply union_same_dom.
        destruct (history_metrics c t0 ops s H) as [-> _].
        by destruct (history_metrics c t1 [] s0 (history_nil c t1 s0 H0)) as [-> _]. }
      split; [exact Em|].
      unfold get_stats. rewrite Em, Ht, He, Hq, Hr, Hcm.
      rewrite (restored_log_same _ _ _ It Dt), (restored_log_same _ _ _ Ie De),
        (restored_log_same _ _ _ Iq Dq), (restored_log_same _ _ _ Ir Dr).
      rewrite (right_id_L ∅ (∪)), !map_size_fmap. reflexivity.
Qed.

(** X13 at a store with persistence on that holds three traces in a log
    of capacity 2 and one custom metric. *)
Lemma shutdown_then_restart_witness :
  let ops := [OpTrace 1 ∅; OpTrace 2 ∅; OpTrace 3 ∅; OpCustomMetric 4 "x" 1 ∅] in
  let s := store_of (history (persistent_config 2) 0 ops) in
  history (persistent_config 2) 0 ops = Ok s /\
  exists data s',
    shutdown 5 s = Some data /\
    DataStore_init (persistent_config 2) 6 (Some data) = Ok s' /\
    get_stats s' = get_stats s.
Proof.
  intros ops s.
  assert (history (persistent_config 2) 0 ops = Ok s) as H
    by (apply history_store_of; vm_compute; reflexivity).
  assert (truthy (config_get (persistent_config 2) "persistence") = true) as Hp
    by (vm_compute; reflexivity).
  split; [exact H|].
  destruct (shutdown_then_restart (persistent_config 2) 0 ops s 5 H) as [_ Hon].
  destruct (Hon Hp) as (data & Hd & _ & Hrestart).
  destruct (Hrestart 6) as (s' & Hs' & _ & Hst).
  exists data, s'. exact (conj Hd (conj Hs' Hst)).
Defined.

(** ** A constructed configuration *)

Lemma eq_str_exclusive v : eq_str v "development" && eq_str v "production" = false.
Proof.
  destruct v as [| | | |s|]; try reflexivity. cbn [eq_str].
  destruct (String.eqb s "development") eqn:E; [|reflexivity].
  apply String.eqb_eq in E. by subst s.
Qed.


Section ConstructedConfig.

Variable py_int : string -> result Z.
Variable py_float : string -> result Q.

Ltac parse_default H :=
  match type of H with
  | bind ?X _ = Ok _ =>
      let E := fresh "E" in
      destruct X eqn:E; [cbn [bind] in H|discriminate H]
  end.

Ltac default_key :=
  cbn [list_to_map foldr fst snd];
  repeat (rewrite lookup_insert_ne by done);
  apply lookup_insert_eq.

Ltac absent_key :=
  repeat (rewrite lookup_insert_ne by done); apply lookup_empty.

(** A constructed configuration is the defaults overridden by the
    options, and has passed the validation. *)
Lemma constructed_config env options config :
  ConfigManager_init py_int py_float env options = Ok config ->
  exists d,
    default_config py_int py_float env = Ok d /\
    config = options ∪ d /\
    _validate_config config = Ok tt.
Proof.
  unfold ConfigManager_init, _build_config.
  destruct (default_config py_int py_float env) as [d|]; [|discriminate].
  cbn [bind].
  destruct (_validate_config (options ∪ d)) as [[]|] eqn:E; [|discriminate].
  cbn [bind]. intros Hc. apply Ok_inj in Hc. subst config. by exists d.
Qed.

(** The keys that [get_summary], [is_development] and [is_production]
    read are in the defaults. *)
Lemma default_config_summary_keys env d :
  default_config py_int py_float env = Ok d ->
  d !! "environment" = Some (VStr (default "development" (env !! "ENVIRONMENT"))) /\
  Forall (fun key => is_Some (d !! key))
    ["service_name"; "environment"; "dashboard"; "dashboard_port"; "enable_tracing";
     "enable_metrics"; "sample_rate"; "persistence"].
Proof.
  intros H. unfold default_config in H.
  do 11 parse_default H. apply Ok_inj in H. subst d.
  split; [default_key|].
  repeat apply Forall_cons_2; try apply Forall_nil_2; (eexists; default_key).
Qed.

Lemma merged_is_Some (options d : gmap string Val) key :
  is_Some (d !! key) -> is_Some ((options ∪ d) !! key).
Proof.
  intros [v Hv]. rewrite merged_lookup. destruct (options !! key); [by eexists|].
  by exists v.
Qed.

Lemma config_item_Some config key v : config !! key = Some v -> config_item config key = Ok v.
Proof. unfold config_item. by intros ->. Qed.

(** X14: on a constructed configuration [get_summary] returns, whatever
    the options were; the summary has the eight keys ['service_name'],
    ['environment'], ['dashboard'], ['dashboard_port'], ['enable_tracing'],
    ['enable_metrics'], ['sample_rate'] and ['persistence'], each with the
    value the configuration holds, and no other key. *)
Theorem summary_of_constructed_config env options config :
  ConfigManager_init py_int py_float env options = Ok config ->
  exists summary,
    get_summary config = Ok summary /\
    size summary = 8%nat /\
    Forall (fun key => is_Some (summary !! key) /\ summary !! key = config !! key)
      ["service_name"; "environment"; "dashboard"; "dashboard_port"; "enable_tracing";
       "enable_metrics"; "sample_rate"; "persistence"].
Proof.
  intros H. destruct (constructed_config env options config H) as (d & Hd & -> & _).
  destruct (default_config_summary_keys env d Hd) as [_ Hk].
  repeat match goal with
         | H : Forall _ (_ :: _) |- _ =>
             apply Forall_cons in H;
             let K := fresh "K" in
             destruct H as [K H];
             apply (merged_is_Some options) in K;
             let v := fresh "v" in destruct K as [v K]
         end.
  unfold get_summary.
  repeat match goal with
         | K : (options ∪ d) !! ?key = Some ?v |- context [config_item _ ?key] =>
             rewrite (config_item_Some _ key v K)
         end.
  cbn [bind]. eexists. split; [reflexivity|]. split.
  { cbn [list_to_map foldr fst snd].
    rewrite !map_size_insert_None by absent_key.
    by rewrite map_size_empty. }
  repeat apply Forall_cons_2; try apply Forall_nil_2;
    match goal with
    | K : (options ∪ d) !! ?key = Some ?v |- is_Some (_ !! ?key) /\ _ =>
        rewrite K; split; [eexists|]; default_key
    end.
Qed.

(** X15: on a constructed configuration [is_development] and
    [is_production] return, never both with [True]; they compare with the
    ['environment'] of the options when the options set it, and otherwise
    with the variable [ENVIRONMENT], which reads ['development'] when it is
    not set. *)
Theorem environment_flags env options config :
  ConfigManager_init py_int py_float env options = Ok config ->
  let environment :=
    match options !! "environment" with
    | Some v => v
    | None => VStr (default "development" (env !! "ENVIRONMENT"))
    end in
  is_development config = Ok (eq_str environment "development") /\
  is_production config = Ok (eq_str environment "production") /\
  eq_str environment "development" && eq_str environment "production" = false /\
  (options !! "environment" = None -> env !! "ENVIRONMENT" = None ->
   is_development config = Ok true /\ is_production config = Ok false).
Proof.
  intros H environment.
  destruct (constructed_config env options config H) as (d & Hd & -> & _).
  destruct (default_config_summary_keys env d Hd) as [He _].
  assert ((options ∪ d) !! "environment" = Some environment) as Hlook.
  { rewrite merged_lookup. unfold environment.
    destruct (options !! "environment"); [reflexivity|exact He]. }
  unfold is_development, is_production.
  rewrite (config_item_Some _ _ _ Hlook). cbn [bind].
  split; [reflexivity|]. split; [reflexivity|].
  split; [apply eq_str_exclusive|].
  intros Ho Hv. unfold environment. rewrite Ho, Hv. split; reflexivity.
Qed.


End ConstructedConfig.

(** X14 at an empty environment and no options. *)
Lemma summary_of_constructed_config_witness :
  ConfigManager_init no_int no_float ∅ ∅ = Ok default_options_config /\
  exists summary,
    get_summary default_options_config = Ok summary /\ size summary = 8%nat.
Proof.
  assert (ConfigManager_init no_int no_float ∅ ∅ = Ok default_options_config) as H.
  { unfold default_options_config, config_of.
    assert (is_ok (ConfigManager_init no_int no_float ∅ ∅) = true) as Hok
      by (vm_compute; reflexivity).
    by destruct (ConfigManager_init no_int no_float ∅ ∅). }
  split; [exact H|].
  destruct (summary_of_constructed_config no_int no_float ∅ ∅ default_options_config H)
    as (summary & E & Hsize & _).
  exists summary. exact (conj E Hsize).
Defined.

(** X15 at an empty environment and no options: development mode. *)
Lemma environment_flags_witness :
  ConfigManager_init no_int no_float ∅ ∅ = Ok default_options_config /\
  is_development default_options_config = Ok true /\
  is_production default_options_config = Ok false.
Proof.
  assert (ConfigManager_init no_int no_float ∅ ∅ = Ok default_options_config) as H.
  { unfold default_options_config, config_of.
    assert (is_ok (ConfigManager_init no_int no_float ∅ ∅) = true) as Hok
      by (vm_compute; reflexivity).
    by destruct (ConfigManager_init no_int no_float ∅ ∅). }
  split; [exact H|].
  destruct (environment_flags no_int no_float ∅ ∅ default_options_config H)
    as (_ & _ & _ & Hdev).
  apply Hdev; reflexivity.
Defined.


(** ** Parsed headers *)

Lemma lstrip_head s :
  lstrip s = EmptyString \/
  exists c t, lstrip s = String c t /\ is_space c = false.
Proof.
  induction s as [|c s IH]; [by left|]. cbn [lstrip].
  destruct (is_space c) eqn:E; [exact IH|]. right. by exists c, s.
Qed.

Lemma rstrip_head c t :
  is_space c = false -> exists r, rstrip (String c t) = String c r.
Proof.
  intros Hc. cbn [rstrip]. destruct (rstrip t); [rewrite Hc|]; by eexists.
Qed.

Lemma rstrip_idem s : rstrip (rstrip s) = rstrip s.
Proof.
  induction s as [|c s IH]; [reflexivity|]. cbn [rstrip].
  destruct (rstrip s) as [|c' r] eqn:E.
  - destruct (is_space c) eqn:Ec; [reflexivity|]. cbn [rstrip]. by rewrite Ec.
  - change (rstrip (String c (String c' r)))
      with (match rstrip (String c' r) with
            | EmptyString => if is_space c then EmptyString else String c EmptyString
            | r' => String c r'
            end).
    by rewrite IH.
Qed.

(** [strip] is idempotent. *)
Lemma strip_trimmed s : trimmed (strip s).
Proof.
  unfold trimmed, strip.
  destruct (lstrip_head s) as [->|(c & t & -> & Hc)]; [reflexivity|].
  destruct (rstrip_head c t Hc) as [r Hr]. rewrite Hr.
  cbn [lstrip]. rewrite Hc. rewrite <- Hr. apply rstrip_idem.
Qed.

Lemma parse_headers_fold (headers : list string) (acc : gmap string string) :
  map_Forall (fun key value => trimmed key /\ trimmed value) acc ->
  map_Forall (fun key value => trimmed key /\ trimmed value)
    (fold_left
       (fun headers header =>
          match split_once "=" header with
          | Some (key, value) => <[strip key := strip value]> headers
          | None => headers
          end) headers acc).
Proof.
  revert acc. induction headers as [|h hs IH]; intros acc Hacc; [exact Hacc|].
  cbn [fold_left]. apply IH.
  destruct (split_once "=" h) as [[key value]|]; [|exact Hacc].
  apply map_Forall_insert_2; [|exact Hacc].
  split; apply strip_trimmed.
Qed.

(** X17: every key and every value of the dict that [_parse_headers]
    returns is stripped of the white space around it. *)
Theorem parsed_headers_are_trimmed headers_string key value :
  _parse_headers headers_string !! key = Some value ->
  trimmed key /\ trimmed value.
Proof.
  intros H.
  assert (map_Forall (fun key value => trimmed key /\ trimmed value)
            (_parse_headers headers_string)) as Hall.
  { unfold _parse_headers. destruct headers_string as [[|c s]|].
    - apply map_Forall_empty.
    - apply parse_headers_fold. apply map_Forall_empty.
    - apply map_Forall_empty. }
  exact (Hall key value H).
Qed.

(** X17 at two headers written with spaces. *)
Lemma parsed_headers_are_trimmed_witness :
  _parse_headers (Some " a = b , c=d") !! "a" = Some "b" /\
  trimmed "a" /\ trimmed "b".
Proof.
  assert (_parse_headers (Some " a = b , c=d") !! "a" = Some "b") as H
    by (vm_compute; reflexivity).
  exact (conj H (parsed_headers_are_trimmed (Some " a = b , c=d") "a" "b" H)).
Defined.

(** ** What a history leaves in the custom metrics and the request log *)

(** [record_custom_metric] adds the name and changes nothing but the
    custom metrics. *)
Lemma record_custom_metric_frame s now name value attributes :
  store_inv s ->
  exists s' ev,
    record_custom_metric now name value attributes s = Ok (s', ev) /\
    dom (custom_metrics s') = {[name]} ∪ dom (custom_metrics s) /\
    metrics s' = metrics s /\ traces s' = traces s /\ errors s' = errors s /\
    request_metrics s' = request_metrics s /\ resource_metrics s' = resource_metrics s.
Proof.
  intros Hinv. pose proof (inv_request s Hinv) as [Hnew _].
  apply (deque_new_any (B := Point)) in Hnew.
  unfold record_custom_metric.
  destruct (custom_metrics s !! name) as [cm|] eqn:Ecm.
  - cbn [bind]. rewrite Ecm. cbn [bind]. do 2 eexists. split; [reflexivity|].
    cbn [custom_metrics with_custom_metrics metrics traces errors request_metrics
         resource_metrics].
    split; [|done]. rewrite dom_insert_L. reflexivity.
  - rewrite Hnew. cbn [bind custom_metrics with_custom_metrics].
    rewrite lookup_insert_eq. cbn [bind]. do 2 eexists. split; [reflexivity|].
    cbn [custom_metrics with_custom_metrics metrics traces errors request_metrics
         resource_metrics].
    split; [|done]. by rewrite insert_insert_eq, dom_insert_L.
Qed.

Lemma step_custom_names op s s' ev :
  store_inv s -> step op s = Ok (s', ev) ->
  dom (custom_metrics s') =
    match op with
    | OpCustomMetric _ name _ _ => {[name]} ∪ dom (custom_metrics s)
    | OpClear _ => ∅
    | _ => dom (custom_metrics s)
    end.
Proof.
  intros Hinv Hstep.
  destruct op as [now nr np d|now d|now d|now d|now n x a|now]; cbn [step] in Hstep.
  - destruct (record_request_spec s now nr np d Hinv)
      as (s1 & E & _ & _ & _ & _ & Hcm & _).
    rewrite E in Hstep. apply Ok_inj in Hstep. injection Hstep as <- _.
    by rewrite Hcm.
  - apply Ok_inj in Hstep. by injection Hstep as <- _.
  - apply Ok_inj in Hstep. by injection Hstep as <- _.
  - destruct (record_resource_metrics_spec s now d Hinv)
      as (s1 & E & _ & _ & _ & _ & Hcm & _).
    rewrite E in Hstep. apply Ok_inj in Hstep. injection Hstep as <- _.
    by rewrite Hcm.
  - destruct (record_custom_metric_frame s now n x a Hinv) as (s1 & ev1 & E & D & _).
    rewrite E in Hstep. apply Ok_inj in Hstep. by injection Hstep as <- _.
  - unfold clear in Hstep. apply Ok_inj in Hstep. injection Hstep as <- _.
    cbn [custom_metrics _initialize_metrics with_metrics]. apply dom_empty_L.
Qed.

Lemma run_custom_names ops s s' :
  store_inv s -> run ops s = Ok s' ->
  dom (custom_metrics s') = custom_names (dom (custom_metrics s)) ops.
Proof.
  revert s. induction ops as [|op ops IH]; intros s Hinv Hrun.
  - cbn in Hrun. apply Ok_inj in Hrun. by subst s'.
  - cbn [run] in Hrun.
    destruct (step_inv op s Hinv) as (s1 & ev & E & I1 & _).
    rewrite E in Hrun. cbn [bind fst] in Hrun.
    pose proof (step_custom_names op s s1 ev Hinv E) as D1.
    rewrite (IH s1 I1 Hrun), D1. by destruct op.
Qed.

(** X18: in every history, [get_metrics] returns; its ['custom'] part
    has exactly the names passed to [record_custom_metric] since the last
    [clear], whatever else was recorded, and [get_stats] counts them. *)
Theorem custom_metrics_are_those_recorded c t0 ops s now now_res :
  history c t0 ops = Ok s ->
  exists view,
    get_metrics now now_res s = Ok view /\
    dom (mv_custom view) = custom_names ∅ ops /\
    st_custom_metrics (get_stats s) = size (custom_names ∅ ops).
Proof.
  intros H. destruct (history_inv c t0 ops s H) as [Hinv _].
  assert (dom (custom_metrics s) = custom_names ∅ ops) as Hdom.
  { revert H. unfold history.
    destruct (new_store c t0) as [s0|] eqn:E0; [|discriminate]. cbn [bind].
    intros Hrun. destruct (new_store_inv c t0 s0 E0) as [I0 _].
    rewrite (run_custom_names ops s0 s I0 Hrun). f_equal.
    pose proof (new_store_any_time c t0 t0 s0 E0) as Hs0.
    rewrite E0 in Hs0. apply Ok_inj in Hs0.
    assert (custom_metrics s0 = ∅) as ->; [|apply dom_empty_L].
    revert E0. unfold new_store.
    destruct (deque_new (config_get c "max_traces")); [|discriminate].
    destruct (deque_new (config_get c "max_errors")); [|discriminate].
    destruct (deque_new (config_get c "max_metric_points")); [|discriminate].
    destruct (@deque_new RequestRecord (config_get c "max_metric_points"));
      [|discriminate].
    cbn [bind]. intros E. apply Ok_inj in E. by subst s0. }
  destruct (summary_spec s now now_res Hinv) as (summary & E & _).
  unfold get_metrics. rewrite E. cbn [bind]. eexists. split; [reflexivity|].
  cbn [mv_custom get_stats st_custom_metrics]. split.
  - by rewrite dom_fmap_L.
  - by rewrite <- Hdom, size_dom.
Qed.

(** X18 at a metric recorded twice, a [clear], and another metric. *)
Lemma custom_metrics_are_those_recorded_witness :
  let ops := [OpCustomMetric 1 "x" 1 ∅; OpCustomMetric 2 "x" 2 ∅; OpClear 3;
              OpCustomMetric 4 "y" 3 ∅] in
  let s := store_of (history small_config 0 ops) in
  history small_config 0 ops = Ok s /\
  st_custom_metrics (get_stats s) = 1%nat.
Proof.
  intros ops s.
  assert (history small_config 0 ops = Ok s) as H
    by (apply history_store_of; vm_compute; reflexivity).
  split; [exact H|].
  destruct (custom_metrics_are_those_recorded small_config 0 ops s 5 5 H)
    as (view & _ & _ & Hst).
  rewrite Hst. vm_compute. reflexivity.
Defined.

Lemma step_request_times op s s' ev (n : nat) :
  store_inv s -> step op s = Ok (s', ev) ->
  maxlen (request_metrics s) = Some n ->
  map rq_timestamp (items (request_metrics s')) =
    match op with
    | OpRequest now _ _ _ =>
        keep_last n (map rq_timestamp (items (request_metrics s)) ++ [now])
    | OpClear _ => []
    | _ => map rq_timestamp (items (request_metrics s))
    end.
Proof.
  intros Hinv Hstep Hn.
  destruct op as [now nr np d|now d|now d|now d|now m x a|now]; cbn [step] in Hstep.
  - destruct (record_request_spec s now nr np d Hinv)
      as (s1 & E & _ & _ & _ & _ & _ & _ & Hq & _).
    rewrite E in Hstep. apply Ok_inj in Hstep. injection Hstep as <- _.
    rewrite Hq. destruct (inv_request s Hinv) as [_ Hb].
    rewrite (deque_append_items _ _ n Hn Hb).
    unfold keep_last. change (@map) with (@fmap list _).
    rewrite fmap_drop, fmap_app, !length_app, length_fmap. reflexivity.
  - apply Ok_inj in Hstep. by injection Hstep as <- _.
  - apply Ok_inj in Hstep. by injection Hstep as <- _.
  - destruct (record_resource_metrics_spec s now d Hinv)
      as (s1 & E & _ & _ & _ & _ & _ & Hq & _).
    rewrite E in Hstep. apply Ok_inj in Hstep. injection Hstep as <- _.
    by rewrite Hq.
  - destruct (record_custom_metric_frame s now m x a Hinv)
      as (s1 & ev1 & E & _ & _ & _ & _ & Hq & _).
    rewrite E in Hstep. apply Ok_inj in Hstep. injection Hstep as <- _.
    by rewrite Hq.
  - unfold clear in Hstep. apply Ok_inj in Hstep. by injection Hstep as <- _.
Qed.

Lemma step_request_maxlen op s s' ev :
  store_inv s -> step op s = Ok (s', ev) ->
  maxlen (request_metrics s') = maxlen (request_metrics s).
Proof.
  intros Hinv Hstep.
  destruct (step_inv op s Hinv) as (s1 & ev1 & E & I1 & C1).
  rewrite E in Hstep. apply Ok_inj in Hstep. injection Hstep as <- _.
  destruct (inv_request s Hinv) as [H0 _]. destruct (inv_request s1 I1) as [H1 _].
  rewrite C1, H0 in H1. apply Ok_inj in H1. by injection H1 as ->.
Qed.

Lemma run_request_times ops s s' (n : nat) times :
  store_inv s -> run ops s = Ok s' ->
  maxlen (request_metrics s) = Some n ->
  map rq_timestamp (items (request_metrics s)) = keep_last n times ->
  map rq_timestamp (items (request_metrics s')) = keep_last n (request_times times ops).
Proof.
  revert s times. induction ops as [|op ops IH]; intros s times Hinv Hrun Hn Ht.
  - cbn in Hrun. apply Ok_inj in Hrun. by subst s'.
  - cbn [run] in Hrun.
    destruct (step_inv op s Hinv) as (s1 & ev & E & I1 & _).
    rewrite E in Hrun. cbn [bind fst] in Hrun.
    pose proof (step_request_times op s s1 ev n Hinv E Hn) as T1.
    pose proof (step_request_maxlen op s s1 ev Hinv E) as M1. rewrite Hn in M1.
    destruct op; cbn [request_times]; apply (IH s1 _ I1 Hrun M1); rewrite T1;
      try exact Ht.
    + rewrite Ht. apply keep_last_app.
    + reflexivity.
Qed.

(** X19: in every history whose capacity [max_metric_points] is an
    integer [n], the request log holds, in the order of the calls, the
    requests recorded since the last [clear], the newest [n] of them: the
    timestamps of its entries are the last [n] readings of those calls. *)
Theorem request_log_keeps_newest c t0 ops s (n : nat) :
  history c t0 ops = Ok s ->
  config_get c "max_metric_points" = VInt (Z.of_nat n) ->
  map rq_timestamp (items (request_metrics s)) = keep_last n (request_times [] ops).
Proof.
  intros H Hcap. revert H. unfold history.
  destruct (new_store c t0) as [s0|] eqn:E0; [|discriminate]. cbn [bind].
  intros Hrun. destruct (new_store_inv c t0 s0 E0) as [I0 _].
  destruct (new_store_deques c t0 s0 E0) as (_ & _ & _ & Dq).
  rewrite Hcap in Dq.
  pose proof (deque_new_int n _ Dq) as Hn.
  apply (run_request_times ops s0 s n [] I0 Hrun Hn).
  destruct (deque_new_shape _ _ Dq) as [-> _]. reflexivity.
Qed.

(** X19 at three requests, a [clear], and three more requests into a log
    of capacity 2. *)
Lemma request_log_keeps_newest_witness :
  let ops := [OpRequest 1 1 1 (request None None); OpRequest 2 2 2 (request None None);
              OpRequest 3 3 3 (request None None); OpClear 4;
              OpRequest 5 5 5 (request None None); OpRequest 6 6 6 (request None None);
              OpRequest 7 7 7 (request None None)] in
  let s := store_of (history small_config 0 ops) in
  history small_config 0 ops = Ok s /\
  map rq_timestamp (items (request_metrics s)) = [6; 7].
Proof.
  intros ops s.
  assert (history small_config 0 ops = Ok s) as H
    by (apply history_store_of; vm_compute; reflexivity).
  assert (config_get small_config "max_metric_points" = VInt (Z.of_nat 2)) as Hcap
    by (vm_compute; reflexivity).
  split; [exact H|].
  rewrite (request_log_keeps_newest small_config 0 ops s 2 H Hcap).
  vm_compute. reflexivity.
Defined.
